(** * search_packages.py: searching RPM repository metadata for packages

    A shallow embedding of [src/search_packages.py] and the properties of
    it that the specification states.

    Python values are modelled as follows.
    - [str] is [string]; a string holds the UTF-8 encoding of the text, so
      that equality, concatenation and the substring test agree with
      Python's.  [str.lower] belongs to the run-time interface below.
    - [bytes] is [list byte].
    - A dictionary with string keys is a [gmap string _]; a dictionary
      with a fixed set of keys (a package entry, a repository
      configuration) is a record.
    - [None] or a string is [option string].
    - An exception is a value of [exn]; code that may raise returns
      [exn + A].
    - Code that prints or talks to the network is a function of the state
      of the outside world that also returns the events it caused, in
      order. *)

From Stdlib Require Import ZArith Ascii.
From Stdlib Require Strings.Byte.
From stdpp Require Import base strings list gmap pretty.

(** ** Exceptions *)

(** [Exception msg] is an instance of (a subclass of) Python's [Exception]
    whose [str()] is [msg]; [SystemExit code] is what [parser.error] and
    [exit] raise.  [SystemExit] is not an [Exception]: [except Exception]
    does not catch it. *)
Inductive exn :=
  | Exception (msg : string)
  | SystemExit (code : Z).

Definition Result (A : Type) : Type := exn + A.

Definition rbind {A B} (m : Result A) (k : A → Result B) : Result B :=
  match m with
  | inl e => inl e
  | inr a => k a
  end.

Notation "'let?' x := m 'in' k" := (rbind m (λ x, k))
  (at level 10, x name, m at level 100, k at level 200,
   format "'[' 'let?'  x  :=  m  'in' ']' '/' k").

(** Messages of the built-in exceptions the program can run into. *)
Definition AttributeError_None (attr : string) : exn :=
  Exception ("'NoneType' object has no attribute '" +:+ attr +:+ "'").
Definition KeyError (key : string) : exn :=
  Exception ("'" +:+ key +:+ "'").
Definition IndexError : exn :=
  Exception "list index out of range".

(** ** Strings and bytes *)

Definition bytes : Type := list Byte.byte.

#[global] Instance byte_eq_dec : EqDecision Byte.byte := Strings.Byte.byte_eq_dec.

(** The bytes literal of an ASCII text. *)
Definition B (s : string) : bytes := String.list_byte_of_string s.

(** [needle in hay] *)
Fixpoint str_in (needle hay : string) : bool :=
  String.prefix needle hay ||
  match hay with
  | EmptyString => false
  | String _ rest => str_in needle rest
  end.

(** [s.replace(old, new)]: every occurrence of [old], left to right and
    without overlap.  [skip] counts the characters of an occurrence that
    was just replaced and that are still to be dropped. *)
Fixpoint replace_from (old new : string) (skip : nat) (s : string) : string :=
  match s with
  | EmptyString => EmptyString
  | String c rest =>
      match skip with
      | S k => replace_from old new k rest
      | O =>
          if String.prefix old s
          then new +:+ replace_from old new (Nat.pred (String.length old)) rest
          else String c (replace_from old new O rest)
      end
  end.

(** With an empty [old], Python puts [new] before every character and at
    the end. *)
Fixpoint interleave (new s : string) : string :=
  match s with
  | EmptyString => new
  | String c rest => new +:+ String c (interleave new rest)
  end.

Definition str_replace (s old new : string) : string :=
  match old with
  | EmptyString => interleave new s
  | _ => replace_from old new O s
  end.

(** [c * n] for a one-character string *)
Fixpoint str_repeat (c : ascii) (n : nat) : string :=
  match n with
  | O => EmptyString
  | S k => String c (str_repeat c k)
  end.

(** Truth value of a value that is [None] or a string. *)
Definition truthy (v : option string) : bool :=
  match v with
  | None | Some EmptyString => false
  | Some _ => true
  end.

(** [a or b] *)
Definition py_or (a b : option string) : option string :=
  if truthy a then a else b.

(** [str(v)] as an f-string renders a value that is [None] or a string. *)
Definition fstr (v : option string) : string :=
  match v with
  | None => "None"
  | Some s => s
  end.

(** [template.format(key=value, ...)] for the part of the format language
    the configured templates use: literal text and named fields [{name}].
    [field] holds the name being read while inside braces. *)
Fixpoint format_from (kwargs : list (string * string)) (field : option string)
    (template : string) : Result string :=
  match template with
  | EmptyString =>
      match field with
      | None => inr EmptyString
      | Some _ => inl (Exception "expected '}' before end of string")
      end
  | String c rest =>
      match field with
      | None =>
          if Ascii.eqb c "{"
          then format_from kwargs (Some EmptyString) rest
          else let? out := format_from kwargs None rest in inr (String c out)
      | Some f =>
          if Ascii.eqb c "}"
          then
            match list_find (λ kv, kv.1 = f) kwargs with
            | Some (_, (_, v)) =>
                let? out := format_from kwargs None rest in inr (v +:+ out)
            | None => inl (KeyError f)
            end
          else format_from kwargs (Some (f +:+ String c EmptyString)) rest
      end
  end.

Definition str_format (template : string) (kwargs : list (string * string))
  : Result string :=
  format_from kwargs None template.

(** *** Removing the default namespace

    [re.sub(pattern, empty, data, count=1)], where the pattern is: one
    white-space byte, then [xmlns=], a double quote, one or more bytes
    other than a double quote, and a double quote. *)

Definition dquote : Byte.byte := Byte.x22.

(** [\s] of a bytes pattern: space, tab, line feed, vertical tab, form
    feed, carriage return. *)
Definition is_space (c : Byte.byte) : bool :=
  match c with
  | Byte.x20 | Byte.x09 | Byte.x0a | Byte.x0b | Byte.x0c | Byte.x0d => true
  | _ => false
  end.

Fixpoint strip_prefix (p s : bytes) : option bytes :=
  match p, s with
  | [], _ => Some s
  | _ :: _, [] => None
  | a :: p', c :: s' => if Byte.eqb a c then strip_prefix p' s' else None
  end.

(** One or more bytes other than a double quote and then a double quote,
    at the head of [s]: what follows the closing quote.
    [seen] tells whether a character of the value was already read. *)
Fixpoint match_value (seen : bool) (s : bytes) : option bytes :=
  match s with
  | [] => None
  | c :: rest =>
      if Byte.eqb c dquote
      then (if seen then Some rest else None)
      else match_value true rest
  end.

(** The pattern matched at the head of [s]: what follows the match. *)
Definition match_xmlns (s : bytes) : option bytes :=
  match s with
  | c :: rest =>
      if is_space c
      then
        match strip_prefix (B "xmlns=" ++ [dquote]) rest with
        | Some value => match_value false value
        | None => None
        end
      else None
  | [] => None
  end.

(** The leftmost match is removed, and only that one ([count=1]). *)
Fixpoint strip_xmlns (s : bytes) : bytes :=
  match match_xmlns s with
  | Some rest => rest
  | None =>
      match s with
      | [] => []
      | c :: rest => c :: strip_xmlns rest
      end
  end.

(** ** XML trees, as [xml.etree.ElementTree] builds them *)

#[warnings="-register-all"]
Inductive Element := mkElement {
  tag : string;
  attrib : gmap string string;
  text : option string;
  children : list Element
}.

(** [e.findall(t)] for a plain tag [t]: the direct children with that tag,
    in document order. *)
Definition findall (t : string) (e : Element) : list Element :=
  filter (λ c, tag c = t) (children e).

(** [e.find(t)]: the first such child, or [None]. *)
Definition find (t : string) (e : Element) : option Element :=
  head (findall t e).

(** [e.findall] with the path [*[@type='primary']]: the direct children,
    of any tag, whose attribute [type] is [primary]. *)
Definition findall_primary (e : Element) : list Element :=
  filter (λ c, attrib c !! "type" = Some "primary") (children e).

(** [x.text], [x.attrib] where [x] may be [None]; [d[key]]; [l[0]] *)
Definition get_text (x : option Element) : Result (option string) :=
  match x with
  | None => inl (AttributeError_None "text")
  | Some e => inr (text e)
  end.

Definition get_attrib (x : option Element) : Result (gmap string string) :=
  match x with
  | None => inl (AttributeError_None "attrib")
  | Some e => inr (attrib e)
  end.

Definition getitem (d : gmap string string) (key : string) : Result string :=
  match d !! key with
  | None => inl (KeyError key)
  | Some v => inr v
  end.

Definition first {A} (l : list A) : Result A :=
  match l with
  | [] => inl IndexError
  | x :: _ => inr x
  end.

(** ** The run-time interface

    What the program takes from libraries and from the network.  [W] is
    the state of the outside world: a request may change it, and the same
    URL may answer differently later.  A library call that fails raises an
    [Exception] with the given message. *)

Record Response := mkResponse {
  status_code : Z;
  content : bytes
}.

Class Runtime (W : Type) := {
  (** [requests.get(url, timeout=t)] *)
  requests_get : string → Z → W → (string + Response) * W;
  (** [ET.fromstring(data)] *)
  ET_fromstring : bytes → string + Element;
  (** [gzip.decompress(data)] *)
  gzip_decompress : bytes → string + bytes;
  (** [urllib.parse.urljoin(base, url)] *)
  urljoin : string → string → string + string;
  (** [s.lower()] *)
  str_lower : string → string
}.

(** A library result as a [Result]. *)
Definition library {A} (r : string + A) : Result A :=
  match r with
  | inl msg => inl (Exception msg)
  | inr a => inr a
  end.

(** ** Effects *)

Inductive event :=
  | Stdout (line : string)
  | HttpGet (url : string) (timeout : Z).

(** A computation: from the state of the world to its result, the new
    state and the events it caused. *)
Definition M (W A : Type) : Type := W → Result A * W * list event.

Definition ret {W A} (a : A) : M W A := λ w, (inr a, w, []).

Definition bind {W A B} (m : M W A) (k : A → M W B) : M W B := λ w,
  match m w with
  | (inl e, w1, t1) => (inl e, w1, t1)
  | (inr a, w1, t1) => let '(r, w2, t2) := k a w1 in (r, w2, t1 ++ t2)
  end.

Notation "'let*' x := m 'in' k" := (bind m (λ x, k))
  (at level 10, x name, m at level 100, k at level 200,
   format "'[' 'let*'  x  :=  m  'in' ']' '/' k").

Definition lift {W A} (r : Result A) : M W A := λ w, (r, w, []).

Definition print {W} (line : string) : M W () := λ w, (inr (), w, [Stdout line]).

(** [try: body except Exception as e: handler(str(e))] *)
Definition try_except {W A} (body : M W A) (handler : string → M W A) : M W A :=
  λ w,
  match body w with
  | (inl (Exception msg), w1, t1) =>
      let '(r, w2, t2) := handler msg w1 in (r, w2, t1 ++ t2)
  | other => other
  end.

(** [for x in xs: body(x)] *)
Fixpoint for_each {W A} (xs : list A) (body : A → M W ()) : M W () :=
  match xs with
  | [] => ret ()
  | x :: rest => let* _ := body x in for_each rest body
  end.

(** The parts of an outcome. *)
Definition result_of {A W} (o : Result A * W * list event) : Result A := o.1.1.
Definition world_of {A W} (o : Result A * W * list event) : W := o.1.2.
Definition events_of {A W} (o : Result A * W * list event) : list event := o.2.

(** The lines printed and the requests made, in order. *)
Definition stdout (t : list event) : list string :=
  omap (λ ev, match ev with Stdout line => Some line | _ => None end) t.

Definition network_calls (t : list event) : list (string * Z) :=
  omap (λ ev, match ev with HttpGet url timeout => Some (url, timeout) | _ => None end) t.

(** ** Package entries *)

(** The dictionary built at lines 76-82.  [arch] is the text of the
    [arch] element, which is [None] for an element without text. *)
Record Package := mkPackage {
  name : string;
  version : string;
  release : string;
  arch : option string;
  full_name : string
}.

Section Program.
Context {W : Type} `{!Runtime W}.

Definition get (url : string) (timeout : Z) : M W Response := λ w,
  let '(r, w1) := requests_get url timeout w in
  (library r, w1, [HttpGet url timeout]).

(** *** search_packages_in_repo *)

(** The body of the loop over the [package] elements (lines 70-83):
    the entry to add for one element, if it matches. *)
Definition package_entry (search_term : string) (package : Element)
  : Result (option Package) :=
  let? name := get_text (find "name" package) in
  let? name := match name with
               | None => inl (AttributeError_None "lower")
               | Some s => inr s
               end in
  if str_in (str_lower search_term) (str_lower name) then
    let? arch := get_text (find "arch" package) in
    let? version_attrib := get_attrib (find "version" package) in
    let? version := getitem version_attrib "ver" in
    let? version_attrib := get_attrib (find "version" package) in
    let? release := getitem version_attrib "rel" in
    inr (Some {| name := name;
                 version := version;
                 release := release;
                 arch := arch;
                 full_name := name +:+ "-" +:+ version +:+ "-" +:+ release
                               +:+ "." +:+ fstr arch |})
  else inr None.

(** Lines 68-85: [packages] grows by [append]. *)
Fixpoint collect (search_term : string) (elements : list Element)
    (packages : list Package) : Result (list Package) :=
  match elements with
  | [] => inr packages
  | package :: rest =>
      let? entry := package_entry search_term package in
      collect search_term rest
        (match entry with
         | Some pkg => packages ++ [pkg]
         | None => packages
         end)
  end.

Definition collect_packages (search_term : string) (primary_root : Element)
  : Result (list Package) :=
  collect search_term (findall "package" primary_root) [].

(** Lines 53-56 *)
Definition location_of (child : Element) : Result string :=
  let? loc := first (findall "location" child) in
  getitem (attrib loc) "href".

Definition primary_url_of (repomd_url location : string) : Result string :=
  library (urljoin (str_replace repomd_url "/repodata/repomd.xml" "/") location).

(** Lines 52-85: the loop over the entries of type [primary].  The
    result is [None] when the loop ends without a [return]. *)
Fixpoint primary_loop (repomd_url search_term : string)
    (candidates : list Element) : M W (option (list Package)) :=
  match candidates with
  | [] => ret None
  | child :: rest =>
      let* location := lift (location_of child) in
      let* primary_url := lift (primary_url_of repomd_url location) in
      let* _ := print "  Fetching package data..." in
      let* primary_response := get primary_url 60 in
      if decide (status_code primary_response ≠ 200%Z)
      then primary_loop repomd_url search_term rest
      else
        let* primary_data :=
          lift (library (gzip_decompress (content primary_response))) in
        let primary_xmlstring := strip_xmlns primary_data in
        let* primary_root := lift (library (ET_fromstring primary_xmlstring)) in
        let* packages := lift (collect_packages search_term primary_root) in
        ret (Some packages)
  end.

(** Lines 41-88: the body of the [try]. *)
Definition search_body (repomd_url search_term : string) : M W (list Package) :=
  let* response := get repomd_url 30 in
  if decide (status_code response ≠ 200%Z)
  then
    let* _ := print ("  Failed to fetch repomd.xml (HTTP "
                     +:+ pretty (status_code response) +:+ ")") in
    ret []
  else
    let xmlstring := strip_xmlns (content response) in
    let* repomd := lift (library (ET_fromstring xmlstring)) in
    let* found := primary_loop repomd_url search_term (findall_primary repomd) in
    match found with
    | Some packages => ret packages
    | None =>
        let* _ := print "  No primary.xml found in repository" in
        ret []
    end.

Definition search_packages_in_repo (repomd_url search_term repo_name : string)
  : M W (list Package) :=
  let* _ := print ("Searching in " +:+ repo_name +:+ ": " +:+ repomd_url) in
  try_except (search_body repomd_url search_term)
    (λ e, let* _ := print ("  Error: " +:+ e) in ret []).

End Program.

(** ** Configuration *)

Record Config := mkConfig {
  base_url : string;
  repos : list string;
  repodata_path : string
}.

Definition REPO_CONFIGS : gmap string Config :=
  list_to_map [
    ("centos7", {| base_url := "https://vault.centos.org/7.9.2009/os/{architecture}/";
                   repos := ["os"];
                   repodata_path := "repodata/repomd.xml" |});
    ("alma8", {| base_url := "https://vault.almalinux.org/8.9/{repo}/{architecture}/os/";
                 repos := ["BaseOS"; "AppStream"; "PowerTools"];
                 repodata_path := "repodata/repomd.xml" |});
    ("alma9", {| base_url := "https://vault.almalinux.org/9.4/{repo}/{architecture}/os/";
                 repos := ["BaseOS"; "AppStream"; "CRB"; "devel"];
                 repodata_path := "repodata/repomd.xml" |})
  ].

(** ** The command line *)

(** What a command line supplies, option by option, when it gives each
    option at most once and the search term first; the command line
    itself, argument by argument, is read by [parse_argv] below.  The
    positional argument and
    [--search-term] have the same destination, the attribute
    [search_term]: [cl_search_term] is what parsing leaves there. *)
Record CommandLine := mkCommandLine {
  cl_search_term : option string;
  cl_distro : option string;
  cl_architecture : option string;
  cl_repo : option string;
  cl_exact : bool
}.

(** The namespace [parser.parse_args()] returns. *)
Record Namespace := mkNamespace {
  arg_search_term : option string;
  arg_distro : string;
  arg_architecture : string;
  arg_repo : option string;
  arg_exact : bool
}.

(** [parser.error(message)] ends the program with status 2. *)
Definition parser_error {A} : Result A := inl (SystemExit 2).

Definition distro_choices : list string := ["centos7"; "alma8"; "alma9"].

(** Lines 107-130: the defaults, and [choices] for [--distro]: a value
    that is not among the choices makes [argparse] call [parser.error]. *)
Definition parse_args (cl : CommandLine) : Result Namespace :=
  let? distro := match cl_distro cl with
                 | None => inr "alma9"
                 | Some d => if decide (d ∈ distro_choices) then inr d
                             else parser_error
                 end in
  inr {| arg_search_term := cl_search_term cl;
         arg_distro := distro;
         arg_architecture := default "x86_64" (cl_architecture cl);
         arg_repo := cl_repo cl;
         arg_exact := cl_exact cl |}.

Section Main.
Context {W : Type} `{!Runtime W}.

(** Lines 150-153 *)
Definition repomd_url_of (distro architecture repo : string) (config : Config)
  : Result string :=
  if decide (distro = "centos7") then
    let? base := str_format (base_url config) [("architecture", architecture)] in
    inr (base +:+ repodata_path config)
  else
    let? base := str_format (base_url config)
                   [("repo", repo); ("architecture", architecture)] in
    inr (base +:+ repodata_path config).

(** Lines 157-165: what one sub-repository prints, and the new value
    of [all_packages]. *)
Definition report (exact : bool) (search_term repo : string)
    (packages : list Package) (all_packages : list (Package * string))
  : M W (list (Package * string)) :=
  match packages with
  | _ :: _ =>
      let* _ := print ("  Found " +:+ pretty (length packages) +:+ " packages:") in
      let* _ := for_each packages (λ pkg,
                  if exact && bool_decide (name pkg ≠ search_term)
                  then ret ()
                  else print ("    " +:+ full_name pkg)) in
      ret (all_packages ++ map (λ pkg, (pkg, repo)) packages)
  | [] =>
      let* _ := print "  No packages found" in
      ret all_packages
  end.

(** Lines 149-166: the loop over the sub-repositories. *)
Fixpoint search_all (exact : bool) (search_term distro architecture : string)
    (config : Config) (repos_to_search : list string)
    (all_packages : list (Package * string)) : M W (list (Package * string)) :=
  match repos_to_search with
  | [] => ret all_packages
  | repo :: rest =>
      let* repomd_url := lift (repomd_url_of distro architecture repo config) in
      let* packages :=
        search_packages_in_repo repomd_url search_term (distro +:+ "/" +:+ repo) in
      let* all_packages := report exact search_term repo packages all_packages in
      let* _ := print "" in
      search_all exact search_term distro architecture config rest all_packages
  end.

(** Lines 168-178 *)
Definition summary (exact : bool) (search_term : string)
    (all_packages : list (Package * string)) : M W () :=
  let* _ := print (str_repeat "=" 60) in
  let* _ := print ("SUMMARY: " +:+ pretty (length all_packages)
                   +:+ " packages found containing '" +:+ search_term +:+ "'") in
  let* _ := print (str_repeat "=" 60) in
  let all_packages :=
    if exact then filter (λ pr, name pr.1 = search_term) all_packages
    else all_packages in
  for_each all_packages (λ pr, print (full_name pr.1 +:+ " (from " +:+ pr.2 +:+ ")")).

(** Line 133: [args.search_term or args.search_term] *)
Definition determine_search_term (args : Namespace) : option string :=
  py_or (arg_search_term args) (arg_search_term args).

(** Line 145 *)
Definition repos_to_search_of (args : Namespace) (config : Config)
  : list string :=
  if truthy (arg_repo args) then [default "" (arg_repo args)]
  else repos config.

(** Lines 134-180: [main] once the search term is determined. *)
Definition main_from (args : Namespace) (search_term : option string) : M W Z :=
  let* search_term := lift (if truthy search_term
                            then inr (default "" search_term)
                            else parser_error) in
  let distro := arg_distro args in
  let architecture := arg_architecture args in
  match REPO_CONFIGS !! distro with
  | None =>
      let* _ := print ("Unsupported distro: " +:+ distro) in
      ret 1%Z
  | Some config =>
      let repos_to_search := repos_to_search_of args config in
      let* all_packages :=
        search_all (arg_exact args) search_term distro architecture config
          repos_to_search [] in
      let* _ := summary (arg_exact args) search_term all_packages in
      ret 0%Z
  end.

(** Lines 132-180: [main] once the arguments are parsed. *)
Definition main_body (args : Namespace) : M W Z :=
  let search_term := determine_search_term args in
  main_from args search_term.

(** [main] on a command line given by what it supplies; [main_argv]
    below is [main] on the command line itself, and agrees with this one
    on the command lines of [render]. *)
Definition main (cl : CommandLine) : M W Z :=
  let* args := lift (parse_args cl) in
  main_body args.

(** [exit(main())]: the exit status of the process.  An exception that
    nothing catches ends the process with status 1. *)
Definition exit_status (r : Result Z) : Z :=
  match r with
  | inr code => code
  | inl (SystemExit code) => code
  | inl (Exception _) => 1%Z
  end.

End Main.

(** ** The command line, argument by argument

    [parser.parse_args()] of line 130 reads [sys.argv[1:]] from left to
    right.  An argument that is one of the option strings of the parser is
    an option; an argument that does not begin with [-] is a word: the
    value of the option before it, or the positional argument.  The other
    arguments that begin with [-] (an abbreviated option, [--name=value],
    [--], a negative number, an option that the parser does not have) are
    outside this model: [read_argv] has no reading for a command line that
    holds one. *)

Inductive Opt :=
  | OptHelp
  | OptSearchTerm
  | OptDistro
  | OptArchitecture
  | OptRepo
  | OptExact.

Inductive Arg :=
  | Flag (o : Opt)
  | Word (s : string).

(** Lines 96-128: [-h] and [--help] are the two that [ArgumentParser]
    adds by itself. *)
Definition option_strings : list (string * Opt) :=
  [("-h", OptHelp); ("--help", OptHelp); ("--search-term", OptSearchTerm);
   ("--distro", OptDistro); ("--architecture", OptArchitecture);
   ("--repo", OptRepo); ("--exact", OptExact)].

Definition arg_of (s : string) : option Arg :=
  match list_find (λ p, p.1 = s) option_strings with
  | Some (_, (_, o)) => Some (Flag o)
  | None => if String.prefix "-" s then None else Some (Word s)
  end.

Definition read_argv (argv : list string) : option (list Arg) :=
  mapM arg_of argv.

(** How [parse_args] ends: it prints the help and exits with status 0, it
    reports an error and exits with status 2, or it returns a namespace. *)
Inductive Parsed :=
  | PrintHelp
  | UsageError
  | Returned (args : Namespace).

(** The namespace before an argument is read: the defaults of lines
    107-128. *)
Definition defaults : Namespace :=
  {| arg_search_term := None;
     arg_distro := "alma9";
     arg_architecture := "x86_64";
     arg_repo := None;
     arg_exact := false |}.

Definition set_search_term (v : option string) (ns : Namespace) : Namespace :=
  {| arg_search_term := v;
     arg_distro := arg_distro ns;
     arg_architecture := arg_architecture ns;
     arg_repo := arg_repo ns;
     arg_exact := arg_exact ns |}.

Definition set_distro (v : string) (ns : Namespace) : Namespace :=
  {| arg_search_term := arg_search_term ns;
     arg_distro := v;
     arg_architecture := arg_architecture ns;
     arg_repo := arg_repo ns;
     arg_exact := arg_exact ns |}.

Definition set_architecture (v : string) (ns : Namespace) : Namespace :=
  {| arg_search_term := arg_search_term ns;
     arg_distro := arg_distro ns;
     arg_architecture := v;
     arg_repo := arg_repo ns;
     arg_exact := arg_exact ns |}.

Definition set_repo (v : string) (ns : Namespace) : Namespace :=
  {| arg_search_term := arg_search_term ns;
     arg_distro := arg_distro ns;
     arg_architecture := arg_architecture ns;
     arg_repo := Some v;
     arg_exact := arg_exact ns |}.

Definition set_exact (ns : Namespace) : Namespace :=
  {| arg_search_term := arg_search_term ns;
     arg_distro := arg_distro ns;
     arg_architecture := arg_architecture ns;
     arg_repo := arg_repo ns;
     arg_exact := true |}.

(** The arguments are read in order.  [ns] is the namespace so far;
    [pending] tells that the positional argument has not been read yet;
    [extras] are the words that nothing takes.
    - A help option ends the program at once.
    - An option with a value takes the next argument, which has to be a
      word; the value of [--distro] is checked against [choices] when it is
      read.  Both errors end the program at once.
    - The first word that is not the value of an option is the positional
      argument; the later ones are left over.
    - At the end of the command line a positional argument that was not
      read is given its default, [None]: the positional argument and
      [--search-term] have the same destination, so this puts [None] over
      what [--search-term] stored.  Left-over words are an error, reported
      only here. *)
Fixpoint scan (line : list Arg) (ns : Namespace) (pending : bool)
    (extras : list string) : Parsed :=
  match line with
  | [] =>
      match extras with
      | [] => Returned (if pending then set_search_term None ns else ns)
      | _ :: _ => UsageError
      end
  | Word s :: rest =>
      if pending then scan rest (set_search_term (Some s) ns) false extras
      else scan rest ns false (extras ++ [s])
  | Flag OptHelp :: _ => PrintHelp
  | Flag OptExact :: rest => scan rest (set_exact ns) pending extras
  | Flag OptSearchTerm :: Word v :: rest =>
      scan rest (set_search_term (Some v) ns) pending extras
  | Flag OptDistro :: Word v :: rest =>
      if decide (v ∈ distro_choices)
      then scan rest (set_distro v ns) pending extras
      else UsageError
  | Flag OptArchitecture :: Word v :: rest =>
      scan rest (set_architecture v ns) pending extras
  | Flag OptRepo :: Word v :: rest =>
      scan rest (set_repo v ns) pending extras
  | Flag _ :: _ => UsageError
  end.

(** Line 130 *)
Definition parse_argv (line : list Arg) : Parsed :=
  scan line defaults true [].

(** A command line that supplies what [cl] holds: the search term first,
    then each option once. *)
Definition render (cl : CommandLine) : list Arg :=
  match cl_search_term cl with Some s => [Word s] | None => [] end
  ++ match cl_distro cl with
     | Some d => [Flag OptDistro; Word d]
     | None => []
     end
  ++ match cl_architecture cl with
     | Some a => [Flag OptArchitecture; Word a]
     | None => []
     end
  ++ match cl_repo cl with Some r => [Flag OptRepo; Word r] | None => [] end
  ++ (if cl_exact cl then [Flag OptExact] else []).

(** The words of a command line that are not the value of an option. *)
Fixpoint positional_words (line : list Arg) : list string :=
  match line with
  | [] => []
  | Word s :: rest => s :: positional_words rest
  | Flag OptHelp :: rest | Flag OptExact :: rest => positional_words rest
  | Flag _ :: Word _ :: rest => positional_words rest
  | Flag _ :: rest => positional_words rest
  end.

Section Argv.
Context {W : Type} `{!Runtime W}.

(** Lines 95-180, [main] from the command line.  [format_help] is the help
    text of the parser, line by line, which [argparse] writes to the
    standard output; the usage message of an error goes to the standard
    error, which the trace does not record. *)
Definition main_argv (format_help : list string) (line : list Arg) : M W Z :=
  match parse_argv line with
  | PrintHelp =>
      let* _ := for_each format_help print in
      lift (inl (SystemExit 0))
  | UsageError => lift parser_error
  | Returned args => main_body args
  end.

End Argv.

(** ** A concrete run-time, for running the program on examples *)

Module Fixture.

(** ASCII letters to lower case; other bytes unchanged. *)
Definition lower_ascii (c : ascii) : ascii :=
  let n := nat_of_ascii c in
  if (65 <=? n)%nat && (n <=? 90)%nat then ascii_of_nat (n + 32) else c.

Fixpoint lower (s : string) : string :=
  match s with
  | EmptyString => EmptyString
  | String c rest => String (lower_ascii c) (lower rest)
  end.

(** [s.split("/")] and ["/".join(l)] *)
Fixpoint split_slash (s : string) : list string :=
  match s with
  | EmptyString => [EmptyString]
  | String c rest =>
      if Ascii.eqb c "/" then EmptyString :: split_slash rest
      else match split_slash rest with
           | seg :: segs => String c seg :: segs
           | [] => [String c EmptyString]
           end
  end.

Fixpoint join_slash (l : list string) : string :=
  match l with
  | [] => EmptyString
  | [seg] => seg
  | seg :: rest => seg +:+ "/" +:+ join_slash rest
  end.

(** [segments[1:-1] = filter(None, segments[1:-1])] *)
Definition drop_empty_inner (segments : list string) : list string :=
  match segments with
  | [] | [_] => segments
  | seg :: rest =>
      seg :: filter (λ x, x ≠ EmptyString) (removelast rest) ++ [List.last rest EmptyString]
  end.

(** The loop that resolves [.] and [..]; [resolved] is kept reversed. *)
Fixpoint resolve_dots (segments resolved : list string) : list string :=
  match segments with
  | [] => rev resolved
  | seg :: rest =>
      if decide (seg = "..") then resolve_dots rest (tail resolved)
      else if decide (seg = ".") then resolve_dots rest resolved
      else resolve_dots rest (seg :: resolved)
  end.

(** The scheme and authority of an absolute URL, and its path. *)
Fixpoint split_authority (seen : nat) (s : string) : string * string :=
  match s with
  | EmptyString => (EmptyString, EmptyString)
  | String c rest =>
      if Ascii.eqb c "/" && (2 <=? seen)%nat then (EmptyString, s)
      else
        let seen := if Ascii.eqb c "/" then S seen else seen in
        let '(auth, path) := split_authority seen rest in
        (String c auth, path)
  end.

(** [urljoin], as the standard library computes it, when [base] has
    the form [scheme://host/path] and [url] is a relative or an absolute
    path; neither has a query, a fragment or parameters. *)
Definition join (base url : string) : string + string :=
  if decide (base = EmptyString) then inr url
  else if decide (url = EmptyString) then inr base
  else
    let '(authority, bpath) := split_authority 0 base in
    let base_parts := split_slash bpath in
    let base_parts :=
      if decide (List.last base_parts EmptyString ≠ EmptyString)
      then removelast base_parts else base_parts in
    let segments :=
      if String.prefix "/" url then split_slash url
      else drop_empty_inner (base_parts ++ split_slash url) in
    let resolved_path := resolve_dots segments [] in
    let resolved_path :=
      if decide (List.last segments EmptyString ∈ ["."; ".."])
      then resolved_path ++ [EmptyString] else resolved_path in
    let path := join_slash resolved_path in
    inr (authority +:+ (if decide (path = EmptyString) then "/" else path)).

(** The compressed form of [data] is written [gzip:] followed by
    [data]. *)
Definition gunzip (data : bytes) : string + bytes :=
  match strip_prefix (B "gzip:") data with
  | Some d => inr d
  | None => inl "Not a gzipped file"
  end.

Definition element (t : string) (attrs : list (string * string))
    (txt : option string) (kids : list Element) : Element :=
  {| tag := t; attrib := list_to_map attrs; text := txt; children := kids |}.

Definition package (n a v r : string) : Element :=
  element "package" [("type", "rpm")] None [
    element "name" [] (Some n) [];
    element "arch" [] (Some a) [];
    element "version" [("epoch", "0"); ("ver", v); ("rel", r)] None []
  ].

(** The documents of the examples, each with the tree it denotes.  The
    first index declares the default namespace of the repository metadata,
    which [strip_xmlns] removes before the parser sees the document. *)
Definition index_one_stripped : bytes :=
  B "<repomd><data type='primary'><location href='repodata/primary.xml.gz'/></data></repomd>".
Definition index_one : bytes :=
  B "<repomd xmlns=" ++ [dquote] ++ B "http://linux.duke.edu/metadata/repo"
  ++ [dquote]
  ++ B "><data type='primary'><location href='repodata/primary.xml.gz'/></data></repomd>".
Definition index_one_tree : Element :=
  element "repomd" [] None [
    element "data" [("type", "primary")] None [
      element "location" [("href", "repodata/primary.xml.gz")] None []
    ]
  ].

Definition index_two : bytes :=
  B "<repomd><data type='primary'><location href='repodata/gone.xml.gz'/></data><data type='primary'><location href='repodata/primary.xml.gz'/></data></repomd>".
Definition index_two_tree : Element :=
  element "repomd" [] None [
    element "data" [("type", "primary")] None [
      element "location" [("href", "repodata/gone.xml.gz")] None []
    ];
    element "data" [("type", "primary")] None [
      element "location" [("href", "repodata/primary.xml.gz")] None []
    ]
  ].

Definition listing : bytes :=
  B "<metadata><package type='rpm'><name>kernel</name><arch>x86_64</arch><version epoch='0' ver='5.14.0' rel='427.el9'/></package><package type='rpm'><name>Kernel-Tools</name><arch>x86_64</arch><version epoch='0' ver='5.14.0' rel='427.el9'/></package><package type='rpm'><name>glibc</name><arch>i686</arch><version epoch='0' ver='2.34' rel='100.el9'/></package></metadata>".
Definition listing_tree : Element :=
  element "metadata" [] None [
    package "kernel" "x86_64" "5.14.0" "427.el9";
    package "Kernel-Tools" "x86_64" "5.14.0" "427.el9";
    package "glibc" "i686" "2.34" "100.el9"
  ].

(** The second package has no [arch] element. *)
Definition listing_broken : bytes :=
  B "<metadata><package type='rpm'><name>kernel</name><arch>x86_64</arch><version epoch='0' ver='5.14.0' rel='427.el9'/></package><package type='rpm'><name>kernel-core</name><version epoch='0' ver='5.14.0' rel='427.el9'/></package></metadata>".
Definition listing_broken_tree : Element :=
  element "metadata" [] None [
    package "kernel" "x86_64" "5.14.0" "427.el9";
    element "package" [("type", "rpm")] None [
      element "name" [] (Some "kernel-core") [];
      element "version" [("epoch", "0"); ("ver", "5.14.0"); ("rel", "427.el9")] None []
    ]
  ].

Definition documents : list (bytes * Element) :=
  [(index_one_stripped, index_one_tree); (index_two, index_two_tree);
   (listing, listing_tree); (listing_broken, listing_broken_tree)].

Definition parse (data : bytes) : string + Element :=
  match list_find (λ d, d.1 = data) documents with
  | Some (_, (_, tree)) => inr tree
  | None => inl "syntax error: line 1, column 0"
  end.

(** The world is the table of what each URL answers; a URL that is not
    in the table answers 404. *)
Definition Web : Type := list (string * (string + Response)).

Definition fetch (url : string) (timeout : Z) (web : Web)
  : (string + Response) * Web :=
  match list_find (λ entry, entry.1 = url) web with
  | Some (_, (_, answer)) => (answer, web)
  | None => (inr {| status_code := 404; content := [] |}, web)
  end.

#[global] Instance runtime : Runtime Web := {|
  requests_get := fetch;
  ET_fromstring := parse;
  gzip_decompress := gunzip;
  urljoin := join;
  str_lower := lower
|}.

Definition ok (body : bytes) : string + Response :=
  inr {| status_code := 200; content := body |}.

Definition centos (architecture path : string) : string :=
  "https://vault.centos.org/7.9.2009/os/" +:+ architecture +:+ "/" +:+ path.

Definition alma8 (repo path : string) : string :=
  "https://vault.almalinux.org/8.9/" +:+ repo +:+ "/x86_64/os/" +:+ path.

Definition web : Web := [
  (alma8 "BaseOS" "repodata/repomd.xml", ok index_one);
  (alma8 "BaseOS" "repodata/primary.xml.gz", ok (B "gzip:" ++ listing));
  (alma8 "AppStream" "repodata/repomd.xml", ok index_one);
  (alma8 "AppStream" "repodata/primary.xml.gz", ok (B "gzip:" ++ listing));
  (centos "x86_64" "repodata/repomd.xml", ok index_one);
  (centos "x86_64" "repodata/primary.xml.gz", ok (B "gzip:" ++ listing));
  (centos "aarch64" "repodata/repomd.xml", ok index_two);
  (centos "aarch64" "repodata/primary.xml.gz", ok (B "gzip:" ++ listing));
  (centos "ppc64le" "repodata/repomd.xml", ok index_one);
  (centos "ppc64le" "repodata/primary.xml.gz", ok (B "gzip:" ++ listing_broken));
  (centos "s390x" "repodata/repomd.xml", inl "Connection refused");
  (centos "x/repodata/repomd.xml" "repodata/repomd.xml", ok index_one)
].

Definition command (term : string) (architecture : string) (exact : bool)
  : CommandLine :=
  {| cl_search_term := Some term;
     cl_distro := Some "centos7";
     cl_architecture := Some architecture;
     cl_repo := None;
     cl_exact := exact |}.

(** [kernel --distro alma10] *)
Definition alma10_command : CommandLine :=
  {| cl_search_term := Some "kernel";
     cl_distro := Some "alma10";
     cl_architecture := None;
     cl_repo := None;
     cl_exact := false |}.

(** A namespace that [parse_args] does not produce: its distribution is
    not among the choices. *)
Definition alma10_namespace : Namespace :=
  {| arg_search_term := Some "kernel";
     arg_distro := "alma10";
     arg_architecture := "x86_64";
     arg_repo := None;
     arg_exact := false |}.

(** [kernel --distro centos7] with or without [--repo] *)
Definition centos7_namespace (repo : option string) : Namespace :=
  {| arg_search_term := Some "kernel";
     arg_distro := "centos7";
     arg_architecture := "x86_64";
     arg_repo := repo;
     arg_exact := false |}.

(** [kernel --distro centos7 --exact] as a namespace *)
Definition exact_namespace : Namespace :=
  {| arg_search_term := Some "kernel";
     arg_distro := "centos7";
     arg_architecture := "x86_64";
     arg_repo := None;
     arg_exact := true |}.

(** [kernel --distro alma9] as a namespace; none of its URLs is in the
    table. *)
Definition alma9_namespace : Namespace :=
  {| arg_search_term := Some "kernel";
     arg_distro := "alma9";
     arg_architecture := "x86_64";
     arg_repo := None;
     arg_exact := false |}.

Definition alma9_config : Config :=
  {| base_url := "https://vault.almalinux.org/9.4/{repo}/{architecture}/os/";
     repos := ["BaseOS"; "AppStream"; "CRB"; "devel"];
     repodata_path := "repodata/repomd.xml" |}.

Definition alma8_config : Config :=
  {| base_url := "https://vault.almalinux.org/8.9/{repo}/{architecture}/os/";
     repos := ["BaseOS"; "AppStream"; "PowerTools"];
     repodata_path := "repodata/repomd.xml" |}.

Definition centos7_config : Config :=
  {| base_url := "https://vault.centos.org/7.9.2009/os/{architecture}/";
     repos := ["os"];
     repodata_path := "repodata/repomd.xml" |}.

Definition kernel : Package :=
  {| name := "kernel"; version := "5.14.0"; release := "427.el9";
     arch := Some "x86_64"; full_name := "kernel-5.14.0-427.el9.x86_64" |}.

Definition kernel_tools : Package :=
  {| name := "Kernel-Tools"; version := "5.14.0"; release := "427.el9";
     arch := Some "x86_64";
     full_name := "Kernel-Tools-5.14.0-427.el9.x86_64" |}.

End Fixture.

(** ** Notions used to state the properties *)

(** As the specification words step 5: the index URL with its trailing
    [repodata/repomd.xml] removed, which is the directory that contains
    [repodata/].  A URL that does not end so is left as it is. *)
Fixpoint remove_trailing (suffix s : string) : string :=
  if String.eqb s suffix then EmptyString
  else match s with
       | EmptyString => EmptyString
       | String c rest => String c (remove_trailing suffix rest)
       end.

Definition index_directory (repomd_url : string) : string :=
  remove_trailing "repodata/repomd.xml" repomd_url.

Section Notions.
Context {W : Type} `{!Runtime W}.

(** The text of the [name] element of a [package] element. *)
Definition element_name (package : Element) : option string :=
  match find "name" package with
  | Some e => text e
  | None => None
  end.

(** The name contains the search term, case ignored. *)
Definition is_match (search_term : string) (package : Element) : bool :=
  match element_name package with
  | Some n => str_in (str_lower search_term) (str_lower n)
  | None => false
  end.

(** [pkgs] are the entries of the matching [package] elements of the
    document, one for each, in document order. *)
Definition entries_of (search_term : string) (primary_root : Element)
    (pkgs : list Package) : Prop :=
  Forall2 (λ package pkg, package_entry search_term package = inr (Some pkg))
    (filter (λ package, is_match search_term package)
       (findall "package" primary_root))
    pkgs.

(** A package entry that is the one its four fields determine. *)
Definition well_named (pkg : Package) : Prop :=
  full_name pkg
  = name pkg +:+ "-" +:+ version pkg +:+ "-" +:+ release pkg +:+ "."
    +:+ fstr (arch pkg).

(** A result that is not the end of the program: a value, or an
    exception that [except Exception] catches. *)
Definition no_exit {A} (r : Result A) : Prop :=
  ∀ code, r ≠ inl (SystemExit code).

(** What one attempt to fetch a package list causes. *)
Definition fetching (primary_url : string) : list event :=
  [Stdout "  Fetching package data..."; HttpGet primary_url 60].

(** [index_document repomd_url w repomd w1]: in the world [w] the index
    is fetched with status 200 and parses to [repomd], leaving the world
    [w1]. *)
Definition index_document (repomd_url : string) (w : W) (repomd : Element)
    (w1 : W) : Prop :=
  ∃ response,
    requests_get repomd_url 30 w = (inr response, w1)
    ∧ status_code response = 200%Z
    ∧ ET_fromstring (strip_xmlns (content response)) = inr repomd.

(** [listing_document repomd_url candidates w root w2]: the loop over
    the candidates, started in the world [w], comes to a candidate whose
    package list is fetched with status 200, decompresses and parses to
    [root]; the candidates before it answered with another status. *)
Inductive listing_document (repomd_url : string)
  : list Element → W → Element → W → Prop :=
  | listing_here child rest w location primary_url response w1 data root :
      location_of child = inr location →
      primary_url_of repomd_url location = inr primary_url →
      requests_get primary_url 60 w = (inr response, w1) →
      status_code response = 200%Z →
      gzip_decompress (content response) = inr data →
      ET_fromstring (strip_xmlns data) = inr root →
      listing_document repomd_url (child :: rest) w root w1
  | listing_next child rest w location primary_url response w1 root w2 :
      location_of child = inr location →
      primary_url_of repomd_url location = inr primary_url →
      requests_get primary_url 60 w = (inr response, w1) →
      status_code response ≠ 200%Z →
      listing_document repomd_url rest w1 root w2 →
      listing_document repomd_url (child :: rest) w root w2.

(** The entries of a sub-repository with its name. *)
Definition tagged (repo : string) (packages : list Package)
  : list (Package * string) :=
  map (λ pkg, (pkg, repo)) packages.

(** The lines about the entries found in one sub-repository: with
    [exact] only the entries named as the search term are listed. *)
Definition report_lines (exact : bool) (search_term : string)
    (packages : list Package) : list string :=
  match packages with
  | [] => ["  No packages found"]
  | _ :: _ =>
      ("  Found " +:+ pretty (length packages) +:+ " packages:")
      :: map (λ pkg, "    " +:+ full_name pkg)
           (filter (λ pkg, exact = false ∨ name pkg = search_term) packages)
  end.

(** The banner and the lines after it. *)
Definition banner (search_term : string) (count : nat) : list string :=
  [str_repeat "=" 60;
   "SUMMARY: " +:+ pretty count +:+ " packages found containing '"
     +:+ search_term +:+ "'";
   str_repeat "=" 60].

Definition summary_line (pr : Package * string) : string :=
  full_name pr.1 +:+ " (from " +:+ pr.2 +:+ ")".

(** The pairs that pass the filter of lines 172-175. *)
Definition after_exact_filter (exact : bool) (search_term : string)
    (all_packages : list (Package * string)) : list (Package * string) :=
  if exact then filter (λ pr, name pr.1 = search_term) all_packages
  else all_packages.

(** The results of the sub-repositories, one after the other: each is
    searched in the world the one before it left. *)
Fixpoint sub_repository_results (search_term distro architecture : string)
    (config : Config) (repos_to_search : list string) (w : W)
  : list (string * list Package) :=
  match repos_to_search with
  | [] => []
  | repo :: rest =>
      match repomd_url_of distro architecture repo config with
      | inl _ => []
      | inr repomd_url =>
          let o := search_packages_in_repo repomd_url search_term
                     (distro +:+ "/" +:+ repo) w in
          (repo, match result_of o with
                 | inr packages => packages
                 | inl _ => []
                 end)
          :: sub_repository_results search_term distro architecture config
               rest (world_of o)
      end
  end.

(** [main] as the specification words line 133: the attribute
    [search_term] of the namespace is read once. *)
Definition main_reading_once (args : Namespace) : M W Z :=
  main_from args (arg_search_term args).

(** The index cannot be had: the request raises, answers with another
    status than 200, or what it answers does not parse. *)
Inductive index_failure (repomd_url : string) (w : W) : W → Prop :=
  | index_fetch_raises msg w1 :
      requests_get repomd_url 30 w = (inl msg, w1) →
      index_failure repomd_url w w1
  | index_fetch_status response w1 :
      requests_get repomd_url 30 w = (inr response, w1) →
      status_code response ≠ 200%Z →
      index_failure repomd_url w w1
  | index_parse_fails response w1 msg :
      requests_get repomd_url 30 w = (inr response, w1) →
      status_code response = 200%Z →
      ET_fromstring (strip_xmlns (content response)) = inl msg →
      index_failure repomd_url w w1.

(** The package list cannot be had from the candidates: the request for
    a candidate raises, or what it answers with status 200 does not
    decompress or does not parse, or it answers with another status and
    this was the last candidate or the candidates after it fail in
    turn. *)
Inductive listing_failure (repomd_url : string) : list Element → W → W → Prop :=
  | listing_fetch_raises child rest w location primary_url msg w1 :
      location_of child = inr location →
      primary_url_of repomd_url location = inr primary_url →
      requests_get primary_url 60 w = (inl msg, w1) →
      listing_failure repomd_url (child :: rest) w w1
  | listing_decompress_fails child rest w location primary_url response w1 msg :
      location_of child = inr location →
      primary_url_of repomd_url location = inr primary_url →
      requests_get primary_url 60 w = (inr response, w1) →
      status_code response = 200%Z →
      gzip_decompress (content response) = inl msg →
      listing_failure repomd_url (child :: rest) w w1
  | listing_parse_fails child rest w location primary_url response w1 data msg :
      location_of child = inr location →
      primary_url_of repomd_url location = inr primary_url →
      requests_get primary_url 60 w = (inr response, w1) →
      status_code response = 200%Z →
      gzip_decompress (content response) = inr data →
      ET_fromstring (strip_xmlns data) = inl msg →
      listing_failure repomd_url (child :: rest) w w1
  | listing_fetch_status_last child w location primary_url response w1 :
      location_of child = inr location →
      primary_url_of repomd_url location = inr primary_url →
      requests_get primary_url 60 w = (inr response, w1) →
      status_code response ≠ 200%Z →
      listing_failure repomd_url [child] w w1
  | listing_fetch_status_next child rest w location primary_url response w1 w2 :
      location_of child = inr location →
      primary_url_of repomd_url location = inr primary_url →
      requests_get primary_url 60 w = (inr response, w1) →
      status_code response ≠ 200%Z →
      listing_failure repomd_url rest w1 w2 →
      listing_failure repomd_url (child :: rest) w w2.

(** A sub-repository that fails, and the world it leaves. *)
Definition sub_repository_failure (repomd_url : string) (w w2 : W) : Prop :=
  index_failure repomd_url w w2
  ∨ ∃ repomd w1,
      index_document repomd_url w repomd w1
      ∧ listing_failure repomd_url (findall_primary repomd) w1 w2.

(** A [package] element without a [name] element, or one that matches
    and lacks the [arch] element, the [version] element, or the
    attribute [ver] or [rel] of the latter. *)
Definition lacks_field (search_term : string) (package : Element) : Prop :=
  find "name" package = None
  ∨ (is_match search_term package = true
     ∧ (find "arch" package = None
        ∨ find "version" package = None
        ∨ ∃ v, find "version" package = Some v
               ∧ (attrib v !! "ver" = None ∨ attrib v !! "rel" = None))).

(** As the specification words step 5: the location joined against the
    directory of the index. *)
Definition expected_primary_url (repomd_url location : string)
  : Result string :=
  library (urljoin (index_directory repomd_url) location).

(** The package-list document of a sub-repository: the one the search
    gets to through the index. *)
Definition package_listing (repomd_url : string) (w : W) (root : Element)
    (w2 : W) : Prop :=
  ∃ repomd w1,
    index_document repomd_url w repomd w1
    ∧ listing_document repomd_url (findall_primary repomd) w1 root w2.

End Notions.

(** ** Further notions *)

(** No [/] in the string. *)
Definition slash_free (s : string) : Prop := str_in "/" s = false.

(** A white-space byte directly followed by [x]: the only place where a
    match of the namespace pattern can start. *)
Fixpoint space_then_x (s : bytes) : bool :=
  match s with
  | c :: ((d :: _) as rest) =>
      (is_space c && Byte.eqb d Byte.x78) || space_then_x rest
  | _ => false
  end.

(** The number of places of [s] where [pat] occurs. *)
Fixpoint str_count (pat s : string) : nat :=
  (if String.prefix pat s then 1 else 0)
  + match s with
    | EmptyString => 0
    | String _ rest => str_count pat rest
    end.

(** Among the requests made, the URLs of those with the time-out of the
    index request. *)
Definition index_requests (calls : list (string * Z)) : list string :=
  map fst (filter (λ c, c.2 = 30%Z) calls).

Section FurtherNotions.
Context {W : Type} `{!Runtime W}.

(** A [package] element that the loop of lines 69-83 handles without an
    exception: it has a [name] element with a text and, when it matches,
    an [arch] element and a [version] element with the attributes [ver]
    and [rel]. *)
Definition well_formed (search_term : string) (package : Element) : Prop :=
  ∃ e n,
    find "name" package = Some e
    ∧ text e = Some n
    ∧ (is_match search_term package = true →
       is_Some (find "arch" package)
       ∧ ∃ v, find "version" package = Some v
              ∧ is_Some (attrib v !! "ver")
              ∧ is_Some (attrib v !! "rel")).

(** The entries of a sub-repository that its listing shows: all of them,
    or with [--exact] those named as the search term. *)
Definition listed (exact : bool) (search_term : string)
    (packages : list Package) : list Package :=
  filter (λ pkg, exact = false ∨ name pkg = search_term) packages.

(** The lines that the search of each sub-repository prints, one list
    for each sub-repository, in the order of the searches. *)
Fixpoint sub_repository_lines (search_term distro architecture : string)
    (config : Config) (repos_to_search : list string) (w : W)
  : list (list string) :=
  match repos_to_search with
  | [] => []
  | repo :: rest =>
      match repomd_url_of distro architecture repo config with
      | inl _ => []
      | inr repomd_url =>
          let o := search_packages_in_repo repomd_url search_term
                     (distro +:+ "/" +:+ repo) w in
          stdout (events_of o)
          :: sub_repository_lines search_term distro architecture config rest
               (world_of o)
      end
  end.

(** What [main] prints for one sub-repository: the lines of the search,
    the entries found or that there are none, and an empty line. *)
Definition block (exact : bool) (search_term : string)
    (lines : list string) (packages : list Package) : list string :=
  lines
  ++ match packages with
     | [] => ["  No packages found"]
     | _ :: _ =>
         ("  Found " +:+ pretty (length packages) +:+ " packages:")
         :: map (λ pkg, "    " +:+ full_name pkg)
              (listed exact search_term packages)
     end
  ++ [""].

End FurtherNotions.

(** ** A mirror with incomplete indexes

    A second site for the examples: its indexes name a package list
    without saying where it is.  The world is the table of the site; the
    library functions are those of the first examples. *)

Module Mirror.

(** The entry of type [primary] has no [location] element; a complete
    entry follows it. *)
Definition index_bare : bytes :=
  B "<repomd><data type='primary'/><data type='primary'><location href='repodata/primary.xml.gz'/></data></repomd>".
Definition index_bare_tree : Element :=
  Fixture.element "repomd" [] None [
    Fixture.element "data" [("type", "primary")] None [];
    Fixture.element "data" [("type", "primary")] None [
      Fixture.element "location" [("href", "repodata/primary.xml.gz")] None []
    ]
  ].

(** The [location] element has no attribute [href]. *)
Definition index_nowhere : bytes :=
  B "<repomd><data type='primary'><location/></data></repomd>".
Definition index_nowhere_tree : Element :=
  Fixture.element "repomd" [] None [
    Fixture.element "data" [("type", "primary")] None [
      Fixture.element "location" [] None []
    ]
  ].

Definition parse (data : bytes) : string + Element :=
  if decide (data = index_bare) then inr index_bare_tree
  else if decide (data = index_nowhere) then inr index_nowhere_tree
  else Fixture.parse data.

Record Site : Type := { pages : Fixture.Web }.

Definition fetch (url : string) (timeout : Z) (site : Site)
  : (string + Response) * Site :=
  ((Fixture.fetch url timeout (pages site)).1, site).

#[global] Instance runtime : Runtime Site := {|
  requests_get := fetch;
  ET_fromstring := parse;
  gzip_decompress := Fixture.gunzip;
  urljoin := Fixture.join;
  str_lower := Fixture.lower
|}.

Definition site : Site := {| pages := [
  (Fixture.centos "x86_64" "repodata/repomd.xml", Fixture.ok index_bare);
  (Fixture.centos "x86_64" "repodata/primary.xml.gz",
   Fixture.ok (B "gzip:" ++ Fixture.listing));
  (Fixture.centos "aarch64" "repodata/repomd.xml", Fixture.ok index_nowhere)
] |}.

(** For the examples: a help text of one line. *)
Definition help : list string :=
  ["usage: search_packages.py [-h] [--search-term SEARCH_TERM] [--distro {centos7,alma8,alma9}] [--architecture ARCHITECTURE] [--repo REPO] [--exact] [search_term]"].

End Mirror.

(** * Properties *)

(** ** Computations *)

Section Computations.
Context {W : Type}.

Lemma bind_inr {A B} (m : M W A) (k : A → M W B) w a w1 t1 :
  m w = (inr a, w1, t1) →
  bind m k w = (result_of (k a w1), world_of (k a w1), t1 ++ events_of (k a w1)).
Proof.
  intros Hm. unfold bind, result_of, world_of, events_of. rewrite Hm.
  by destruct (k a w1) as [[r w2] t2].
Qed.

Lemma bind_inl {A B} (m : M W A) (k : A → M W B) w e w1 t1 :
  m w = (inl e, w1, t1) → bind m k w = (inl e, w1, t1).
Proof. intros Hm. unfold bind. by rewrite Hm. Qed.

Lemma bind_print {B} (line : string) (k : () → M W B) w :
  bind (print line) k w
  = (result_of (k () w), world_of (k () w), Stdout line :: events_of (k () w)).
Proof. by erewrite bind_inr by reflexivity. Qed.

Lemma bind_eq {A B} (m : M W A) (k : A → M W B) w a w1 t1 r w2 t2 :
  m w = (inr a, w1, t1) → k a w1 = (r, w2, t2) →
  bind m k w = (r, w2, t1 ++ t2).
Proof. intros Hm Hk. unfold bind. by rewrite Hm, Hk. Qed.

Lemma bind_print_eq {B} (line : string) (k : () → M W B) w r w1 t :
  k () w = (r, w1, t) → bind (print line) k w = (r, w1, Stdout line :: t).
Proof. intros Hk. unfold bind, print. by rewrite Hk. Qed.

Lemma bind_lift_inr {A B} (a : A) (k : A → M W B) w :
  bind (lift (inr a)) k w = k a w.
Proof.
  erewrite bind_inr by reflexivity.
  by destruct (k a w) as [[r w2] t2].
Qed.

Lemma bind_lift_inl {A B} (e : exn) (k : A → M W B) w :
  bind (lift (inl e)) k w = (inl e, w, []).
Proof. reflexivity. Qed.

Lemma outcome_eta {A} (o : Result A * W * list event) :
  o = (result_of o, world_of o, events_of o).
Proof. by destruct o as [[r w] t]. Qed.

Lemma stdout_app t1 t2 : stdout (t1 ++ t2) = stdout t1 ++ stdout t2.
Proof. apply omap_app. Qed.

Lemma stdout_cons_Stdout line t : stdout (Stdout line :: t) = line :: stdout t.
Proof. reflexivity. Qed.

Lemma network_calls_cons_Stdout line t :
  network_calls (Stdout line :: t) = network_calls t.
Proof. reflexivity. Qed.

Lemma stdout_printed (lines : list string) : stdout (map Stdout lines) = lines.
Proof.
  induction lines as [|line lines IH]; [done|].
  cbn. unfold stdout in IH. by rewrite IH.
Qed.

Lemma network_calls_printed (lines : list string) :
  network_calls (map Stdout lines) = [].
Proof. by induction lines. Qed.

Lemma network_calls_app t1 t2 :
  network_calls (t1 ++ t2) = network_calls t1 ++ network_calls t2.
Proof. apply omap_app. Qed.

(** A loop that only prints: what it prints, and that it does nothing
    else. *)
Lemma for_each_print {A} (xs : list A) (line : A → string) (w : W) :
  for_each xs (λ x, print (line x)) w = (inr (), w, map Stdout (map line xs)).
Proof.
  induction xs as [|x xs IH]; [done|]. cbn [for_each].
  by rewrite bind_print, IH.
Qed.

Lemma for_each_print_unless {A} (xs : list A) (skip : A → bool)
    (line : A → string) (w : W) :
  for_each xs (λ x, if skip x then ret () else print (line x)) w
  = (inr (), w, map Stdout (map line (filter (λ x, skip x = false) xs))).
Proof.
  induction xs as [|x xs IH]; [done|]. cbn [for_each].
  destruct (skip x) eqn:Hskip.
  - erewrite bind_inr by reflexivity. rewrite IH.
    by rewrite filter_cons_False by congruence.
  - rewrite bind_print, IH. by rewrite filter_cons_True by done.
Qed.

End Computations.

(** ** The loop over the package elements *)

Section Collect.
Context {W : Type} `{!Runtime W}.

Lemma rbind_inr {A B} (m : Result A) (k : A → Result B) b :
  rbind m k = inr b → ∃ a, m = inr a ∧ k a = inr b.
Proof. destruct m as [e|a]; [done|]. cbn. eauto. Qed.

Lemma package_entry_some search_term package pkg :
  package_entry search_term package = inr (Some pkg) →
  element_name package = Some (name pkg)
  ∧ str_in (str_lower search_term) (str_lower (name pkg)) = true
  ∧ well_named pkg.
Proof.
  unfold package_entry, element_name, well_named. intros Hentry.
  apply rbind_inr in Hentry as (txt & Htxt & Hentry).
  apply rbind_inr in Hentry as (n & Hn & Hentry).
  destruct (find "name" package) as [e|]; [|done].
  destruct txt as [s|]; [|done]. cbn in Htxt, Hn.
  injection Htxt as Htxt. injection Hn as <-.
  destruct (str_in _ (str_lower s)) eqn:Hin; [|done].
  apply rbind_inr in Hentry as (a & _ & Hentry).
  apply rbind_inr in Hentry as (va & _ & Hentry).
  apply rbind_inr in Hentry as (v & _ & Hentry).
  apply rbind_inr in Hentry as (va' & _ & Hentry).
  apply rbind_inr in Hentry as (r & _ & Hentry).
  injection Hentry as <-. cbn. by rewrite Htxt, Hin.
Qed.

Lemma package_entry_match search_term package pkg :
  package_entry search_term package = inr (Some pkg) →
  is_match search_term package = true.
Proof.
  intros (Hname & Hin & _)%package_entry_some.
  unfold is_match. by rewrite Hname.
Qed.

Lemma package_entry_none search_term package :
  package_entry search_term package = inr None →
  is_match search_term package = false.
Proof.
  unfold package_entry, is_match, element_name. intros Hentry.
  apply rbind_inr in Hentry as (txt & Htxt & Hentry).
  apply rbind_inr in Hentry as (n & Hn & Hentry).
  destruct (find "name" package) as [e|]; [|done].
  destruct txt as [s|]; [|done]. cbn in Htxt, Hn.
  injection Htxt as ->. injection Hn as <-.
  destruct (str_in _ _); [|done].
  apply rbind_inr in Hentry as (a & _ & Hentry).
  apply rbind_inr in Hentry as (va & _ & Hentry).
  apply rbind_inr in Hentry as (v & _ & Hentry).
  apply rbind_inr in Hentry as (va' & _ & Hentry).
  apply rbind_inr in Hentry as (r & _ & Hentry).
  done.
Qed.

(** The accumulator is a prefix of the result. *)
Lemma collect_acc search_term elements packages :
  collect search_term elements packages
  = let? found := collect search_term elements [] in inr (packages ++ found).
Proof.
  revert packages. induction elements as [|package rest IH]; intros packages.
  - cbn. by rewrite app_nil_r.
  - cbn [collect]. destruct (package_entry search_term package) as [e|[pkg|]]; cbn.
    + done.
    + rewrite (IH (packages ++ [pkg])), (IH [pkg]).
      destruct (collect search_term rest []) as [e|found]; cbn; [done|].
      by rewrite <- app_assoc.
    + apply IH.
Qed.

Lemma collect_entries search_term elements pkgs :
  collect search_term elements [] = inr pkgs →
  Forall2 (λ package pkg, package_entry search_term package = inr (Some pkg))
    (filter (λ package, is_match search_term package) elements) pkgs.
Proof.
  revert pkgs. induction elements as [|package rest IH]; intros pkgs.
  - cbn. intros [= <-]. constructor.
  - cbn [collect].
    destruct (package_entry search_term package) as [e|[pkg|]] eqn:Hentry;
      cbn [rbind].
    + done.
    + rewrite collect_acc.
      destruct (collect search_term rest []) as [e|found]; cbn [rbind]; [done|].
      intros [= <-].
      rewrite filter_cons_True
        by (apply Is_true_true; by eapply package_entry_match).
      constructor; [done|]. by apply IH.
    + intros Hrest.
      rewrite filter_cons_False
        by (rewrite (package_entry_none _ _ Hentry); by intros []).
      by apply IH.
Qed.

(** An element that raises makes the whole loop raise, whatever was
    collected before it. *)
Lemma collect_raises search_term elements packages package e :
  package ∈ elements →
  package_entry search_term package = inl e →
  ∃ e', collect search_term elements packages = inl e'.
Proof.
  intros Hin Hraise. revert packages.
  induction elements as [|p rest IH]; intros packages.
  - by apply elem_of_nil in Hin.
  - cbn [collect]. destruct (package_entry search_term p) as [e'|entry] eqn:Hp.
    + by exists e'.
    + apply elem_of_cons in Hin as [->|Hin]; [congruence|].
      cbn. by apply IH.
Qed.

(** Without such an element the loop returns. *)
Lemma collect_returns search_term elements packages :
  Forall (λ package, ∃ entry, package_entry search_term package = inr entry)
    elements →
  ∃ pkgs, collect search_term elements packages = inr pkgs.
Proof.
  intros Hall. revert packages.
  induction Hall as [|package rest [entry Hentry] _ IH]; intros packages.
  - by exists packages.
  - cbn [collect]. rewrite Hentry. cbn. apply IH.
Qed.

End Collect.

(** ** One sub-repository *)

Section Search.
Context {W : Type} `{!Runtime W}.

(** The loop over the candidates, one step at a time. *)
Lemma primary_loop_cons repomd_url search_term child rest (w : W) :
  primary_loop repomd_url search_term (child :: rest) w
  = match location_of child with
    | inl e => (inl e, w, [])
    | inr location =>
    match primary_url_of repomd_url location with
    | inl e => (inl e, w, [])
    | inr primary_url =>
    match requests_get primary_url 60 w with
    | (inl msg, w1) => (inl (Exception msg), w1, fetching primary_url)
    | (inr primary_response, w1) =>
      if decide (status_code primary_response ≠ 200%Z) then
        let o := primary_loop repomd_url search_term rest w1 in
        (result_of o, world_of o, fetching primary_url ++ events_of o)
      else
      match gzip_decompress (content primary_response) with
      | inl msg => (inl (Exception msg), w1, fetching primary_url)
      | inr primary_data =>
      match ET_fromstring (strip_xmlns primary_data) with
      | inl msg => (inl (Exception msg), w1, fetching primary_url)
      | inr primary_root =>
      match collect_packages search_term primary_root with
      | inl e => (inl e, w1, fetching primary_url)
      | inr packages => (inr (Some packages), w1, fetching primary_url)
      end end end end end end.
Proof.
  cbn [primary_loop]. unfold bind, lift, print, get, ret, fetching.
  destruct (location_of child) as [e|location]; [done|].
  destruct (primary_url_of repomd_url location) as [e|primary_url]; [done|].
  destruct (requests_get primary_url 60 w) as [[msg|primary_response] w1]; [done|].
  cbn [library].
  destruct (decide (status_code primary_response ≠ 200%Z)).
  { by destruct (primary_loop _ _ rest w1) as [[r w2] t2]. }
  destruct (gzip_decompress (content primary_response)) as [msg|primary_data];
    [done|]. cbn.
  destruct (ET_fromstring (strip_xmlns primary_data)) as [msg|primary_root];
    [done|]. cbn.
  by destruct (collect_packages search_term primary_root) as [e|packages].
Qed.

Lemma search_body_eq repomd_url search_term (w : W) :
  search_body repomd_url search_term w
  = match requests_get repomd_url 30 w with
    | (inl msg, w1) => (inl (Exception msg), w1, [HttpGet repomd_url 30])
    | (inr response, w1) =>
      if decide (status_code response ≠ 200%Z) then
        (inr [], w1,
         [HttpGet repomd_url 30;
          Stdout ("  Failed to fetch repomd.xml (HTTP "
                  +:+ pretty (status_code response) +:+ ")")])
      else
      match ET_fromstring (strip_xmlns (content response)) with
      | inl msg => (inl (Exception msg), w1, [HttpGet repomd_url 30])
      | inr repomd =>
        let o := primary_loop repomd_url search_term (findall_primary repomd) w1 in
        match result_of o with
        | inl e => (inl e, world_of o, HttpGet repomd_url 30 :: events_of o)
        | inr (Some packages) =>
            (inr packages, world_of o, HttpGet repomd_url 30 :: events_of o)
        | inr None =>
            (inr [], world_of o,
             HttpGet repomd_url 30 :: events_of o
             ++ [Stdout "  No primary.xml found in repository"])
        end
      end
    end.
Proof.
  unfold search_body, bind, lift, print, get, ret.
  destruct (requests_get repomd_url 30 w) as [[msg|response] w1]; [done|].
  cbn [library].
  destruct (decide (status_code response ≠ 200%Z)); [done|].
  destruct (ET_fromstring (strip_xmlns (content response))) as [msg|repomd];
    [done|]. cbn.
  destruct (primary_loop _ _ _ w1) as [[[e|[packages|]] w2] t2]; cbn; try done.
  by rewrite app_nil_r.
Qed.

Lemma search_packages_in_repo_eq repomd_url search_term repo_name (w : W) :
  search_packages_in_repo repomd_url search_term repo_name w
  = let o := search_body repomd_url search_term w in
    let header := Stdout ("Searching in " +:+ repo_name +:+ ": " +:+ repomd_url) in
    match result_of o with
    | inl (Exception msg) =>
        (inr [], world_of o,
         header :: events_of o ++ [Stdout ("  Error: " +:+ msg)])
    | r => (r, world_of o, header :: events_of o)
    end.
Proof.
  unfold search_packages_in_repo. rewrite bind_print.
  unfold try_except, result_of, world_of, events_of, bind, print, ret.
  by destruct (search_body repomd_url search_term w) as [[[[msg|c]|pkgs] w1] t1].
Qed.

End Search.

Section SearchResults.
Context {W : Type} `{!Runtime W}.

Lemma no_exit_inr {A} (a : A) : no_exit (inr a).
Proof. by intros code. Qed.

Lemma no_exit_Exception {A} msg : no_exit (A := A) (inl (Exception msg)).
Proof. by intros code. Qed.

Lemma no_exit_inl {A B} (e : exn) :
  no_exit (A := A) (inl e) → no_exit (A := B) (inl e).
Proof. intros He code [= ->]. by eapply He. Qed.

Lemma no_exit_library {A} (r : string + A) : no_exit (library r).
Proof. by destruct r; intros code. Qed.

Lemma no_exit_rbind {A B} (m : Result A) (k : A → Result B) :
  no_exit m → (∀ a, no_exit (k a)) → no_exit (rbind m k).
Proof.
  intros Hm Hk. destruct m as [e|a]; cbn; [|apply Hk].
  intros code [= ->]. by eapply Hm.
Qed.

Create HintDb no_exit.
Hint Resolve no_exit_inr no_exit_Exception no_exit_library : no_exit.

Lemma no_exit_get_text x : no_exit (get_text x).
Proof. destruct x; cbn; auto with no_exit. apply no_exit_Exception. Qed.

Lemma no_exit_get_attrib x : no_exit (get_attrib x).
Proof. destruct x; cbn; auto with no_exit. apply no_exit_Exception. Qed.

Lemma no_exit_getitem d key : no_exit (getitem d key).
Proof. unfold getitem. destruct (d !! key); auto with no_exit. apply no_exit_Exception. Qed.

Lemma no_exit_first {A} (l : list A) : no_exit (first l).
Proof. destruct l; cbn; auto with no_exit. apply no_exit_Exception. Qed.

Lemma no_exit_location_of child : no_exit (location_of child).
Proof.
  unfold location_of. apply no_exit_rbind; [apply no_exit_first|].
  intros loc. apply no_exit_getitem.
Qed.

Lemma no_exit_package_entry search_term package :
  no_exit (package_entry search_term package).
Proof.
  unfold package_entry.
  apply no_exit_rbind; [apply no_exit_get_text|]. intros txt.
  apply no_exit_rbind.
  { destruct txt; auto with no_exit. apply no_exit_Exception. }
  intros n. destruct (str_in _ _); [|apply no_exit_inr].
  repeat (apply no_exit_rbind;
          [first [apply no_exit_get_text | apply no_exit_get_attrib
                 | apply no_exit_getitem]|intros ?]).
  apply no_exit_inr.
Qed.

Lemma no_exit_collect search_term elements packages :
  no_exit (collect search_term elements packages).
Proof.
  revert packages. induction elements as [|package rest IH]; intros packages.
  - apply no_exit_inr.
  - cbn [collect]. apply no_exit_rbind; [apply no_exit_package_entry|].
    intros entry. apply IH.
Qed.

Lemma no_exit_primary_loop repomd_url search_term candidates (w : W) :
  no_exit (result_of (primary_loop repomd_url search_term candidates w)).
Proof.
  revert w. induction candidates as [|child rest IH]; intros w.
  - exact (no_exit_inr _).
  - rewrite primary_loop_cons.
    pose proof (no_exit_location_of child) as Hloc.
    destruct (location_of child) as [e|location]; [exact (no_exit_inl _ Hloc)|].
    pose proof (no_exit_library (urljoin
      (str_replace repomd_url "/repodata/repomd.xml" "/") location)) as Hurl.
    fold (primary_url_of repomd_url location) in Hurl.
    destruct (primary_url_of repomd_url location) as [e|primary_url];
      [exact (no_exit_inl _ Hurl)|].
    destruct (requests_get primary_url 60 w) as [[msg|response] w1];
      [exact (no_exit_Exception _)|].
    destruct (decide _); [apply IH|].
    destruct (gzip_decompress _) as [msg|data]; [exact (no_exit_Exception _)|].
    destruct (ET_fromstring _) as [msg|root]; [exact (no_exit_Exception _)|].
    pose proof (no_exit_collect search_term (findall "package" root) []) as Hc.
    fold (collect_packages search_term root) in Hc.
    destruct (collect_packages search_term root); [exact (no_exit_inl _ Hc)|].
    exact (no_exit_inr _).
Qed.

Lemma no_exit_search_body repomd_url search_term (w : W) :
  no_exit (result_of (search_body repomd_url search_term w)).
Proof.
  rewrite search_body_eq.
  destruct (requests_get repomd_url 30 w) as [[msg|response] w1];
    [exact (no_exit_Exception _)|].
  destruct (decide _); [exact (no_exit_inr _)|].
  destruct (ET_fromstring _) as [msg|repomd]; [exact (no_exit_Exception _)|].
  pose proof (no_exit_primary_loop repomd_url search_term
                (findall_primary repomd) w1) as Hloop.
  cbn zeta.
  destruct (result_of (primary_loop _ _ _ _)) as [e|[pkgs|]];
    [exact (no_exit_inl _ Hloop)|exact (no_exit_inr _)..].
Qed.

(** The search of a sub-repository always returns a list. *)
Lemma search_returns repomd_url search_term repo_name (w : W) :
  ∃ packages,
    result_of (search_packages_in_repo repomd_url search_term repo_name w)
    = inr packages.
Proof.
  rewrite search_packages_in_repo_eq. cbn zeta.
  pose proof (no_exit_search_body repomd_url search_term w) as Hbody.
  destruct (result_of (search_body repomd_url search_term w))
    as [[msg|code]|packages]; [by eexists| |by eexists].
  by destruct (Hbody code).
Qed.

(** What the search returns when it gets to a package-list document. *)
Lemma primary_loop_listing repomd_url search_term candidates (w : W) root w2 :
  listing_document repomd_url candidates w root w2 →
  result_of (primary_loop repomd_url search_term candidates w)
  = (let? packages := collect_packages search_term root in inr (Some packages))
  ∧ world_of (primary_loop repomd_url search_term candidates w) = w2.
Proof.
  induction 1 as [child rest w location primary_url response w1 data root
                    Hloc Hurl Hget Hstatus Hgz Hparse
                 |child rest w location primary_url response w1 root w2
                    Hloc Hurl Hget Hstatus _ IH];
    rewrite primary_loop_cons, Hloc, Hurl, Hget.
  - rewrite decide_False by (by intros []). rewrite Hgz, Hparse.
    by destruct (collect_packages search_term root).
  - rewrite decide_True by done. apply IH.
Qed.

Lemma search_listing repomd_url search_term repo_name (w : W) root w2 :
  package_listing repomd_url w root w2 →
  result_of (search_packages_in_repo repomd_url search_term repo_name w)
  = inr (match collect_packages search_term root with
         | inr packages => packages
         | inl _ => []
         end)
  ∧ world_of (search_packages_in_repo repomd_url search_term repo_name w) = w2.
Proof.
  intros (repomd & w1 & (response & Hget & Hstatus & Hparse) & Hlisting).
  apply (primary_loop_listing _ search_term) in Hlisting as [Hres Hworld].
  rewrite search_packages_in_repo_eq, search_body_eq, Hget.
  rewrite decide_False by (by intros []). rewrite Hparse. cbn zeta.
  rewrite Hres, Hworld.
  pose proof (no_exit_collect search_term (findall "package" root) []) as Hc.
  unfold collect_packages in *.
  destruct (collect _ _ _) as [[msg|code]|packages]; cbn; [done| |done].
  by destruct (Hc code).
Qed.

(** A list that is not empty comes from the package-list document. *)
Lemma primary_loop_some repomd_url search_term candidates (w : W) packages :
  result_of (primary_loop repomd_url search_term candidates w)
  = inr (Some packages) →
  ∃ root w2, listing_document repomd_url candidates w root w2
             ∧ collect_packages search_term root = inr packages.
Proof.
  revert w. induction candidates as [|child rest IH]; intros w; [done|].
  rewrite primary_loop_cons.
  destruct (location_of child) as [e|location] eqn:Hloc; [done|].
  destruct (primary_url_of repomd_url location) as [e|primary_url] eqn:Hurl;
    [done|].
  destruct (requests_get primary_url 60 w) as [[msg|response] w1] eqn:Hget;
    [done|].
  destruct (decide _) as [Hstatus|Hstatus].
  - intros (root & w2 & Hlisting & Hcollect)%IH.
    exists root, w2. split; [|done]. by eapply listing_next.
  - destruct (gzip_decompress _) as [msg|data] eqn:Hgz; [done|].
    destruct (ET_fromstring _) as [msg|root] eqn:Hparse; [done|].
    destruct (collect_packages search_term root) as [e|pkgs] eqn:Hcollect;
      [done|].
    intros [= <-]. exists root, w1. split; [|done].
    eapply listing_here; try done. by apply dec_stable.
Qed.

Lemma search_result repomd_url search_term repo_name (w : W) packages :
  result_of (search_packages_in_repo repomd_url search_term repo_name w)
  = inr packages →
  packages = []
  ∨ ∃ root w2, package_listing repomd_url w root w2
               ∧ collect_packages search_term root = inr packages.
Proof.
  rewrite search_packages_in_repo_eq, search_body_eq.
  destruct (requests_get repomd_url 30 w) as [[msg|response] w1] eqn:Hget.
  { intros [= <-]. by left. }
  destruct (decide _) as [Hstatus|Hstatus].
  { intros [= <-]. by left. }
  destruct (ET_fromstring _) as [msg|repomd] eqn:Hparse.
  { intros [= <-]. by left. }
  cbn zeta.
  destruct (result_of (primary_loop _ _ _ _)) as [[msg|code]|[pkgs|]] eqn:Hloop;
    cbn; intros [= <-]; try by left.
  right. apply primary_loop_some in Hloop as (root & w2 & Hlisting & Hcollect).
  exists root, w2. split; [|done].
  exists repomd, w1. split; [|done].
  exists response. split_and!; try done. by apply dec_stable.
Qed.

End SearchResults.

(** ** The configured URLs *)

Section Urls.

Lemma REPO_CONFIGS_lookup distro config :
  REPO_CONFIGS !! distro = Some config →
  (distro = "centos7"
   ∧ base_url config = "https://vault.centos.org/7.9.2009/os/{architecture}/"
   ∧ repos config = ["os"])
  ∨ (distro = "alma8"
     ∧ base_url config = "https://vault.almalinux.org/8.9/{repo}/{architecture}/os/"
     ∧ repos config = ["BaseOS"; "AppStream"; "PowerTools"])
  ∨ (distro = "alma9"
     ∧ base_url config = "https://vault.almalinux.org/9.4/{repo}/{architecture}/os/"
     ∧ repos config = ["BaseOS"; "AppStream"; "CRB"; "devel"]).
Proof.
  unfold REPO_CONFIGS. cbn [list_to_map foldr uncurry fst snd].
  intros Hlookup.
  apply lookup_insert_Some in Hlookup as [[<- <-]|[_ Hlookup]]; [by left|].
  apply lookup_insert_Some in Hlookup as [[<- <-]|[_ Hlookup]];
    [by right; left|].
  apply lookup_insert_Some in Hlookup as [[<- <-]|[_ Hlookup]];
    [by right; right|].
  by rewrite lookup_empty in Hlookup.
Qed.

Lemma REPO_CONFIGS_repodata_path distro config :
  REPO_CONFIGS !! distro = Some config →
  repodata_path config = "repodata/repomd.xml".
Proof.
  unfold REPO_CONFIGS. cbn [list_to_map foldr uncurry fst snd].
  intros Hlookup.
  repeat (apply lookup_insert_Some in Hlookup as [[<- <-]|[_ Hlookup]];
          [done|]).
  by rewrite lookup_empty in Hlookup.
Qed.

Lemma str_app_assoc (s1 s2 s3 : string) :
  (s1 +:+ s2) +:+ s3 = s1 +:+ s2 +:+ s3.
Proof.
  induction s1 as [|c s1 IH]; [done|].
  change (String c ((s1 +:+ s2) +:+ s3) = String c (s1 +:+ s2 +:+ s3)).
  by rewrite IH.
Qed.

Lemma repomd_url_of_centos7 architecture repo config :
  REPO_CONFIGS !! "centos7" = Some config →
  repomd_url_of "centos7" architecture repo config
  = inr ("https://vault.centos.org/7.9.2009/os/" +:+ architecture
         +:+ "/repodata/repomd.xml").
Proof.
  intros Hlookup.
  pose proof (REPO_CONFIGS_repodata_path _ _ Hlookup) as Hpath.
  apply REPO_CONFIGS_lookup in Hlookup
    as [(_ & Hbase & _)|[([=] & _)|([=] & _)]].
  unfold repomd_url_of. rewrite decide_True by done.
  rewrite Hbase, Hpath.
  change (str_format _ _)
    with (@inr exn _ ("https://vault.centos.org/7.9.2009/os/"
                      +:+ architecture +:+ "/")).
  cbn [rbind]. by rewrite !str_app_assoc.
Qed.

Lemma repomd_url_of_alma distro architecture repo config :
  REPO_CONFIGS !! distro = Some config →
  distro ≠ "centos7" →
  ∃ release,
    (distro = "alma8" ∧ release = "8.9" ∨ distro = "alma9" ∧ release = "9.4")
    ∧ repomd_url_of distro architecture repo config
      = inr ("https://vault.almalinux.org/" +:+ release +:+ "/" +:+ repo
             +:+ "/" +:+ architecture +:+ "/os/repodata/repomd.xml").
Proof.
  intros Hlookup Hdistro.
  pose proof (REPO_CONFIGS_repodata_path _ _ Hlookup) as Hpath.
  unfold repomd_url_of. rewrite decide_False by done. rewrite Hpath.
  apply REPO_CONFIGS_lookup in Hlookup
    as [(? & _)|[(-> & Hbase & _)|(-> & Hbase & _)]]; [done|..];
    rewrite Hbase.
  - exists "8.9". split; [by left|].
    change (str_format _ _)
      with (@inr exn _ ("https://vault.almalinux.org/8.9/" +:+ repo +:+ "/"
                        +:+ architecture +:+ "/os/")).
    cbn [rbind]. by rewrite !str_app_assoc.
  - exists "9.4". split; [by right|].
    change (str_format _ _)
      with (@inr exn _ ("https://vault.almalinux.org/9.4/" +:+ repo +:+ "/"
                        +:+ architecture +:+ "/os/")).
    cbn [rbind]. by rewrite !str_app_assoc.
Qed.

(** For a configured distribution the index URL is always defined. *)
Lemma repomd_url_of_ok distro architecture repo config :
  REPO_CONFIGS !! distro = Some config →
  ∃ repomd_url, repomd_url_of distro architecture repo config = inr repomd_url.
Proof.
  intros Hlookup. destruct (decide (distro = "centos7")) as [->|Hdistro].
  - eexists. by apply repomd_url_of_centos7.
  - destruct (repomd_url_of_alma _ architecture repo _ Hlookup Hdistro)
      as (release & _ & ->). by eexists.
Qed.

End Urls.

(** ** The loop over the sub-repositories, and the summary *)

Section Loop.
Context {W : Type} `{!Runtime W}.

Lemma report_eq exact search_term repo packages all_packages (w : W) :
  report exact search_term repo packages all_packages w
  = (inr (all_packages ++ tagged repo packages), w,
     map Stdout (report_lines exact search_term packages)).
Proof.
  unfold report, report_lines, tagged.
  destruct packages as [|pkg rest].
  - cbn [map]. rewrite app_nil_r. by apply bind_print_eq.
  - cbn [map]. apply bind_print_eq.
    rewrite <- (app_nil_r (map Stdout _)).
    eapply bind_eq; [|done].
    rewrite (list_filter_iff _
               (λ p, exact && bool_decide (name p ≠ search_term) = false)).
    + exact (for_each_print_unless _
               (λ p, exact && bool_decide (name p ≠ search_term))
               (λ p, "    " +:+ full_name p) w).
    + intros p. destruct exact; cbn [andb].
      * rewrite bool_decide_eq_false. split.
        -- intros [?|?]; [done|]. by intros ?.
        -- intros Hname. right. by apply dec_stable.
      * by split; [|left].
Qed.

Lemma summary_eq exact search_term all_packages (w : W) :
  summary exact search_term all_packages w
  = (inr (), w,
     map Stdout
       (banner search_term (length all_packages)
        ++ map summary_line
             (if exact
              then filter (λ pr, name pr.1 = search_term) all_packages
              else all_packages))).
Proof.
  unfold summary, banner. cbn [map app].
  do 3 apply bind_print_eq.
  exact (for_each_print _ summary_line w).
Qed.

Lemma search_all_nil exact search_term distro architecture config
    all_packages (w : W) :
  search_all exact search_term distro architecture config [] all_packages w
  = (inr all_packages, w, []).
Proof. reflexivity. Qed.

(** One turn of the loop. *)
Lemma search_all_cons exact search_term distro architecture config repo rest
    all_packages repomd_url (w : W) :
  repomd_url_of distro architecture repo config = inr repomd_url →
  let o := search_packages_in_repo repomd_url search_term
             (distro +:+ "/" +:+ repo) w in
  ∃ packages,
    result_of o = inr packages
    ∧ let o' := search_all exact search_term distro architecture config rest
                  (all_packages ++ tagged repo packages) (world_of o) in
      search_all exact search_term distro architecture config (repo :: rest)
        all_packages w
      = (result_of o', world_of o',
         events_of o
         ++ map Stdout (report_lines exact search_term packages)
         ++ Stdout "" :: events_of o').
Proof.
  intros Hurl. cbn zeta.
  destruct (search_returns repomd_url search_term (distro +:+ "/" +:+ repo) w)
    as [packages Hpackages].
  exists packages. split; [exact Hpackages|].
  cbn [search_all]. rewrite Hurl, bind_lift_inr.
  destruct (search_packages_in_repo repomd_url search_term
              (distro +:+ "/" +:+ repo) w) as [[r w1] t1] eqn:Ho.
  cbn in Hpackages. subst r. cbn [world_of events_of fst snd].
  eapply bind_eq; [exact Ho|].
  eapply bind_eq; [apply report_eq|].
  apply bind_print_eq. apply outcome_eta.
Qed.

(** The accumulated sequence: the entries of the sub-repositories in
    the order these were searched. *)
Lemma search_all_result exact search_term distro architecture config repos
    all_packages (w : W) :
  REPO_CONFIGS !! distro = Some config →
  result_of (search_all exact search_term distro architecture config repos
               all_packages w)
  = inr (all_packages
         ++ concat (map (λ r, tagged r.1 r.2)
                      (sub_repository_results search_term distro architecture
                         config repos w))).
Proof.
  intros Hconfig. revert all_packages w.
  induction repos as [|repo rest IH]; intros all_packages w.
  - cbn. by rewrite app_nil_r.
  - destruct (repomd_url_of_ok _ architecture repo _ Hconfig)
      as [repomd_url Hurl].
    destruct (search_all_cons exact search_term _ _ _ _ rest all_packages _ w
                Hurl) as (packages & Hpackages & Heq).
    cbn zeta in Heq. rewrite Heq. cbn [result_of fst].
    fold (result_of (search_all exact search_term distro architecture config
                       rest (all_packages ++ tagged repo packages)
                       (world_of (search_packages_in_repo repomd_url
                                    search_term (distro +:+ "/" +:+ repo) w)))).
    rewrite IH. cbn [sub_repository_results]. rewrite Hurl, Hpackages.
    cbn [map concat fst snd]. by rewrite <- app_assoc.
Qed.

(** The loop prints and fetches, and then goes on: it does not raise. *)
Lemma search_all_returns exact search_term distro architecture config repos
    all_packages (w : W) :
  REPO_CONFIGS !! distro = Some config →
  ∃ all, result_of (search_all exact search_term distro architecture config
                      repos all_packages w) = inr all.
Proof. intros Hconfig. eexists. by apply search_all_result. Qed.

End Loop.

(** ** The whole program *)

Section Whole.
Context {W : Type} `{!Runtime W}.

Lemma truthy_Some v : truthy v = true → ∃ s, v = Some s ∧ s ≠ "".
Proof. destruct v as [[|c s]|]; try done. intros _. by eexists. Qed.

Lemma main_from_no_term args search_term (w : W) :
  truthy search_term = false →
  main_from args search_term w = (inl (SystemExit 2), w, []).
Proof. intros Hterm. unfold main_from. by rewrite Hterm. Qed.

Lemma main_from_unsupported args search_term (w : W) :
  search_term ≠ "" →
  REPO_CONFIGS !! arg_distro args = None →
  main_from args (Some search_term) w
  = (inr 1%Z, w, [Stdout ("Unsupported distro: " +:+ arg_distro args)]).
Proof.
  intros Hterm Hconfig. unfold main_from.
  assert (truthy (Some search_term) = true) as -> by by destruct search_term.
  rewrite bind_lift_inr, Hconfig. by apply bind_print_eq.
Qed.

Lemma main_from_supported args search_term config (w : W) :
  search_term ≠ "" →
  REPO_CONFIGS !! arg_distro args = Some config →
  let o := search_all (arg_exact args) search_term (arg_distro args)
             (arg_architecture args) config (repos_to_search_of args config)
             [] w in
  ∃ all_packages,
    result_of o = inr all_packages
    ∧ main_from args (Some search_term) w
      = (inr 0%Z, world_of o,
         events_of o
         ++ map Stdout
              (banner search_term (length all_packages)
               ++ map summary_line
                    (if arg_exact args
                     then filter (λ pr, name pr.1 = search_term) all_packages
                     else all_packages))).
Proof.
  intros Hterm Hconfig. cbn zeta.
  destruct (search_all_returns (arg_exact args) search_term _
              (arg_architecture args) _ (repos_to_search_of args config) [] w
              Hconfig) as [all_packages Hall].
  exists all_packages. split; [exact Hall|].
  unfold main_from.
  assert (truthy (Some search_term) = true) as -> by by destruct search_term.
  rewrite bind_lift_inr, Hconfig. cbn [default from_option].
  fold (repos_to_search_of args config).
  destruct (search_all _ _ _ _ _ _ _ w) as [[r w1] t1] eqn:Ho.
  cbn in Hall. subst r. cbn [world_of events_of fst snd].
  eapply bind_eq; [exact Ho|].
  rewrite <- (app_nil_r (map Stdout _)).
  eapply bind_eq; [apply summary_eq|done].
Qed.

Lemma distro_choices_configured distro :
  distro ∈ distro_choices → ∃ config, REPO_CONFIGS !! distro = Some config.
Proof.
  unfold distro_choices. rewrite !elem_of_cons, elem_of_nil.
  intros [->|[->|[->|[]]]]; by eexists.
Qed.

Lemma main_eq cl (w : W) :
  main cl w = match parse_args cl with
              | inl e => (inl e, w, [])
              | inr args => main_body args w
              end.
Proof.
  unfold main. destruct (parse_args cl) as [e|args]; [done|].
  by rewrite bind_lift_inr.
Qed.

End Whole.

(** ** The search term *)

(** C8: the search term used is the value of the attribute [search_term]
    of the parsed namespace, the one slot that the positional argument and
    [--search-term] share: [args.search_term or args.search_term] is
    [args.search_term], and [main] behaves as if it read the attribute
    once. *)
Theorem search_term_read_once {W} `{!Runtime W} (args : Namespace) (w : W) :
  determine_search_term args = arg_search_term args
  ∧ main_body args w = main_reading_once args w.
Proof.
  assert (determine_search_term args = arg_search_term args) as Hread.
  { unfold determine_search_term, py_or.
    by destruct (truthy (arg_search_term args)). }
  split; [done|]. unfold main_body, main_reading_once. by rewrite Hread.
Qed.

(** ** Package entries *)

(** C5: every entry the search of a sub-repository returns has as its full
    identifier the concatenation of its name, [-], its version, [-], its
    release, [.] and its architecture.  (The architecture is rendered as an
    f-string renders it; it is the text itself whenever the [arch] element
    has a text.) *)
Theorem full_name_is_concatenation {W} `{!Runtime W}
    (repomd_url search_term repo_name : string) (w : W)
    (packages : list Package) (pkg : Package) :
  result_of (search_packages_in_repo repomd_url search_term repo_name w)
  = inr packages →
  pkg ∈ packages →
  full_name pkg
  = name pkg +:+ "-" +:+ version pkg +:+ "-" +:+ release pkg +:+ "."
    +:+ fstr (arch pkg)
  ∧ ∀ a, arch pkg = Some a →
         full_name pkg
         = name pkg +:+ "-" +:+ version pkg +:+ "-" +:+ release pkg +:+ "."
           +:+ a.
Proof.
  intros Hsearch Hpkg.
  assert (well_named pkg) as Hnamed.
  { apply search_result in Hsearch
      as [->|(root & w2 & _ & Hcollect)]; [by apply elem_of_nil in Hpkg|].
    apply collect_entries in Hcollect.
    apply list_elem_of_lookup in Hpkg as [i Hi].
    destruct (Forall2_lookup_r _ _ _ _ _ Hcollect Hi) as (package & _ & Hentry).
    by apply package_entry_some in Hentry as (_ & _ & Hnamed). }
  split; [exact Hnamed|]. intros a Ha. unfold well_named in Hnamed.
  by rewrite Ha in Hnamed.
Qed.

(** On the example: the entry found for [kernel]. *)
Lemma full_name_is_concatenation_witness :
  let pkg := {| name := "kernel"; version := "5.14.0"; release := "427.el9";
                arch := Some "x86_64";
                full_name := "kernel-5.14.0-427.el9.x86_64" |} in
  let packages :=
    [pkg;
     {| name := "Kernel-Tools"; version := "5.14.0"; release := "427.el9";
        arch := Some "x86_64";
        full_name := "Kernel-Tools-5.14.0-427.el9.x86_64" |}] in
  result_of (search_packages_in_repo
               (Fixture.centos "x86_64" "repodata/repomd.xml") "kernel"
               "centos7/os" Fixture.web) = inr packages
  ∧ pkg ∈ packages
  ∧ full_name pkg = "kernel" +:+ "-" +:+ "5.14.0" +:+ "-" +:+ "427.el9" +:+ "."
                    +:+ "x86_64".
Proof.
  intros pkg packages.
  assert (result_of (search_packages_in_repo
                       (Fixture.centos "x86_64" "repodata/repomd.xml") "kernel"
                       "centos7/os" Fixture.web) = inr packages) as Hsearch
    by (vm_compute; reflexivity).
  assert (pkg ∈ packages) as Hpkg by apply list_elem_of_here.
  split; [exact Hsearch|]. split; [exact Hpkg|].
  exact (proj2 (full_name_is_concatenation _ _ _ _ _ _ Hsearch Hpkg)
           "x86_64" eq_refl).
Defined.

(** ** Reading the command line *)

(** Induction on a command line that is read one or two arguments at a
    time. *)
Lemma arg_ind2 (P : list Arg → Prop) :
  P [] →
  (∀ a rest,
     P rest → (∀ b rest', rest = b :: rest' → P rest') → P (a :: rest)) →
  ∀ line, P line.
Proof.
  intros Hnil Hcons line.
  enough (P line ∧ ∀ b rest', line = b :: rest' → P rest') as [? _] by done.
  induction line as [|a rest [IH1 IH2]]; [by split|]. split.
  - by apply Hcons.
  - by intros b rest' [= _ <-].
Qed.

(** A namespace that is returned holds a distribution that is among the
    choices. *)
Lemma scan_distro line ns pending extras ns' :
  scan line ns pending extras = Returned ns' →
  arg_distro ns ∈ distro_choices →
  arg_distro ns' ∈ distro_choices.
Proof.
  revert ns pending extras.
  induction line as [|a rest IH1 IH2] using arg_ind2; intros ns pending extras.
  - cbn [scan]. destruct extras; [|done]. intros [= <-].
    by destruct pending.
  - destruct a as [o|s].
    + destruct o; cbn [scan]; try done;
        try (intros Hscan Hin; exact (IH1 _ _ _ Hscan Hin));
        destruct rest as [|[o'|v] rest']; cbn [scan]; try done;
        try (intros Hscan Hin; exact (IH2 _ _ eq_refl _ _ _ Hscan Hin)).
      destruct (decide (v ∈ distro_choices)) as [Hv|]; [|done].
      intros Hscan _. exact (IH2 _ _ eq_refl _ _ _ Hscan Hv).
    + cbn [scan].
      destruct pending; intros Hscan Hin; exact (IH1 _ _ _ Hscan Hin).
Qed.

Lemma parse_argv_distro line ns :
  parse_argv line = Returned ns → arg_distro ns ∈ distro_choices.
Proof.
  intros Hscan. apply (scan_distro _ _ _ _ _ Hscan).
  apply list_elem_of_further, list_elem_of_further, list_elem_of_here.
Qed.

(** The help is printed only for a help option. *)
Lemma scan_help line ns pending extras :
  scan line ns pending extras = PrintHelp → Flag OptHelp ∈ line.
Proof.
  revert ns pending extras.
  induction line as [|a rest IH1 IH2] using arg_ind2; intros ns pending extras.
  - cbn [scan]. by destruct extras.
  - destruct a as [o|s].
    + destruct o; cbn [scan];
        try (intros _; by apply list_elem_of_here);
        try (intros Hscan; by apply list_elem_of_further, (IH1 _ _ _ Hscan));
        destruct rest as [|[o'|v] rest']; cbn [scan]; try done;
        try (intros Hscan;
             by apply list_elem_of_further, list_elem_of_further,
                  (IH2 _ _ eq_refl _ _ _ Hscan)).
      destruct (decide (v ∈ distro_choices)); [|done].
      intros Hscan.
      by apply list_elem_of_further, list_elem_of_further,
           (IH2 _ _ eq_refl _ _ _ Hscan).
    + cbn [scan]. destruct pending; intros Hscan;
        by apply list_elem_of_further, (IH1 _ _ _ Hscan).
Qed.

(** A value of [--distro] that is not among the choices is an error as
    soon as it is read; before that only a help option or another error
    ends the program. *)
Lemma scan_unsupported_distro pre d post ns pending extras :
  d ∉ distro_choices →
  scan (pre ++ Flag OptDistro :: Word d :: post) ns pending extras = UsageError
  ∨ (scan (pre ++ Flag OptDistro :: Word d :: post) ns pending extras
     = PrintHelp
     ∧ Flag OptHelp ∈ pre).
Proof.
  intros Hd. revert ns pending extras.
  induction pre as [|a rest IH1 IH2] using arg_ind2; intros ns pending extras.
  - left. cbn [app scan]. by rewrite decide_False.
  - assert (∀ r : Parsed,
              r = UsageError ∨ r = PrintHelp ∧ Flag OptHelp ∈ rest →
              r = UsageError ∨ r = PrintHelp ∧ Flag OptHelp ∈ a :: rest)
      as Hrest.
    { intros r [?|[? ?]]; [by left|right].
      split; [done|by apply list_elem_of_further]. }
    assert (∀ b rest' (r : Parsed),
              rest = b :: rest' →
              r = UsageError ∨ r = PrintHelp ∧ Flag OptHelp ∈ rest' →
              r = UsageError ∨ r = PrintHelp ∧ Flag OptHelp ∈ a :: rest)
      as Hrest'.
    { intros b rest' r -> [?|[? ?]]; [by left|right].
      split; [done|by apply list_elem_of_further, list_elem_of_further]. }
    change ((a :: rest) ++ ?l) with (a :: (rest ++ l)).
    destruct a as [o|s].
    + destruct o; cbn [scan];
        try (right; split; [done|by apply list_elem_of_here]);
        try (by apply Hrest, IH1);
        destruct rest as [|[o'|v] rest']; cbn [app scan]; try (by left);
        try (by apply (Hrest' _ _ _ eq_refl), (IH2 _ _ eq_refl)).
      destruct (decide (v ∈ distro_choices)); [|by left].
      by apply (Hrest' _ _ _ eq_refl), (IH2 _ _ eq_refl).
    + cbn [scan]. destruct pending; by apply Hrest, IH1.
Qed.

(** Without a word of its own the positional argument is never read, and
    the end of the command line leaves [None] in its place. *)
Lemma scan_no_positional line ns extras ns' :
  positional_words line = [] →
  scan line ns true extras = Returned ns' →
  arg_search_term ns' = None.
Proof.
  revert ns extras.
  induction line as [|a rest IH1 IH2] using arg_ind2; intros ns extras.
  - cbn [scan]. destruct extras; [|done]. by intros _ [= <-].
  - destruct a as [o|s]; [|by cbn [positional_words]].
    destruct o; cbn [scan positional_words]; try done; try (by apply IH1);
      destruct rest as [|[o'|v] rest']; cbn [scan]; try done;
      try (by apply (IH2 _ _ eq_refl)).
    destruct (decide (v ∈ distro_choices)); [|done].
    by apply (IH2 _ _ eq_refl).
Qed.

Section CommandLines.
Context {W : Type} `{!Runtime W}.

(** The body of [main] with a distribution among the choices: it returns
    0 when the search term is a string that is not empty, and ends the
    program with status 2 before it prints or requests anything
    otherwise. *)
Lemma main_body_outcome (args : Namespace) (w : W) :
  arg_distro args ∈ distro_choices →
  (∃ search_term,
     arg_search_term args = Some search_term ∧ search_term ≠ ""
     ∧ result_of (main_body args w) = inr 0%Z)
  ∨ (truthy (arg_search_term args) = false
     ∧ main_body args w = (inl (SystemExit 2), w, [])).
Proof.
  intros Hchoice.
  apply distro_choices_configured in Hchoice as [config Hconfig].
  assert (determine_search_term args = arg_search_term args) as Hread
    by (unfold determine_search_term, py_or; by destruct (truthy _)).
  unfold main_body. rewrite Hread.
  destruct (truthy (arg_search_term args)) eqn:Hterm.
  - left. apply truthy_Some in Hterm as (search_term & Hs & Hterm).
    exists search_term. split; [done|]. split; [done|]. rewrite Hs.
    by destruct (main_from_supported args search_term config w Hterm Hconfig)
      as (all_packages & _ & ->).
  - right. split; [done|]. by apply main_from_no_term.
Qed.

Lemma main_argv_help format_help line (w : W) :
  parse_argv line = PrintHelp →
  main_argv format_help line w
  = (inl (SystemExit 0), w, map Stdout format_help).
Proof.
  intros Hparse. unfold main_argv. rewrite Hparse.
  pose proof (for_each_print format_help id w) as Hprint.
  rewrite map_id in Hprint.
  unfold bind.
  change (for_each format_help print w)
    with (for_each format_help (λ x, print (id x)) w).
  rewrite Hprint. unfold lift. by rewrite app_nil_r.
Qed.

Lemma main_argv_error format_help line (w : W) :
  parse_argv line = UsageError →
  main_argv format_help line w = (inl (SystemExit 2), w, []).
Proof. intros Hparse. unfold main_argv. by rewrite Hparse. Qed.

Lemma network_calls_help (format_help : list string) :
  network_calls (map Stdout format_help) = [].
Proof. induction format_help as [|l ls IH]; [done|]. exact IH. Qed.

(** The three ways in which a run ends. *)
Lemma main_argv_outcome format_help line (w : W) :
  (parse_argv line = PrintHelp
   ∧ main_argv format_help line w
     = (inl (SystemExit 0), w, map Stdout format_help))
  ∨ main_argv format_help line w = (inl (SystemExit 2), w, [])
  ∨ (∃ args search_term,
       parse_argv line = Returned args
       ∧ arg_search_term args = Some search_term ∧ search_term ≠ ""
       ∧ result_of (main_argv format_help line w) = inr 0%Z).
Proof.
  destruct (parse_argv line) as [| |args] eqn:Hparse.
  - left. split; [done|]. by apply main_argv_help.
  - right. left. by apply main_argv_error.
  - right.
    destruct (main_body_outcome args w (parse_argv_distro _ _ Hparse))
      as [(search_term & Hs & Hterm & H0)|[_ Hexit]].
    + right. exists args, search_term. unfold main_argv. by rewrite Hparse.
    + left. unfold main_argv. by rewrite Hparse.
Qed.

(** A command line in the form of [render] is read as [parse_args] says:
    on these command lines [main] is [main_argv]. *)
Lemma main_argv_render format_help (cl : CommandLine) (w : W) :
  main_argv format_help (render cl) w = main cl w.
Proof.
  rewrite main_eq. unfold main_argv, parse_argv, parse_args, render.
  destruct cl as [[s|] [d|] [a|] [r|] []]; cbn;
    try destruct (decide (d ∈ distro_choices)); reflexivity.
Qed.

End CommandLines.

(** ** Exit status *)

Lemma distro_not_configured distro :
  distro ∉ distro_choices → REPO_CONFIGS !! distro = None.
Proof.
  unfold distro_choices. rewrite !not_elem_of_cons. intros (? & ? & ? & _).
  unfold REPO_CONFIGS. cbn [list_to_map foldr uncurry fst snd].
  by rewrite !lookup_insert_ne, lookup_empty by done.
Qed.

Lemma alma10_not_supported : "alma10" ∉ distro_choices.
Proof.
  unfold distro_choices. intros Hin.
  repeat (apply elem_of_cons in Hin as [Hin|Hin]; [done|]).
  by apply elem_of_nil in Hin.
Qed.

Lemma centos7_supported : "centos7" ∈ distro_choices.
Proof. apply list_elem_of_here. Qed.

(** C3, the claim as stated, fails: with [--distro alma10] the argument
    parser ends the program with status 2, not 1. *)
Lemma unsupported_distro_exit_status_not_1 :
  cl_distro Fixture.alma10_command = Some "alma10"
  ∧ ("alma10" ∉ distro_choices)
  ∧ exit_status (result_of (main Fixture.alma10_command Fixture.web)) = 2%Z
  ∧ exit_status (result_of (main Fixture.alma10_command Fixture.web)) ≠ 1%Z
  ∧ read_argv ["kernel"; "--distro"; "alma10"]
    = Some (render Fixture.alma10_command)
  ∧ main_argv Mirror.help (render Fixture.alma10_command) Fixture.web
    = (inl (SystemExit 2), Fixture.web, []).
Proof.
  split; [done|]. split; [exact alma10_not_supported|].
  by vm_compute.
Qed.

(** C3, as amended: on a command line whose arguments are option strings
    of the parser and words, a value of [--distro] outside the supported set
    never leads to the exit status 1 and never to a network call.
    [argparse] rejects the value when it reads it: the exit status is 2 and
    nothing is printed on the standard output, unless a help option stands
    before it, and then the program ends either with the help and the
    status 0 or with the status 2 of an earlier error.  The check in the
    body of [main], reached only with a namespace that has a search term
    and a distribution that is not configured, returns 1 without a network
    call.  No run from a command line has the exit status 1; a run that
    completes normally has the status 0, whatever was found, and every run
    for which [argparse] returns a namespace with a search term that is
    not empty does complete normally. *)
Theorem exit_status_of_main {W} `{!Runtime W} (format_help : list string)
    (argv : list string) (line : list Arg) (args : Namespace) (w : W) :
  read_argv argv = Some line →
  let run := main_argv format_help line w in
  (∀ pre d post,
     line = pre ++ Flag OptDistro :: Word d :: post →
     d ∉ distro_choices →
     network_calls (events_of run) = []
     ∧ (run = (inl (SystemExit 2), w, [])
        ∨ Flag OptHelp ∈ pre
          ∧ run = (inl (SystemExit 0), w, map Stdout format_help))
     ∧ (Flag OptHelp ∉ pre →
        exit_status (result_of run) = 2%Z ∧ events_of run = []))
  ∧ (truthy (determine_search_term args) = true →
     arg_distro args ∉ distro_choices →
     result_of (main_body args w) = inr 1%Z
     ∧ network_calls (events_of (main_body args w)) = [])
  ∧ exit_status (result_of run) ≠ 1%Z
  ∧ (∀ code, result_of run = inr code → code = 0%Z)
  ∧ (∀ ns, parse_argv line = Returned ns →
           truthy (arg_search_term ns) = true →
           result_of run = inr 0%Z).
Proof.
  intros _ run. split_and!.
  - intros pre d post -> Hd.
    assert (run = (inl (SystemExit 2), w, [])
            ∨ Flag OptHelp ∈ pre
              ∧ run = (inl (SystemExit 0), w, map Stdout format_help))
      as Hrun.
    { destruct (scan_unsupported_distro pre d post defaults true [] Hd)
        as [Herror|[Hhelp Hin]].
      - left. by apply main_argv_error.
      - right. split; [done|]. by apply main_argv_help. }
    split_and!; [|done|].
    + destruct Hrun as [->|[_ ->]]; [done|]. apply network_calls_help.
    + intros Hpre. by destruct Hrun as [->|[? _]].
  - intros Hterm Hdistro. unfold main_body.
    apply truthy_Some in Hterm as (search_term & -> & Hterm).
    by rewrite (main_from_unsupported _ _ _ Hterm
                  (distro_not_configured _ Hdistro)).
  - destruct (main_argv_outcome format_help line w)
      as [[_ Hrun]|[Hrun|(ns & s & _ & _ & _ & Hrun)]];
      fold run in Hrun; by rewrite Hrun.
  - intros code Hcode.
    destruct (main_argv_outcome format_help line w)
      as [[_ Hrun]|[Hrun|(ns & s & _ & _ & _ & Hrun)]];
      fold run in Hrun; rewrite Hrun in Hcode; by try injection Hcode as <-.
  - intros ns Hparse Hterm.
    destruct (main_argv_outcome format_help line w)
      as [[Hhelp _]|[Hrun|(ns' & s & _ & _ & _ & Hrun)]];
      [congruence| |done].
    exfalso. unfold run, main_argv in Hrun. rewrite Hparse in Hrun.
    destruct (main_body_outcome ns w (parse_argv_distro _ _ Hparse))
      as [(s & _ & _ & H0)|[Hno _]]; [|congruence].
    by rewrite Hrun in H0.
Qed.

(** On the examples: [kernel --distro alma10] ends with status 2 and no
    event; with [-h] before [--distro alma10] nothing is requested either;
    a namespace with [alma10] makes the body return 1; a search for [zlib],
    which finds nothing, returns 0. *)
Lemma exit_status_of_main_witness :
  (read_argv ["kernel"; "--distro"; "alma10"]
   = Some [Word "kernel"; Flag OptDistro; Word "alma10"]
   ∧ ("alma10" ∉ distro_choices)
   ∧ exit_status (result_of (main_argv Mirror.help
                               [Word "kernel"; Flag OptDistro; Word "alma10"]
                               Fixture.web)) = 2%Z
   ∧ events_of (main_argv Mirror.help
                  [Word "kernel"; Flag OptDistro; Word "alma10"] Fixture.web)
     = [])
  ∧ (read_argv ["-h"; "--distro"; "alma10"]
     = Some [Flag OptHelp; Flag OptDistro; Word "alma10"]
     ∧ network_calls (events_of (main_argv Mirror.help
                                   [Flag OptHelp; Flag OptDistro; Word "alma10"]
                                   Fixture.web)) = [])
  ∧ (truthy (determine_search_term Fixture.alma10_namespace) = true
     ∧ (arg_distro Fixture.alma10_namespace ∉ distro_choices)
     ∧ result_of (main_body Fixture.alma10_namespace Fixture.web) = inr 1%Z
     ∧ network_calls (events_of (main_body Fixture.alma10_namespace Fixture.web))
       = [])
  ∧ (read_argv ["zlib"; "--distro"; "centos7"]
     = Some [Word "zlib"; Flag OptDistro; Word "centos7"]
     ∧ result_of (main_argv Mirror.help
                    [Word "zlib"; Flag OptDistro; Word "centos7"] Fixture.web)
       = inr 0%Z).
Proof.
  pose proof alma10_not_supported as Hnot.
  assert (Flag OptHelp ∉ [Word "kernel"]) as Hnohelp.
  { intros Hin. apply elem_of_cons in Hin as [[=]|Hin].
    by apply elem_of_nil in Hin. }
  destruct (exit_status_of_main Mirror.help ["kernel"; "--distro"; "alma10"]
              [Word "kernel"; Flag OptDistro; Word "alma10"]
              Fixture.alma10_namespace Fixture.web eq_refl)
    as (Hparser & Hbody & _ & _ & _).
  destruct (Hparser [Word "kernel"] "alma10" [] eq_refl Hnot)
    as (_ & _ & Hstatus).
  destruct (Hstatus Hnohelp) as [Hexit Hevents].
  destruct (exit_status_of_main Mirror.help ["-h"; "--distro"; "alma10"]
              [Flag OptHelp; Flag OptDistro; Word "alma10"]
              Fixture.alma10_namespace Fixture.web eq_refl)
    as (Hhelp & _ & _ & _ & _).
  destruct (Hhelp [Flag OptHelp] "alma10" [] eq_refl Hnot) as (Hcalls & _ & _).
  destruct (Hbody eq_refl Hnot) as [Hone Hnone].
  destruct (exit_status_of_main Mirror.help ["zlib"; "--distro"; "centos7"]
              [Word "zlib"; Flag OptDistro; Word "centos7"]
              Fixture.alma10_namespace Fixture.web eq_refl)
    as (_ & _ & _ & _ & Hnormal).
  pose proof (Hnormal {| arg_search_term := Some "zlib";
                         arg_distro := "centos7";
                         arg_architecture := "x86_64";
                         arg_repo := None;
                         arg_exact := false |} eq_refl eq_refl) as Hzero.
  repeat split; done.
Defined.

(** ** The summary *)

(** C2: the count in the banner is the length of the accumulated sequence,
    taken before the exact-match filter of lines 172-175; the lines after
    the banner are the accumulated pairs that pass this filter, each printed
    as its full identifier followed by its sub-repository in parentheses;
    so with [--exact] the count is larger than the number of lines as soon
    as one accumulated entry has another name than the search term. *)
Theorem summary_counts_before_exact_filter {W} `{!Runtime W}
    (args : Namespace) (search_term : string) (config : Config) (w : W) :
  determine_search_term args = Some search_term →
  search_term ≠ "" →
  REPO_CONFIGS !! arg_distro args = Some config →
  ∃ all_packages,
    result_of (search_all (arg_exact args) search_term (arg_distro args)
                 (arg_architecture args) config (repos_to_search_of args config)
                 [] w) = inr all_packages
    ∧ stdout (events_of (main_body args w))
      = stdout (events_of (search_all (arg_exact args) search_term
                             (arg_distro args) (arg_architecture args) config
                             (repos_to_search_of args config) [] w))
        ++ [str_repeat "=" 60;
            "SUMMARY: " +:+ pretty (length all_packages)
              +:+ " packages found containing '" +:+ search_term +:+ "'";
            str_repeat "=" 60]
        ++ map (λ pr, full_name pr.1 +:+ " (from " +:+ pr.2 +:+ ")")
             (after_exact_filter (arg_exact args) search_term all_packages)
    ∧ (length (after_exact_filter (arg_exact args) search_term all_packages)
       ≤ length all_packages)
    ∧ (arg_exact args = true →
       ∀ pr, pr ∈ all_packages → name pr.1 ≠ search_term →
             length (after_exact_filter true search_term all_packages)
             < length all_packages).
Proof.
  intros Hread Hterm Hconfig. unfold main_body. rewrite Hread.
  destruct (main_from_supported args search_term config w Hterm Hconfig)
    as (all_packages & Hall & ->).
  exists all_packages. split; [exact Hall|]. split_and!.
  - cbn [events_of snd]. by rewrite stdout_app, stdout_printed.
  - unfold after_exact_filter. destruct (arg_exact args); [|done].
    apply length_filter.
  - intros _ pr Hpr Hname. unfold after_exact_filter.
    by apply (length_filter_lt _ _ pr).
Qed.

(** On the example: with [--exact] the banner counts 2 packages and one
    line follows it. *)
Lemma summary_counts_before_exact_filter_witness :
  let all_packages := [(Fixture.kernel, "os"); (Fixture.kernel_tools, "os")] in
  determine_search_term Fixture.exact_namespace = Some "kernel"
  ∧ "kernel" ≠ ""
  ∧ stdout (events_of (main_body Fixture.exact_namespace Fixture.web))
    = ["Searching in centos7/os: https://vault.centos.org/7.9.2009/os/x86_64/repodata/repomd.xml";
       "  Fetching package data...";
       "  Found 2 packages:";
       "    kernel-5.14.0-427.el9.x86_64";
       "";
       "============================================================";
       "SUMMARY: 2 packages found containing 'kernel'";
       "============================================================";
       "kernel-5.14.0-427.el9.x86_64 (from os)"]
  ∧ length (after_exact_filter true "kernel" all_packages) < length all_packages.
Proof.
  intros all_packages.
  assert (REPO_CONFIGS !! arg_distro Fixture.exact_namespace
          = Some {| base_url := "https://vault.centos.org/7.9.2009/os/{architecture}/";
                    repos := ["os"];
                    repodata_path := "repodata/repomd.xml" |}) as Hconfig
    by reflexivity.
  assert ("kernel" ≠ "") as Hterm by done.
  destruct (summary_counts_before_exact_filter Fixture.exact_namespace "kernel"
              _ Fixture.web eq_refl Hterm Hconfig)
    as (all & Hall & Hout & _ & Hless).
  assert (all = all_packages) as ->.
  { assert (inr all = @inr exn _ all_packages) as [= ->]; [|done].
    rewrite <- Hall. vm_compute. reflexivity. }
  split; [done|]. split; [exact Hterm|]. split.
  - rewrite Hout. vm_compute. reflexivity.
  - apply (Hless eq_refl (Fixture.kernel_tools, "os")).
    + apply list_elem_of_further, list_elem_of_here.
    + done.
Defined.

(** ** The filter *)

Lemma fixture_listing :
  package_listing (Fixture.centos "x86_64" "repodata/repomd.xml") Fixture.web
    Fixture.listing_tree Fixture.web.
Proof.
  exists Fixture.index_one_tree, Fixture.web. split.
  - exists {| status_code := 200; content := Fixture.index_one |}.
    split_and!; by vm_compute.
  - eapply (listing_here _ _ _ _ "repodata/primary.xml.gz"
              (Fixture.centos "x86_64" "repodata/primary.xml.gz")
              {| status_code := 200;
                 content := B "gzip:" ++ Fixture.listing |}
              _ Fixture.listing);
      by vm_compute.
Qed.

(** C1, the claim as stated, fails: with [--exact] and the search term
    [kernel], the entry named [Kernel-Tools] passes the filter of the search
    and is appended to the result list of its sub-repository. *)
Lemma exact_match_not_applied_in_search :
  cl_exact (Fixture.command "kernel" "x86_64" true) = true
  ∧ result_of (search_packages_in_repo
                 (Fixture.centos "x86_64" "repodata/repomd.xml") "kernel"
                 "centos7/os" Fixture.web)
    = inr [Fixture.kernel; Fixture.kernel_tools]
  ∧ result_of (search_all true "kernel" "centos7" "x86_64"
                 Fixture.centos7_config ["os"] [] Fixture.web)
    = inr [(Fixture.kernel, "os"); (Fixture.kernel_tools, "os")]
  ∧ name Fixture.kernel_tools ≠ "kernel".
Proof. split_and!; by vm_compute. Qed.

(** C1, as amended: the filter of the search is the same whether or not
    [--exact] is given.  When the loop over the package elements of the
    package-list document completes, the entries returned are those of the
    elements whose name contains the search term, case ignored, one for each
    and in document order, and all of them are appended to the accumulated
    sequence.  [--exact] only restricts what is listed: of the entries
    found, the lines printed are those of the entries whose name equals the
    search term. *)
Theorem search_filter_is_substring_match {W} `{!Runtime W}
    (exact : bool) (repomd_url search_term repo_name repo : string)
    (w w2 : W) (root : Element) (packages : list Package)
    (all_packages : list (Package * string)) :
  package_listing repomd_url w root w2 →
  collect_packages search_term root = inr packages →
  result_of (search_packages_in_repo repomd_url search_term repo_name w)
  = inr packages
  ∧ Forall2 (λ package pkg, element_name package = Some (name pkg))
      (filter (λ package, is_match search_term package)
         (findall "package" root))
      packages
  ∧ (∀ pkg, pkg ∈ packages →
            str_in (str_lower search_term) (str_lower (name pkg)) = true)
  ∧ result_of (report exact search_term repo packages all_packages w2)
    = inr (all_packages ++ map (λ pkg, (pkg, repo)) packages)
  ∧ (packages ≠ [] →
     stdout (events_of (report true search_term repo packages all_packages w2))
     = ("  Found " +:+ pretty (length packages) +:+ " packages:")
       :: map (λ pkg, "    " +:+ full_name pkg)
            (filter (λ pkg, name pkg = search_term) packages)).
Proof.
  intros Hlisting Hcollect.
  pose proof (collect_entries _ _ _ Hcollect) as Hentries.
  split_and!.
  - destruct (search_listing _ search_term repo_name _ _ _ Hlisting) as [-> _].
    by rewrite Hcollect.
  - eapply Forall2_impl; [exact Hentries|].
    intros package pkg Hentry.
    by apply package_entry_some in Hentry as (Hname & _ & _).
  - intros pkg [i Hi]%list_elem_of_lookup.
    destruct (Forall2_lookup_r _ _ _ _ _ Hentries Hi) as (package & _ & Hentry).
    by apply package_entry_some in Hentry as (_ & Hin & _).
  - by rewrite report_eq.
  - intros Hfound. rewrite report_eq. cbn [events_of snd].
    rewrite stdout_printed. unfold report_lines.
    destruct packages as [|pkg rest]; [done|]. do 2 f_equal.
    apply list_filter_iff. intros p. split; [by intros [?|?]|by right].
Qed.

(** On the example: with the search term [kernel], the entries [kernel] and
    [Kernel-Tools] are found and only [kernel] is listed under [--exact]. *)
Lemma search_filter_is_substring_match_witness :
  package_listing (Fixture.centos "x86_64" "repodata/repomd.xml") Fixture.web
    Fixture.listing_tree Fixture.web
  ∧ collect_packages "kernel" Fixture.listing_tree
    = inr [Fixture.kernel; Fixture.kernel_tools]
  ∧ result_of (search_packages_in_repo
                 (Fixture.centos "x86_64" "repodata/repomd.xml") "kernel"
                 "centos7/os" Fixture.web)
    = inr [Fixture.kernel; Fixture.kernel_tools]
  ∧ stdout (events_of (report true "kernel" "os"
                         [Fixture.kernel; Fixture.kernel_tools] [] Fixture.web))
    = ["  Found 2 packages:"; "    kernel-5.14.0-427.el9.x86_64"].
Proof.
  assert (collect_packages "kernel" Fixture.listing_tree
          = inr [Fixture.kernel; Fixture.kernel_tools]) as Hcollect
    by (vm_compute; reflexivity).
  destruct (search_filter_is_substring_match true _ "kernel" "centos7/os" "os"
              _ _ _ _ [] fixture_listing Hcollect)
    as (Hsearch & _ & _ & _ & Hlines).
  split; [exact fixture_listing|]. split; [exact Hcollect|].
  split; [exact Hsearch|].
  rewrite Hlines by done. vm_compute. reflexivity.
Defined.

(** ** Failures *)

Section Failures.
Context {W : Type} `{!Runtime W}.

Lemma primary_loop_failure repomd_url search_term candidates (w w2 : W) :
  listing_failure repomd_url candidates w w2 →
  (∃ msg, result_of (primary_loop repomd_url search_term candidates w)
          = inl (Exception msg)
   ∨ result_of (primary_loop repomd_url search_term candidates w) = inr None)
  ∧ world_of (primary_loop repomd_url search_term candidates w) = w2.
Proof.
  induction 1 as [child rest w location primary_url msg w1 Hloc Hurl Hget
                 |child rest w location primary_url response w1 msg
                    Hloc Hurl Hget Hstatus Hgz
                 |child rest w location primary_url response w1 data msg
                    Hloc Hurl Hget Hstatus Hgz Hparse
                 |child w location primary_url response w1
                    Hloc Hurl Hget Hstatus
                 |child rest w location primary_url response w1 w2
                    Hloc Hurl Hget Hstatus _ IH];
    rewrite primary_loop_cons, Hloc, Hurl, Hget.
  - split; [|done]. exists msg. by left.
  - rewrite decide_False by (by intros []). rewrite Hgz.
    split; [|done]. exists msg. by left.
  - rewrite decide_False by (by intros []). rewrite Hgz, Hparse.
    split; [|done]. exists msg. by left.
  - rewrite decide_True by done. split; [|done]. exists "". by right.
  - rewrite decide_True by done. exact IH.
Qed.

(** A sub-repository that fails yields the empty list. *)
Lemma search_failure repomd_url search_term repo_name (w w2 : W) :
  sub_repository_failure repomd_url w w2 →
  result_of (search_packages_in_repo repomd_url search_term repo_name w)
  = inr []
  ∧ world_of (search_packages_in_repo repomd_url search_term repo_name w) = w2.
Proof.
  rewrite search_packages_in_repo_eq, search_body_eq.
  intros [Hindex|(repomd & w1 & (response & Hget & Hstatus & Hparse) & Hlist)].
  - destruct Hindex as [msg w1 Hget|response w1 Hget Hstatus
                       |response w1 msg Hget Hstatus Hparse]; rewrite Hget.
    + done.
    + by rewrite decide_True by done.
    + rewrite decide_False by (by intros []). by rewrite Hparse.
  - rewrite Hget. rewrite decide_False by (by intros []). rewrite Hparse.
    apply (primary_loop_failure _ search_term) in Hlist
      as [[msg [Hres|Hres]] Hworld]; cbn zeta; by rewrite Hres, Hworld.
Qed.

(** A malformed element makes the loop over the elements raise. *)
Lemma lacks_field_raises search_term package :
  lacks_field search_term package →
  ∃ e, package_entry search_term package = inl e.
Proof.
  unfold lacks_field, package_entry, is_match, element_name.
  intros [Hname|[Hmatch Hfield]].
  { rewrite Hname. by eexists. }
  destruct (find "name" package) as [e|]; [|done].
  cbn [get_text rbind].
  destruct (text e) as [n|]; [|done]. cbn [rbind]. rewrite Hmatch.
  destruct Hfield as [Harch|[Hversion|(v & Hversion & Hattr)]].
  - rewrite Harch. cbn [get_text rbind]. by eexists.
  - rewrite Hversion. destruct (find "arch" package); cbn; by eexists.
  - rewrite Hversion. unfold getitem.
    destruct (find "arch" package); cbn [get_text get_attrib rbind];
      [|by eexists].
    destruct Hattr as [Hver|Hrel].
    + rewrite Hver. by eexists.
    + rewrite Hrel. destruct (attrib v !! "ver"); by eexists.
Qed.

End Failures.

Section Continuing.
Context {W : Type} `{!Runtime W}.

(** The loop over a list of sub-repositories that is cut in two. *)
Lemma search_all_app exact search_term distro architecture config pre post
    all_packages (w : W) :
  REPO_CONFIGS !! distro = Some config →
  ∃ all1,
    result_of (search_all exact search_term distro architecture config pre
                 all_packages w) = inr all1
    ∧ let o := search_all exact search_term distro architecture config pre
                 all_packages w in
      let o' := search_all exact search_term distro architecture config post
                  all1 (world_of o) in
      search_all exact search_term distro architecture config (pre ++ post)
        all_packages w
      = (result_of o', world_of o', events_of o ++ events_of o').
Proof.
  intros Hconfig. revert all_packages w.
  induction pre as [|repo pre IH]; intros all_packages w.
  - exists all_packages. split; [done|]. cbn. apply outcome_eta.
  - destruct (repomd_url_of_ok _ architecture repo _ Hconfig)
      as [repomd_url Hurl].
    destruct (search_all_cons exact search_term _ _ _ _ pre all_packages _ w
                Hurl) as (packages & Hpackages & Hpre).
    destruct (search_all_cons exact search_term _ _ _ _ (pre ++ post)
                all_packages _ w Hurl) as (packages' & Hpackages' & Hall).
    assert (packages' = packages) as -> by congruence.
    cbn zeta in Hpre, Hall |- *.
    set (o := search_packages_in_repo repomd_url search_term
                (distro +:+ "/" +:+ repo) w) in *.
    destruct (IH (all_packages ++ tagged repo packages) (world_of o))
      as (all1 & Hall1 & Heq).
    exists all1. cbn zeta in Heq.
    rewrite <- app_comm_cons, Hall, Hpre, Heq.
    cbn [result_of world_of events_of fst snd].
    split; [exact Hall1|]. by rewrite <- !app_assoc.
Qed.

(** A run that gets to the package-list document and finds a malformed
    element there prints the error and returns the empty list. *)
Lemma search_listing_raises repomd_url search_term repo_name (w : W) root w2 e :
  package_listing repomd_url w root w2 →
  collect_packages search_term root = inl e →
  ∃ msg,
    e = Exception msg
    ∧ result_of (search_packages_in_repo repomd_url search_term repo_name w)
      = inr []
    ∧ last (stdout (events_of (search_packages_in_repo repomd_url search_term
                                 repo_name w)))
      = Some ("  Error: " +:+ msg).
Proof.
  intros (repomd & w1 & (response & Hget & Hstatus & Hparse) & Hlisting)
    Hcollect.
  apply (primary_loop_listing _ search_term) in Hlisting as [Hres Hworld].
  rewrite Hcollect in Hres. cbn [rbind] in Hres.
  pose proof (no_exit_collect search_term (findall "package" root) []) as Hc.
  fold (collect_packages search_term root) in Hc. rewrite Hcollect in Hc.
  destruct e as [msg|code]; [|by destruct (Hc code)].
  exists msg. split; [done|].
  rewrite search_packages_in_repo_eq, search_body_eq, Hget.
  rewrite decide_False by (by intros []). rewrite Hparse. cbn zeta.
  rewrite Hres. cbn [result_of world_of events_of fst snd].
  split; [done|].
  rewrite app_comm_cons, stdout_app. apply last_snoc.
Qed.

End Continuing.

(** C4, the claim as stated, fails: the request for the first package list
    of this sub-repository answers 404, and yet the sub-repository
    contributes two entries, those of the second candidate. *)
Lemma non_success_listing_fetch_still_contributes :
  requests_get (Fixture.centos "aarch64" "repodata/gone.xml.gz") 60 Fixture.web
  = (inr {| status_code := 404; content := [] |}, Fixture.web)
  ∧ network_calls
      (events_of (search_packages_in_repo
                    (Fixture.centos "aarch64" "repodata/repomd.xml") "kernel"
                    "centos7/os" Fixture.web))
    = [(Fixture.centos "aarch64" "repodata/repomd.xml", 30%Z);
       (Fixture.centos "aarch64" "repodata/gone.xml.gz", 60%Z);
       (Fixture.centos "aarch64" "repodata/primary.xml.gz", 60%Z)]
  ∧ result_of (search_packages_in_repo
                 (Fixture.centos "aarch64" "repodata/repomd.xml") "kernel"
                 "centos7/os" Fixture.web)
    = inr [Fixture.kernel; Fixture.kernel_tools].
Proof. split_and!; by vm_compute. Qed.

(** C4, as amended: a sub-repository contributes no entry when its index
    request raises or answers with another status than 200, when its index
    does not parse, when the request for a package list raises, when a
    package list fetched with status 200 does not decompress or does not
    parse, or when the requests for the package lists of all its candidates
    answer with another status than 200 (one such answer only makes the
    search go on to the next candidate).  The search then goes on with the
    remaining sub-repositories, from the accumulated sequence as it was, and
    [main] returns 0. *)
Theorem failing_sub_repository_contributes_nothing {W} `{!Runtime W}
    (args : Namespace) (search_term : string) (config : Config)
    (pre : list string) (repo : string) (rest : list string)
    (repomd_url : string) (w w1 w2 : W) (all1 : list (Package * string)) :
  determine_search_term args = Some search_term →
  search_term ≠ "" →
  REPO_CONFIGS !! arg_distro args = Some config →
  repos_to_search_of args config = pre ++ repo :: rest →
  repomd_url_of (arg_distro args) (arg_architecture args) repo config
  = inr repomd_url →
  result_of (search_all (arg_exact args) search_term (arg_distro args)
               (arg_architecture args) config pre [] w) = inr all1 →
  world_of (search_all (arg_exact args) search_term (arg_distro args)
              (arg_architecture args) config pre [] w) = w1 →
  sub_repository_failure repomd_url w1 w2 →
  result_of (search_packages_in_repo repomd_url search_term
               (arg_distro args +:+ "/" +:+ repo) w1) = inr []
  ∧ result_of (search_all (arg_exact args) search_term (arg_distro args)
                 (arg_architecture args) config (pre ++ repo :: rest) [] w)
    = result_of (search_all (arg_exact args) search_term (arg_distro args)
                   (arg_architecture args) config rest all1 w2)
  ∧ (∃ t, events_of (search_all (arg_exact args) search_term (arg_distro args)
                       (arg_architecture args) config (pre ++ repo :: rest)
                       [] w)
          = t ++ events_of (search_all (arg_exact args) search_term
                              (arg_distro args) (arg_architecture args) config
                              rest all1 w2))
  ∧ result_of (main_body args w) = inr 0%Z.
Proof.
  intros Hread Hterm Hconfig Hrepos Hurl Hpre Hw1 Hfail.
  destruct (search_failure _ search_term (arg_distro args +:+ "/" +:+ repo)
              _ _ Hfail) as [Hnone Hw2].
  destruct (search_all_app (arg_exact args) search_term _ (arg_architecture args)
              _ pre (repo :: rest) [] w Hconfig) as (all1' & Hpre' & Happ).
  assert (all1' = all1) as -> by congruence.
  cbn zeta in Happ. rewrite Hw1 in Happ.
  destruct (search_all_cons (arg_exact args) search_term _ _ _ _ rest all1 _ w1
              Hurl) as (packages & Hpackages & Hcons).
  assert (packages = []) as -> by congruence.
  cbn zeta in Hcons. rewrite Hw2 in Hcons. unfold tagged in Hcons.
  cbn [map] in Hcons. rewrite app_nil_r in Hcons.
  split; [exact Hnone|]. rewrite Happ, Hcons.
  cbn [result_of world_of events_of fst snd]. split; [done|]. split.
  - exists (events_of (search_all (arg_exact args) search_term (arg_distro args)
                         (arg_architecture args) config pre [] w)
            ++ events_of (search_packages_in_repo repomd_url search_term
                            (arg_distro args +:+ "/" +:+ repo) w1)
            ++ map Stdout (report_lines (arg_exact args) search_term [])
            ++ [Stdout ""]).
    by rewrite <- !app_assoc.
  - unfold main_body. rewrite Hread.
    by destruct (main_from_supported args search_term config w Hterm Hconfig)
      as (all_packages & _ & ->).
Qed.

(** On the example: the index of [AppStream] answers 404; the search goes
    on with [CRB] and [devel], and [main] returns 0. *)
Lemma failing_sub_repository_contributes_nothing_witness :
  sub_repository_failure
    "https://vault.almalinux.org/9.4/AppStream/x86_64/os/repodata/repomd.xml"
    Fixture.web Fixture.web
  ∧ result_of (search_packages_in_repo
                 "https://vault.almalinux.org/9.4/AppStream/x86_64/os/repodata/repomd.xml"
                 "kernel" "alma9/AppStream" Fixture.web) = inr []
  ∧ result_of (search_all false "kernel" "alma9" "x86_64" Fixture.alma9_config
                 (["BaseOS"] ++ "AppStream" :: ["CRB"; "devel"]) [] Fixture.web)
    = result_of (search_all false "kernel" "alma9" "x86_64" Fixture.alma9_config
                   ["CRB"; "devel"] [] Fixture.web)
  ∧ result_of (main_body Fixture.alma9_namespace Fixture.web) = inr 0%Z.
Proof.
  assert (sub_repository_failure
            "https://vault.almalinux.org/9.4/AppStream/x86_64/os/repodata/repomd.xml"
            Fixture.web Fixture.web) as Hfail.
  { left. by apply (index_fetch_status _ _ {| status_code := 404; content := [] |}). }
  assert ("kernel" ≠ "") as Hterm by done.
  assert (repomd_url_of "alma9" "x86_64" "AppStream" Fixture.alma9_config
          = inr "https://vault.almalinux.org/9.4/AppStream/x86_64/os/repodata/repomd.xml")
    as Hurl by (vm_compute; reflexivity).
  assert (result_of (search_all false "kernel" "alma9" "x86_64"
                       Fixture.alma9_config ["BaseOS"] [] Fixture.web)
          = inr []) as Hpre by (vm_compute; reflexivity).
  assert (world_of (search_all false "kernel" "alma9" "x86_64"
                      Fixture.alma9_config ["BaseOS"] [] Fixture.web)
          = Fixture.web) as Hworld by (vm_compute; reflexivity).
  destruct (failing_sub_repository_contributes_nothing Fixture.alma9_namespace
              "kernel" Fixture.alma9_config ["BaseOS"] "AppStream"
              ["CRB"; "devel"] _ Fixture.web Fixture.web Fixture.web []
              eq_refl Hterm eq_refl eq_refl Hurl Hpre Hworld Hfail)
    as (Hnone & Hrest & _ & Hexit).
  split; [exact Hfail|]. split; [exact Hnone|]. split; [exact Hrest|].
  exact Hexit.
Defined.

(** ** Malformed entries *)

Lemma fixture_listing_broken :
  package_listing (Fixture.centos "ppc64le" "repodata/repomd.xml") Fixture.web
    Fixture.listing_broken_tree Fixture.web.
Proof.
  exists Fixture.index_one_tree, Fixture.web. split.
  - exists {| status_code := 200; content := Fixture.index_one |}.
    split_and!; by vm_compute.
  - eapply (listing_here _ _ _ _ "repodata/primary.xml.gz"
              (Fixture.centos "ppc64le" "repodata/primary.xml.gz")
              {| status_code := 200;
                 content := B "gzip:" ++ Fixture.listing_broken |}
              _ Fixture.listing_broken);
      by vm_compute.
Qed.

(** C9: when the package-list document of a sub-repository has a
    [package] element that matches the filter and lacks the [arch] element,
    the [version] element or the attribute [ver] or [rel] of it, or one that
    has no [name] element, the search of the sub-repository returns no entry
    at all: the exception is caught around the whole search, which prints it
    and returns the empty list, and the entries collected from the elements
    before the malformed one are lost with it. *)
Theorem malformed_entry_discards_sub_repository {W} `{!Runtime W}
    (repomd_url search_term repo_name : string) (w w2 : W) (root : Element)
    (package : Element) :
  package_listing repomd_url w root w2 →
  package ∈ findall "package" root →
  lacks_field search_term package →
  result_of (search_packages_in_repo repomd_url search_term repo_name w) = inr []
  ∧ (∃ msg, collect_packages search_term root = inl (Exception msg)
            ∧ last (stdout (events_of (search_packages_in_repo repomd_url
                                         search_term repo_name w)))
              = Some ("  Error: " +:+ msg)).
Proof.
  intros Hlisting Hpackage Hlacks.
  destruct (lacks_field_raises _ _ Hlacks) as [e He].
  destruct (collect_raises search_term _ [] _ _ Hpackage He) as [e' Hraise].
  fold (collect_packages search_term root) in Hraise.
  destruct (search_listing_raises _ _ repo_name _ _ _ _ Hlisting Hraise)
    as (msg & -> & Hnone & Hlast).
  split; [exact Hnone|]. by exists msg.
Qed.

(** On the example: the first element yields the entry [kernel], the
    second one matches and has no [arch] element, and the search returns the
    empty list. *)
Lemma malformed_entry_discards_sub_repository_witness :
  let broken :=
    Fixture.element "package" [("type", "rpm")] None [
      Fixture.element "name" [] (Some "kernel-core") [];
      Fixture.element "version"
        [("epoch", "0"); ("ver", "5.14.0"); ("rel", "427.el9")] None []
    ] in
  findall "package" Fixture.listing_broken_tree
  = [Fixture.package "kernel" "x86_64" "5.14.0" "427.el9"; broken]
  ∧ package_entry "kernel" (Fixture.package "kernel" "x86_64" "5.14.0" "427.el9")
    = inr (Some Fixture.kernel)
  ∧ lacks_field "kernel" broken
  ∧ result_of (search_packages_in_repo
                 (Fixture.centos "ppc64le" "repodata/repomd.xml") "kernel"
                 "centos7/os" Fixture.web) = inr [].
Proof.
  intros broken.
  assert (findall "package" Fixture.listing_broken_tree
          = [Fixture.package "kernel" "x86_64" "5.14.0" "427.el9"; broken])
    as Hall by (vm_compute; reflexivity).
  assert (broken ∈ findall "package" Fixture.listing_broken_tree) as Hin.
  { rewrite Hall. apply list_elem_of_further, list_elem_of_here. }
  assert (lacks_field "kernel" broken) as Hlacks.
  { right. split; [by vm_compute|]. left. by vm_compute. }
  destruct (malformed_entry_discards_sub_repository _ "kernel" "centos7/os" _ _
              _ _ fixture_listing_broken Hin Hlacks) as [Hnone _].
  split; [exact Hall|]. split; [by vm_compute|]. split; [exact Hlacks|].
  exact Hnone.
Defined.

(** ** The accumulated sequence *)

Section Order.
Context {W : Type} `{!Runtime W}.

Lemma sub_repository_results_names search_term distro architecture config
    repos (w : W) :
  REPO_CONFIGS !! distro = Some config →
  map fst (sub_repository_results search_term distro architecture config
             repos w) = repos.
Proof.
  intros Hconfig. revert w. induction repos as [|repo rest IH]; intros w.
  - done.
  - cbn [sub_repository_results].
    destruct (repomd_url_of_ok _ architecture repo _ Hconfig) as [url ->].
    cbn [map fst]. by rewrite IH.
Qed.

Lemma sub_repository_results_entries search_term distro architecture config
    repos (w : W) :
  Forall (λ r, r.2 = []
               ∨ ∃ repomd_url w1 root w2,
                   package_listing repomd_url w1 root w2
                   ∧ entries_of search_term root r.2)
    (sub_repository_results search_term distro architecture config repos w).
Proof.
  revert w. induction repos as [|repo rest IH]; intros w.
  - constructor.
  - cbn [sub_repository_results].
    destruct (repomd_url_of distro architecture repo config) as [e|url];
      [constructor|].
    cbn zeta. constructor; [|apply IH]. cbn [snd].
    destruct (result_of (search_packages_in_repo url search_term
                           (distro +:+ "/" +:+ repo) w))
      as [e|packages] eqn:Hsearch; [by left|].
    apply search_result in Hsearch as [->|(root & w2 & Hlisting & Hcollect)];
      [by left|].
    right. exists url, w, root, w2. split; [done|].
    by apply collect_entries.
Qed.

(** Two entries of two sub-repositories are both in the concatenation,
    in the order of the sub-repositories. *)
Lemma concat_tagged_sublist (results : list (string * list Package))
    i j ri rj pkg pkg' :
  i < j → results !! i = Some ri → results !! j = Some rj →
  pkg ∈ ri.2 → pkg' ∈ rj.2 →
  [(pkg, ri.1); (pkg', rj.1)]
    `sublist_of` concat (map (λ r, tagged r.1 r.2) results).
Proof.
  intros Hij Hi Hj Hpkg Hpkg'.
  rewrite <- (take_drop_middle _ _ _ Hi).
  assert (drop (S i) results !! (j - S i) = Some rj) as Hj'.
  { rewrite lookup_drop. by replace (S i + (j - S i)) with j by lia. }
  rewrite <- (take_drop_middle _ _ _ Hj').
  rewrite map_app, concat_app. cbn [map concat].
  rewrite map_app, concat_app. cbn [map concat].
  apply sublist_inserts_l.
  apply (sublist_app [(pkg, ri.1)] _ [(pkg', rj.1)]).
  - apply list_elem_of_split in Hpkg as (l1 & l2 & ->).
    unfold tagged. rewrite map_app. cbn [map].
    apply sublist_inserts_l, sublist_skip, sublist_nil_l.
  - apply sublist_inserts_l, sublist_inserts_r.
    apply list_elem_of_split in Hpkg' as (l1 & l2 & ->).
    unfold tagged. rewrite map_app. cbn [map].
    apply sublist_inserts_l, sublist_skip, sublist_nil_l.
Qed.

End Order.

(** C7: the accumulated sequence is the concatenation, in the order in
    which the sub-repositories are searched, of the entries of each
    sub-repository paired with its name; the entries of one sub-repository
    are those of the matching elements of its package-list document, in
    document order; nothing is removed: the sequence is as long as the lists
    together, and an entry found in two sub-repositories is in it twice,
    once for each. *)
Theorem search_result_order {W} `{!Runtime W}
    (exact : bool) (search_term distro architecture : string) (config : Config)
    (repos_to_search : list string) (w : W) :
  REPO_CONFIGS !! distro = Some config →
  ∃ (results : list (string * list Package))
    (all_packages : list (Package * string)),
    results = sub_repository_results search_term distro architecture config
                repos_to_search w
    ∧ result_of (search_all exact search_term distro architecture config
                   repos_to_search [] w) = inr all_packages
    ∧ all_packages
      = concat (map (λ r, map (λ pkg, (pkg, r.1)) r.2) results)
    ∧ map fst results = repos_to_search
    ∧ Forall (λ r, r.2 = []
                   ∨ ∃ repomd_url w1 root w2,
                       package_listing repomd_url w1 root w2
                       ∧ Forall2 (λ package pkg,
                                    package_entry search_term package
                                    = inr (Some pkg))
                           (filter (λ package, is_match search_term package)
                              (findall "package" root))
                           r.2)
        results
    ∧ length all_packages = sum_list (map (λ r, length r.2) results)
    ∧ ∀ i j ri rj pkg,
        i < j → results !! i = Some ri → results !! j = Some rj →
        pkg ∈ ri.2 → pkg ∈ rj.2 →
        [(pkg, ri.1); (pkg, rj.1)] `sublist_of` all_packages.
Proof.
  intros Hconfig.
  eexists _, _. split; [reflexivity|]. split.
  { rewrite (search_all_result _ _ _ _ _ _ _ _ Hconfig). reflexivity. }
  split; [done|]. split; [by apply sub_repository_results_names|].
  split; [apply sub_repository_results_entries|]. split.
  - cbn [app].
    generalize (sub_repository_results search_term distro architecture config
                  repos_to_search w).
    intros results. induction results as [|r results IH]; [done|].
    cbn [map concat sum_list sum_list_with].
    rewrite length_app, IH. unfold tagged. by rewrite length_map.
  - intros i j ri rj pkg. apply concat_tagged_sublist.
Qed.

(** On the example: [kernel] is in [BaseOS] and in [AppStream], and twice
    in the accumulated sequence. *)
Lemma search_result_order_witness :
  REPO_CONFIGS !! "alma8" = Some Fixture.alma8_config
  ∧ sub_repository_results "kernel" "alma8" "x86_64" Fixture.alma8_config
      ["BaseOS"; "AppStream"; "PowerTools"] Fixture.web
    = [("BaseOS", [Fixture.kernel; Fixture.kernel_tools]);
       ("AppStream", [Fixture.kernel; Fixture.kernel_tools]);
       ("PowerTools", [])]
  ∧ result_of (search_all false "kernel" "alma8" "x86_64" Fixture.alma8_config
                 ["BaseOS"; "AppStream"; "PowerTools"] [] Fixture.web)
    = inr [(Fixture.kernel, "BaseOS"); (Fixture.kernel_tools, "BaseOS");
           (Fixture.kernel, "AppStream"); (Fixture.kernel_tools, "AppStream")]
  ∧ [(Fixture.kernel, "BaseOS"); (Fixture.kernel, "AppStream")]
      `sublist_of` [(Fixture.kernel, "BaseOS"); (Fixture.kernel_tools, "BaseOS");
                    (Fixture.kernel, "AppStream");
                    (Fixture.kernel_tools, "AppStream")].
Proof.
  assert (REPO_CONFIGS !! "alma8" = Some Fixture.alma8_config) as Hconfig
    by reflexivity.
  assert (sub_repository_results "kernel" "alma8" "x86_64" Fixture.alma8_config
            ["BaseOS"; "AppStream"; "PowerTools"] Fixture.web
          = [("BaseOS", [Fixture.kernel; Fixture.kernel_tools]);
             ("AppStream", [Fixture.kernel; Fixture.kernel_tools]);
             ("PowerTools", [])]) as Hresults by (vm_compute; reflexivity).
  destruct (search_result_order false "kernel" "alma8" "x86_64"
              Fixture.alma8_config ["BaseOS"; "AppStream"; "PowerTools"]
              Fixture.web Hconfig)
    as (results & all_packages & -> & Hall & -> & _ & _ & _ & Htwice).
  rewrite Hresults in Hall, Htwice.
  split; [exact Hconfig|]. split; [exact Hresults|]. split; [exact Hall|].
  apply (Htwice 0 1 ("BaseOS", [Fixture.kernel; Fixture.kernel_tools])
           ("AppStream", [Fixture.kernel; Fixture.kernel_tools]) Fixture.kernel);
    [lia|done|done|apply list_elem_of_here..].
Defined.

(** ** The sub-repository of centos7 *)

Section Label.
Context {W : Type} `{!Runtime W}.

(** The name of the sub-repository is only in the first line that the
    search prints. *)
Lemma search_header repomd_url search_term (w : W) :
  ∃ packages w1 t,
    ∀ repo_name,
      search_packages_in_repo repomd_url search_term repo_name w
      = (inr packages, w1,
         Stdout ("Searching in " +:+ repo_name +:+ ": " +:+ repomd_url) :: t).
Proof.
  pose proof (no_exit_search_body repomd_url search_term w) as Hbody.
  destruct (result_of (search_body repomd_url search_term w))
    as [[msg|code]|packages] eqn:Hres.
  - exists [], (world_of (search_body repomd_url search_term w)),
      (events_of (search_body repomd_url search_term w)
       ++ [Stdout ("  Error: " +:+ msg)]).
    intros repo_name. rewrite search_packages_in_repo_eq. cbn zeta.
    by rewrite Hres.
  - by destruct (Hbody code).
  - exists packages, (world_of (search_body repomd_url search_term w)),
      (events_of (search_body repomd_url search_term w)).
    intros repo_name. rewrite search_packages_in_repo_eq. cbn zeta.
    by rewrite Hres.
Qed.

Lemma filter_tagged search_term repo (packages : list Package) :
  filter (λ pr, name pr.1 = search_term) (tagged repo packages)
  = tagged repo (filter (λ pkg, name pkg = search_term) packages).
Proof.
  induction packages as [|pkg rest IH]; [done|].
  unfold tagged in *. cbn [map].
  destruct (decide (name pkg = search_term)) as [Hname|Hname].
  - rewrite !filter_cons_True by done. cbn [map]. by rewrite IH.
  - by rewrite !filter_cons_False by done.
Qed.

End Label.

(** C10: for centos7 the index URL is built from the architecture alone.
    Two runs that differ only in [--repo] fetch the same URLs, leave the
    same world, return the same status and find the same entries; what
    differs is the name of the sub-repository, in the first line printed, in
    the pairs accumulated and in the lines after the banner. *)
Theorem centos7_index_url_ignores_repo {W} `{!Runtime W}
    (search_term architecture : string) (exact : bool) (w : W) :
  search_term ≠ "" →
  ∃ (repomd_url : string) (packages : list Package)
    (requests : list (string * Z)) (body : list string) (w1 : W),
    repomd_url = "https://vault.centos.org/7.9.2009/os/" +:+ architecture
                 +:+ "/repodata/repomd.xml"
    ∧ ∀ (repo : option string) (config : Config),
        let args := {| arg_search_term := Some search_term;
                       arg_distro := "centos7";
                       arg_architecture := architecture;
                       arg_repo := repo;
                       arg_exact := exact |} in
        let label := if truthy repo then default "" repo else "os" in
        REPO_CONFIGS !! "centos7" = Some config →
        repomd_url_of "centos7" architecture label config = inr repomd_url
        ∧ result_of (main_body args w) = inr 0%Z
        ∧ world_of (main_body args w) = w1
        ∧ network_calls (events_of (main_body args w))
          = (repomd_url, 30%Z) :: requests
        ∧ result_of (search_all exact search_term "centos7" architecture config
                       (repos_to_search_of args config) [] w)
          = inr (map (λ pkg, (pkg, label)) packages)
        ∧ stdout (events_of (main_body args w))
          = ("Searching in centos7/" +:+ label +:+ ": " +:+ repomd_url)
            :: body
            ++ [str_repeat "=" 60;
                "SUMMARY: " +:+ pretty (length packages)
                  +:+ " packages found containing '" +:+ search_term +:+ "'";
                str_repeat "=" 60]
            ++ map (λ pkg, full_name pkg +:+ " (from " +:+ label +:+ ")")
                 (if exact
                  then filter (λ pkg, name pkg = search_term) packages
                  else packages).
Proof.
  intros Hterm.
  set (repomd_url := "https://vault.centos.org/7.9.2009/os/" +:+ architecture
                     +:+ "/repodata/repomd.xml").
  destruct (search_header repomd_url search_term w)
    as (packages & w1 & t & Hsearch).
  assert (∃ requests, network_calls t = (repomd_url, 30%Z) :: requests)
    as [requests Hrequests].
  { specialize (Hsearch ""). rewrite search_packages_in_repo_eq in Hsearch.
    rewrite search_body_eq in Hsearch. cbn zeta in Hsearch.
    destruct (requests_get repomd_url 30 w) as [[msg|response] w'];
      [injection Hsearch as _ _ <-; by eexists|].
    destruct (decide _); [injection Hsearch as _ _ <-; by eexists|].
    destruct (ET_fromstring _) as [msg|repomd];
      [injection Hsearch as _ _ <-; by eexists|].
    destruct (result_of (primary_loop _ _ _ _)) as [[msg|code]|[pkgs|]];
      injection Hsearch as _ _ <-; by eexists. }
  exists repomd_url, packages, requests,
    (stdout t ++ report_lines exact search_term packages ++ [""]), w1.
  split; [done|]. intros repo config args label Hconfig.
  pose proof (repomd_url_of_centos7 architecture label _ Hconfig) as Hurl.
  fold repomd_url in Hurl.
  assert (repos_to_search_of args config = [label]) as Hrepos.
  { unfold repos_to_search_of, label, args. cbn [arg_repo].
    destruct (truthy repo); [done|].
    by apply REPO_CONFIGS_lookup in Hconfig
      as [(_ & _ & ->)|[([=] & _)|([=] & _)]]. }
  destruct (search_all_cons exact search_term "centos7" architecture config
              label [] [] repomd_url w Hurl) as (packages' & Hpackages & Hloop).
  cbn zeta in Hloop. rewrite (Hsearch ("centos7" +:+ "/" +:+ label)) in Hloop.
  rewrite Hsearch in Hpackages. injection Hpackages as <-.
  rewrite search_all_nil in Hloop.
  cbn [result_of world_of events_of fst snd app] in Hloop.
  destruct (main_from_supported args search_term config w Hterm Hconfig)
    as (all_packages & Hall & Hmain).
  rewrite Hrepos in Hall, Hmain. subst args.
  cbn [arg_exact arg_distro arg_architecture] in Hall, Hmain.
  rewrite Hloop in Hall, Hmain.
  cbn [result_of world_of events_of fst snd] in Hall, Hmain.
  injection Hall as <-.
  unfold main_body, determine_search_term, py_or. cbn [arg_search_term].
  assert (truthy (Some search_term) = true) as -> by by destruct search_term.
  rewrite Hmain. cbn [result_of world_of events_of fst snd].
  split; [exact Hurl|]. split; [done|]. split; [done|]. split.
  { rewrite !network_calls_app, network_calls_cons_Stdout, !network_calls_app.
    rewrite network_calls_cons_Stdout, !network_calls_printed, Hrequests.
    by rewrite !app_nil_r. }
  split; [by rewrite Hrepos, Hloop|].
  rewrite !stdout_app, stdout_cons_Stdout, !stdout_app, stdout_cons_Stdout.
  rewrite !stdout_printed. cbn [app]. f_equal. rewrite <- !app_assoc. do 2 f_equal. cbn [app stdout omap list_omap].
  f_equal. unfold banner, tagged. rewrite length_map. cbn [app]. do 3 f_equal.
  destruct exact.
  - fold (tagged label packages). rewrite filter_tagged. unfold tagged.
    by rewrite map_map.
  - by rewrite map_map.
Qed.

(** On the example: with [--repo extras] and without [--repo] the same
    requests are made; the first line printed names the sub-repository. *)
Lemma centos7_index_url_ignores_repo_witness :
  "kernel" ≠ ""
  ∧ network_calls
      (events_of (main_body (Fixture.centos7_namespace (Some "extras"))
                    Fixture.web))
    = network_calls
        (events_of (main_body (Fixture.centos7_namespace None) Fixture.web))
  ∧ head (stdout (events_of (main_body (Fixture.centos7_namespace (Some "extras"))
                               Fixture.web)))
    = Some "Searching in centos7/extras: https://vault.centos.org/7.9.2009/os/x86_64/repodata/repomd.xml"
  ∧ head (stdout (events_of (main_body (Fixture.centos7_namespace None)
                               Fixture.web)))
    = Some "Searching in centos7/os: https://vault.centos.org/7.9.2009/os/x86_64/repodata/repomd.xml".
Proof.
  assert ("kernel" ≠ "") as Hterm by done.
  destruct (centos7_index_url_ignores_repo "kernel" "x86_64" false Fixture.web
              Hterm)
    as (repomd_url & packages & requests & body & w1 & -> & Hruns).
  destruct (Hruns (Some "extras") Fixture.centos7_config eq_refl)
    as (_ & _ & _ & Hcalls1 & _ & Hout1).
  destruct (Hruns None Fixture.centos7_config eq_refl)
    as (_ & _ & _ & Hcalls2 & _ & Hout2).
  split; [exact Hterm|]. split.
  - exact (eq_trans Hcalls1 (eq_sym Hcalls2)).
  - split.
    + exact (f_equal head Hout1).
    + exact (f_equal head Hout2).
Defined.

(** ** The URL of the package list *)

Lemma str_length_app (s1 s2 : string) :
  String.length (s1 +:+ s2) = String.length s1 + String.length s2.
Proof.
  induction s1 as [|c s1 IH]; [done|].
  change (S (String.length (s1 +:+ s2)) = S (String.length s1 + String.length s2)).
  by rewrite IH.
Qed.

Lemma str_app_nil_r (s : string) : s +:+ "" = s.
Proof.
  induction s as [|c s IH]; [done|].
  change (String c (s +:+ "") = String c s). by rewrite IH.
Qed.

Lemma prefix_refl (s : string) : String.prefix s s = true.
Proof.
  induction s as [|c s IH]; [done|]. cbn.
  by destruct (ascii_dec c c).
Qed.

Lemma replace_from_skip_all (old new s : string) :
  replace_from old new (String.length s) s = "".
Proof. induction s as [|c s IH]; [done|]. exact IH. Qed.

(** When the segment occurs in the URL only at its end, [str.replace]
    replaces that occurrence alone. *)
Lemma replace_from_only_trailing (old new dir : string) :
  old ≠ "" →
  (∀ a b, dir +:+ old = a +:+ b → String.prefix old b = true → b = old) →
  replace_from old new 0 (dir +:+ old) = dir +:+ new.
Proof.
  intros Hold. induction dir as [|c dir IH]; intros Honly.
  - destruct old as [|c rest]; [done|].
    change ("" +:+ String c rest) with (String c rest).
    cbn [replace_from]. rewrite prefix_refl.
    change (Nat.pred (String.length (String c rest))) with (String.length rest).
    by rewrite replace_from_skip_all, str_app_nil_r.
  - change (String c dir +:+ old) with (String c (dir +:+ old)).
    cbn [replace_from].
    destruct (String.prefix old (String c (dir +:+ old))) eqn:Hprefix.
    + exfalso.
      pose proof (Honly "" (String c dir +:+ old) eq_refl Hprefix) as Heq.
      apply (f_equal String.length) in Heq.
      rewrite str_length_app in Heq. cbn in Heq. lia.
    + change (String c dir +:+ new) with (String c (dir +:+ new)). f_equal.
      apply IH. intros a b Hsplit. apply (Honly (String c a)).
      change (String c a +:+ b) with (String c (a +:+ b)). by rewrite <- Hsplit.
Qed.

Lemma remove_trailing_app (suffix dir : string) :
  remove_trailing suffix (dir +:+ suffix) = dir.
Proof.
  induction dir as [|c dir IH].
  - change ("" +:+ suffix) with suffix.
    destruct suffix as [|c rest]; [done|]. cbn [remove_trailing].
    by rewrite String.eqb_refl.
  - change (String c dir +:+ suffix) with (String c (dir +:+ suffix)).
    cbn [remove_trailing].
    destruct (String.eqb (String c (dir +:+ suffix)) suffix) eqn:Heq.
    + apply String.eqb_eq in Heq. apply (f_equal String.length) in Heq.
      cbn in Heq. rewrite str_length_app in Heq. lia.
    + by rewrite IH.
Qed.

(** Then the code computes the URL that the specification words. *)
Lemma primary_url_of_only_trailing {W} `{!Runtime W} (dir location : string) :
  (∀ a b, dir +:+ "/repodata/repomd.xml" = a +:+ b →
          String.prefix "/repodata/repomd.xml" b = true →
          b = "/repodata/repomd.xml") →
  str_replace (dir +:+ "/repodata/repomd.xml") "/repodata/repomd.xml" "/"
  = dir +:+ "/"
  ∧ index_directory (dir +:+ "/repodata/repomd.xml") = dir +:+ "/"
  ∧ primary_url_of (dir +:+ "/repodata/repomd.xml") location
    = expected_primary_url (dir +:+ "/repodata/repomd.xml") location.
Proof.
  intros Honly.
  assert (str_replace (dir +:+ "/repodata/repomd.xml") "/repodata/repomd.xml" "/"
          = dir +:+ "/") as Hreplace
    by by apply (replace_from_only_trailing "/repodata/repomd.xml" "/").
  assert (index_directory (dir +:+ "/repodata/repomd.xml") = dir +:+ "/")
    as Hdir.
  { unfold index_directory.
    change "/repodata/repomd.xml" with ("/" +:+ "repodata/repomd.xml").
    rewrite <- str_app_assoc. apply remove_trailing_app. }
  split; [exact Hreplace|]. split; [exact Hdir|].
  unfold primary_url_of, expected_primary_url. by rewrite Hreplace, Hdir.
Qed.

(** C6 fails on the code for an index URL in which the segment occurs
    before the end.  With [--distro centos7 --architecture
    x/repodata/repomd.xml], [str.replace] removes both occurrences; the
    package list is then looked for beside the first [repodata/], not in the
    directory of the index. *)
Lemma primary_url_replaces_every_occurrence :
  repomd_url_of "centos7" "x/repodata/repomd.xml" "os" Fixture.centos7_config
  = inr "https://vault.centos.org/7.9.2009/os/x/repodata/repomd.xml/repodata/repomd.xml"
  ∧ str_replace
      "https://vault.centos.org/7.9.2009/os/x/repodata/repomd.xml/repodata/repomd.xml"
      "/repodata/repomd.xml" "/"
    = "https://vault.centos.org/7.9.2009/os/x//"
  ∧ index_directory
      "https://vault.centos.org/7.9.2009/os/x/repodata/repomd.xml/repodata/repomd.xml"
    = "https://vault.centos.org/7.9.2009/os/x/repodata/repomd.xml/"
  ∧ primary_url_of (W := Fixture.Web)
      "https://vault.centos.org/7.9.2009/os/x/repodata/repomd.xml/repodata/repomd.xml"
      "repodata/primary.xml.gz"
    = inr "https://vault.centos.org/7.9.2009/os/x/repodata/primary.xml.gz"
  ∧ expected_primary_url (W := Fixture.Web)
      "https://vault.centos.org/7.9.2009/os/x/repodata/repomd.xml/repodata/repomd.xml"
      "repodata/primary.xml.gz"
    = inr "https://vault.centos.org/7.9.2009/os/x/repodata/repomd.xml/repodata/primary.xml.gz"
  ∧ network_calls
      (events_of (main (Fixture.command "kernel" "x/repodata/repomd.xml" false)
                    Fixture.web))
    = [("https://vault.centos.org/7.9.2009/os/x/repodata/repomd.xml/repodata/repomd.xml",
        30%Z);
       ("https://vault.centos.org/7.9.2009/os/x/repodata/primary.xml.gz", 60%Z)].
Proof. split_and!; by vm_compute. Qed.

(** * Further properties of the code *)

(** ** The requests of one search *)

Section Requests.
Context {W : Type} `{!Runtime W}.

Lemma network_calls_fetching primary_url :
  network_calls (fetching primary_url) = [(primary_url, 60%Z)].
Proof. reflexivity. Qed.

Lemma stdout_fetching primary_url :
  stdout (fetching primary_url) = ["  Fetching package data..."].
Proof. reflexivity. Qed.

Lemma network_calls_cons_HttpGet url timeout t :
  network_calls (HttpGet url timeout :: t) = (url, timeout) :: network_calls t.
Proof. reflexivity. Qed.

Lemma stdout_cons_HttpGet url timeout t :
  stdout (HttpGet url timeout :: t) = stdout t.
Proof. reflexivity. Qed.

(** The loop over the candidates makes one request for each candidate it
    comes to, all with the time-out 60. *)
Lemma primary_loop_requests repomd_url search_term candidates (w : W) :
  Forall (λ c, c.2 = 60%Z)
    (network_calls (events_of (primary_loop repomd_url search_term candidates w)))
  ∧ length (network_calls
              (events_of (primary_loop repomd_url search_term candidates w)))
    ≤ length candidates.
Proof.
  revert w. induction candidates as [|child rest IH]; intros w.
  - split; [constructor|done].
  - rewrite primary_loop_cons.
    destruct (location_of child) as [e|location];
      [split; [constructor|cbn; lia]|].
    destruct (primary_url_of repomd_url location) as [e|primary_url];
      [split; [constructor|cbn; lia]|].
    assert (Forall (λ c : string * Z, c.2 = 60%Z) [(primary_url, 60%Z)]) as Hone
      by (by constructor).
    destruct (requests_get primary_url 60 w) as [[msg|response] w1];
      [split; [exact Hone|cbn; lia]|].
    destruct (decide _).
    { cbn [events_of snd]. rewrite network_calls_app, network_calls_fetching.
      destruct (IH w1) as [Hall Hlen]. split.
      - by constructor.
      - cbn [app length]. lia. }
    destruct (gzip_decompress _) as [msg|data];
      [split; [exact Hone|cbn; lia]|].
    destruct (ET_fromstring _) as [msg|root];
      [split; [exact Hone|cbn; lia]|].
    destruct (collect_packages search_term root);
      split; first [exact Hone|cbn; lia].
Qed.

(** The requests of a search: the index, and then those of the loop over
    the candidates if the index is fetched and parsed. *)
Lemma search_requests repomd_url search_term repo_name (w : W) :
  network_calls (events_of (search_packages_in_repo repomd_url search_term
                              repo_name w))
  = (repomd_url, 30%Z)
    :: match requests_get repomd_url 30 w with
       | (inr response, w1) =>
           if decide (status_code response ≠ 200%Z) then []
           else match ET_fromstring (strip_xmlns (content response)) with
                | inr repomd =>
                    network_calls
                      (events_of (primary_loop repomd_url search_term
                                    (findall_primary repomd) w1))
                | inl _ => []
                end
       | (inl _, _) => []
       end.
Proof.
  rewrite search_packages_in_repo_eq, search_body_eq.
  destruct (requests_get repomd_url 30 w) as [[msg|response] w1]; [done|].
  destruct (decide _); [done|].
  destruct (ET_fromstring _) as [msg|repomd]; [done|]. cbn zeta.
  destruct (result_of (primary_loop _ _ _ _)) as [[msg|code]|[pkgs|]];
    cbn [result_of world_of events_of fst snd];
    repeat first [rewrite network_calls_cons_Stdout
                 |rewrite network_calls_app
                 |rewrite network_calls_cons_HttpGet];
    change (network_calls []) with (@nil (string * Z));
    by rewrite ?app_nil_r.
Qed.

End Requests.

(** X1: the search of a sub-repository never raises: whatever the network
    and the libraries do, it returns a list, and the first line it prints
    names the sub-repository and the index URL. *)
Theorem search_always_returns_a_list {W} `{!Runtime W}
    (repomd_url search_term repo_name : string) (w : W) :
  (∃ packages,
     result_of (search_packages_in_repo repomd_url search_term repo_name w)
     = inr packages)
  ∧ head (stdout (events_of (search_packages_in_repo repomd_url search_term
                               repo_name w)))
    = Some ("Searching in " +:+ repo_name +:+ ": " +:+ repomd_url).
Proof.
  split; [apply search_returns|].
  destruct (search_header repomd_url search_term w) as (packages & w1 & t & Heq).
  by rewrite Heq.
Qed.

(** X2: a search requests the index first, with the time-out 30, and
    nothing else with that time-out; every other request has the time-out
    60; when the index cannot be had no other request is made, and otherwise
    there is at most one request for each entry of type [primary]. *)
Theorem search_request_discipline {W} `{!Runtime W}
    (repomd_url search_term repo_name : string) (w : W) :
  ∃ others,
    network_calls (events_of (search_packages_in_repo repomd_url search_term
                                repo_name w))
    = (repomd_url, 30%Z) :: others
    ∧ Forall (λ c, c.2 = 60%Z) others
    ∧ (∀ w1, index_failure repomd_url w w1 → others = [])
    ∧ (∀ repomd w1, index_document repomd_url w repomd w1 →
                    length others ≤ length (findall_primary repomd)).
Proof.
  eexists. split; [apply search_requests|].
  destruct (requests_get repomd_url 30 w) as [[msg|response] w1] eqn:Hget.
  { split; [constructor|]. split; [done|].
    intros repomd w2 (response & Hget' & _). congruence. }
  destruct (decide _) as [Hstatus|Hstatus].
  { split; [constructor|]. split; [done|].
    intros repomd w2 (response' & Hget' & Hok & _).
    assert (response' = response) as -> by congruence. done. }
  destruct (ET_fromstring _) as [msg|repomd] eqn:Hparse.
  { split; [constructor|]. split; [done|].
    intros repomd w2 (response' & Hget' & _ & Hparse').
    assert (response' = response) as -> by congruence. congruence. }
  destruct (primary_loop_requests repomd_url search_term
              (findall_primary repomd) w1) as [Hall Hlen].
  split; [exact Hall|]. split.
  - intros w2 [msg w' Hget'|response' w' Hget' Hbad
              |response' w' msg Hget' Hok Hparse'].
    + congruence.
    + assert (response' = response) as -> by congruence. done.
    + assert (response' = response) as -> by congruence. congruence.
  - intros repomd' w2 (response' & Hget' & _ & Hparse').
    assert (response' = response) as -> by congruence.
    assert (w2 = w1) as -> by congruence.
    assert (repomd' = repomd) as -> by congruence. exact Hlen.
Qed.

(** On the example: the index and one package list are requested. *)
Lemma search_request_discipline_witness :
  index_document (Fixture.centos "x86_64" "repodata/repomd.xml") Fixture.web
    Fixture.index_one_tree Fixture.web
  ∧ ∃ others,
      network_calls (events_of (search_packages_in_repo
                                  (Fixture.centos "x86_64" "repodata/repomd.xml")
                                  "kernel" "centos7/os" Fixture.web))
      = (Fixture.centos "x86_64" "repodata/repomd.xml", 30%Z) :: others
      ∧ length others ≤ length (findall_primary Fixture.index_one_tree).
Proof.
  assert (index_document (Fixture.centos "x86_64" "repodata/repomd.xml")
            Fixture.web Fixture.index_one_tree Fixture.web) as Hindex.
  { exists {| status_code := 200; content := Fixture.index_one |}.
    split_and!; by vm_compute. }
  split; [exact Hindex|].
  destruct (search_request_discipline
              (Fixture.centos "x86_64" "repodata/repomd.xml") "kernel"
              "centos7/os" Fixture.web) as (others & Hcalls & _ & _ & Hbound).
  exists others. split; [exact Hcalls|]. exact (Hbound _ _ Hindex).
Defined.

(** ** What a search that finds nothing prints *)

(** X3: a search that cannot have the index, or finds no entry of type
    [primary] in it, makes the one request for the index, returns the empty
    list and prints one line that tells why: the message of the exception
    that the request or the parser raised, the HTTP status, or that no
    package list was found. *)
Theorem search_reports_missing_index {W} `{!Runtime W}
    (repomd_url search_term repo_name : string) (w : W) :
  let header := Stdout ("Searching in " +:+ repo_name +:+ ": " +:+ repomd_url) in
  (∀ msg w1,
     requests_get repomd_url 30 w = (inl msg, w1) →
     search_packages_in_repo repomd_url search_term repo_name w
     = (inr [], w1,
        [header; HttpGet repomd_url 30; Stdout ("  Error: " +:+ msg)]))
  ∧ (∀ response w1,
       requests_get repomd_url 30 w = (inr response, w1) →
       status_code response ≠ 200%Z →
       search_packages_in_repo repomd_url search_term repo_name w
       = (inr [], w1,
          [header; HttpGet repomd_url 30;
           Stdout ("  Failed to fetch repomd.xml (HTTP "
                   +:+ pretty (status_code response) +:+ ")")]))
  ∧ (∀ response w1 msg,
       requests_get repomd_url 30 w = (inr response, w1) →
       status_code response = 200%Z →
       ET_fromstring (strip_xmlns (content response)) = inl msg →
       search_packages_in_repo repomd_url search_term repo_name w
       = (inr [], w1,
          [header; HttpGet repomd_url 30; Stdout ("  Error: " +:+ msg)]))
  ∧ (∀ repomd w1,
       index_document repomd_url w repomd w1 →
       findall_primary repomd = [] →
       search_packages_in_repo repomd_url search_term repo_name w
       = (inr [], w1,
          [header; HttpGet repomd_url 30;
           Stdout "  No primary.xml found in repository"])).
Proof.
  intros header. split_and!.
  - intros msg w1 Hget.
    by rewrite search_packages_in_repo_eq, search_body_eq, Hget.
  - intros response w1 Hget Hstatus.
    rewrite search_packages_in_repo_eq, search_body_eq, Hget.
    by rewrite decide_True by done.
  - intros response w1 msg Hget Hstatus Hparse.
    rewrite search_packages_in_repo_eq, search_body_eq, Hget.
    rewrite decide_False by (by intros []). by rewrite Hparse.
  - intros repomd w1 (response & Hget & Hstatus & Hparse) Hnone.
    rewrite search_packages_in_repo_eq, search_body_eq, Hget.
    rewrite decide_False by (by intros []). by rewrite Hparse, Hnone.
Qed.

(** On the examples: a request that is refused, and one that answers
    404. *)
Lemma search_reports_missing_index_witness :
  search_packages_in_repo (Fixture.centos "s390x" "repodata/repomd.xml")
    "kernel" "centos7/os" Fixture.web
  = (inr [], Fixture.web,
     [Stdout "Searching in centos7/os: https://vault.centos.org/7.9.2009/os/s390x/repodata/repomd.xml";
      HttpGet "https://vault.centos.org/7.9.2009/os/s390x/repodata/repomd.xml" 30;
      Stdout "  Error: Connection refused"])
  ∧ stdout (events_of (search_packages_in_repo
                         (Fixture.centos "riscv64" "repodata/repomd.xml")
                         "kernel" "centos7/os" Fixture.web))
    = ["Searching in centos7/os: https://vault.centos.org/7.9.2009/os/riscv64/repodata/repomd.xml";
       "  Failed to fetch repomd.xml (HTTP 404)"].
Proof.
  destruct (search_reports_missing_index
              (Fixture.centos "s390x" "repodata/repomd.xml") "kernel"
              "centos7/os" Fixture.web) as (Hraise & _).
  destruct (search_reports_missing_index
              (Fixture.centos "riscv64" "repodata/repomd.xml") "kernel"
              "centos7/os" Fixture.web) as (_ & Hstatus & _).
  split.
  - exact (Hraise "Connection refused" Fixture.web eq_refl).
  - assert (status_code {| status_code := 404; content := [] |} ≠ 200%Z)
      as Hbad by done.
    rewrite (Hstatus {| status_code := 404; content := [] |} Fixture.web
               eq_refl Hbad).
    reflexivity.
Defined.

(** X4: when the first entry of type [primary] has no [location] element,
    or its [location] element has no attribute [href], the search stops
    there: it prints the exception, returns the empty list, requests no
    package list and does not look at the entries after it. *)
Theorem candidate_without_location_stops_search {W} `{!Runtime W}
    (repomd_url search_term repo_name : string) (w w1 : W)
    (repomd child : Element) (rest : list Element) :
  index_document repomd_url w repomd w1 →
  findall_primary repomd = child :: rest →
  let header := Stdout ("Searching in " +:+ repo_name +:+ ": " +:+ repomd_url) in
  (findall "location" child = [] →
   search_packages_in_repo repomd_url search_term repo_name w
   = (inr [], w1,
      [header; HttpGet repomd_url 30;
       Stdout "  Error: list index out of range"]))
  ∧ (∀ loc more,
       findall "location" child = loc :: more →
       attrib loc !! "href" = None →
       search_packages_in_repo repomd_url search_term repo_name w
       = (inr [], w1,
          [header; HttpGet repomd_url 30; Stdout "  Error: 'href'"])).
Proof.
  intros (response & Hget & Hstatus & Hparse) Hcandidates header.
  assert (∀ msg, location_of child = inl (Exception msg) →
                 search_packages_in_repo repomd_url search_term repo_name w
                 = (inr [], w1,
                    [header; HttpGet repomd_url 30;
                     Stdout ("  Error: " +:+ msg)])) as Hstop.
  { intros msg Hloc.
    rewrite search_packages_in_repo_eq, search_body_eq, Hget.
    rewrite decide_False by (by intros []).
    rewrite Hparse, Hcandidates. cbn zeta.
    by rewrite primary_loop_cons, Hloc. }
  split.
  - intros Hnone. apply (Hstop "list index out of range").
    unfold location_of. by rewrite Hnone.
  - intros loc more Hloc Hhref. apply (Hstop "'href'").
    unfold location_of, getitem. rewrite Hloc. cbn [first rbind].
    by rewrite Hhref.
Qed.

(** On the mirror of the examples: the index for [x86_64] has a first
    entry without [location] and a complete second entry, which is not
    tried; the index for [aarch64] has a [location] without [href]. *)
Lemma candidate_without_location_stops_search_witness :
  search_packages_in_repo (Fixture.centos "x86_64" "repodata/repomd.xml")
    "kernel" "centos7/os" Mirror.site
  = (inr [], Mirror.site,
     [Stdout "Searching in centos7/os: https://vault.centos.org/7.9.2009/os/x86_64/repodata/repomd.xml";
      HttpGet "https://vault.centos.org/7.9.2009/os/x86_64/repodata/repomd.xml" 30;
      Stdout "  Error: list index out of range"])
  ∧ search_packages_in_repo (Fixture.centos "aarch64" "repodata/repomd.xml")
      "kernel" "centos7/os" Mirror.site
    = (inr [], Mirror.site,
       [Stdout "Searching in centos7/os: https://vault.centos.org/7.9.2009/os/aarch64/repodata/repomd.xml";
        HttpGet "https://vault.centos.org/7.9.2009/os/aarch64/repodata/repomd.xml" 30;
        Stdout "  Error: 'href'"]).
Proof.
  assert (index_document (Fixture.centos "x86_64" "repodata/repomd.xml")
            Mirror.site Mirror.index_bare_tree Mirror.site) as Hbare.
  { exists {| status_code := 200; content := Mirror.index_bare |}.
    by vm_compute. }
  assert (index_document (Fixture.centos "aarch64" "repodata/repomd.xml")
            Mirror.site Mirror.index_nowhere_tree Mirror.site) as Hnowhere.
  { exists {| status_code := 200; content := Mirror.index_nowhere |}.
    by vm_compute. }
  split.
  - exact (proj1 (candidate_without_location_stops_search _ "kernel"
                    "centos7/os" _ _ _ _ _ Hbare eq_refl) eq_refl).
  - exact (proj2 (candidate_without_location_stops_search _ "kernel"
                    "centos7/os" _ _ _ _ _ Hnowhere eq_refl) _ _ eq_refl
             eq_refl).
Defined.

(** ** A listing without malformed elements *)

Section WellFormed.
Context {W : Type} `{!Runtime W}.

Lemma well_formed_entry search_term package :
  well_formed search_term package →
  ∃ entry, package_entry search_term package = inr entry.
Proof.
  intros (e & n & Hname & Htext & Hfields).
  unfold package_entry. rewrite Hname. cbn [get_text rbind]. rewrite Htext.
  cbn [rbind].
  destruct (str_in (str_lower search_term) (str_lower n)) eqn:Hin;
    [|by eexists].
  destruct Hfields as ([a Harch] & v & Hversion & [ver Hver] & [rel Hrel]).
  { unfold is_match, element_name. by rewrite Hname, Htext. }
  rewrite Harch, Hversion. cbn [get_text get_attrib rbind]. unfold getitem.
  rewrite Hver, Hrel. by eexists.
Qed.

(** On the way to the package-list document the loop prints the same
    line for every candidate it tries. *)
Lemma primary_loop_listing_stdout repomd_url search_term candidates (w : W)
    root w2 :
  listing_document repomd_url candidates w root w2 →
  Forall (λ line, line = "  Fetching package data...")
    (stdout (events_of (primary_loop repomd_url search_term candidates w))).
Proof.
  induction 1 as [child rest w location primary_url response w1 data root
                    Hloc Hurl Hget Hstatus Hgz Hparse
                 |child rest w location primary_url response w1 root w2
                    Hloc Hurl Hget Hstatus _ IH];
    rewrite primary_loop_cons, Hloc, Hurl, Hget.
  - rewrite decide_False by (by intros []). rewrite Hgz, Hparse.
    destruct (collect_packages search_term root);
      cbn [events_of snd]; rewrite stdout_fetching; by constructor.
  - rewrite decide_True by done. cbn [events_of snd].
    rewrite stdout_app, stdout_fetching. by constructor.
Qed.

End WellFormed.

(** X5: when every [package] element of the package-list document is well
    formed, the search returns one entry for each matching element, in
    document order, and prints no error: after its first line it prints
    only the line that announces a fetch.  In particular a document without
    [package] elements gives the empty list and no error. *)
Theorem well_formed_listing_is_searched {W} `{!Runtime W}
    (repomd_url search_term repo_name : string) (w w2 : W) (root : Element) :
  package_listing repomd_url w root w2 →
  Forall (well_formed search_term) (findall "package" root) →
  ∃ packages,
    result_of (search_packages_in_repo repomd_url search_term repo_name w)
    = inr packages
    ∧ Forall2 (λ package pkg, element_name package = Some (name pkg))
        (filter (λ package, is_match search_term package)
           (findall "package" root))
        packages
    ∧ (findall "package" root = [] → packages = [])
    ∧ ∃ fetches,
        stdout (events_of (search_packages_in_repo repomd_url search_term
                             repo_name w))
        = ("Searching in " +:+ repo_name +:+ ": " +:+ repomd_url) :: fetches
        ∧ Forall (λ line, line = "  Fetching package data...") fetches.
Proof.
  intros Hlisting Hall.
  destruct (collect_returns search_term (findall "package" root) [])
    as [packages Hcollect].
  { eapply Forall_impl; [exact Hall|]. intros package. apply well_formed_entry. }
  fold (collect_packages search_term root) in Hcollect.
  exists packages.
  destruct (search_listing _ search_term repo_name _ _ _ Hlisting) as [Hres _].
  rewrite Hcollect in Hres. split; [exact Hres|]. split.
  { eapply Forall2_impl; [by apply collect_entries|].
    intros package pkg Hentry.
    by apply package_entry_some in Hentry as (Hname & _ & _). }
  split.
  { intros Hnone. unfold collect_packages in Hcollect. rewrite Hnone in Hcollect.
    by injection Hcollect as <-. }
  destruct Hlisting as (repomd & w1 & (response & Hget & Hstatus & Hparse)
                        & Hlisting).
  pose proof (primary_loop_listing_stdout _ search_term _ _ _ _ Hlisting)
    as Hfetch.
  apply (primary_loop_listing _ search_term) in Hlisting as [Hloop _].
  rewrite Hcollect in Hloop. cbn [rbind] in Hloop.
  eexists. split; [|exact Hfetch].
  rewrite search_packages_in_repo_eq, search_body_eq, Hget.
  rewrite decide_False by (by intros []). rewrite Hparse. cbn zeta.
  rewrite Hloop. cbn [result_of events_of fst snd].
  by rewrite stdout_cons_Stdout, stdout_cons_HttpGet.
Qed.

Lemma fixture_package_well_formed (search_term n a v r : string) :
  well_formed (W := Fixture.Web) search_term (Fixture.package n a v r).
Proof.
  exists (Fixture.element "name" [] (Some n) []), n.
  split; [reflexivity|]. split; [reflexivity|]. intros _.
  split; [by eexists|].
  exists (Fixture.element "version" [("epoch", "0"); ("ver", v); ("rel", r)]
            None []).
  split; [reflexivity|]. split; by eexists.
Qed.

(** On the example: the three elements of the listing are well formed and
    two of them match. *)
Lemma well_formed_listing_is_searched_witness :
  package_listing (Fixture.centos "x86_64" "repodata/repomd.xml") Fixture.web
    Fixture.listing_tree Fixture.web
  ∧ Forall (well_formed "kernel") (findall "package" Fixture.listing_tree)
  ∧ ∃ packages,
      result_of (search_packages_in_repo
                   (Fixture.centos "x86_64" "repodata/repomd.xml") "kernel"
                   "centos7/os" Fixture.web) = inr packages
      ∧ length packages = 2.
Proof.
  assert (Forall (well_formed "kernel") (findall "package" Fixture.listing_tree))
    as Hall.
  { assert (findall "package" Fixture.listing_tree
            = [Fixture.package "kernel" "x86_64" "5.14.0" "427.el9";
               Fixture.package "Kernel-Tools" "x86_64" "5.14.0" "427.el9";
               Fixture.package "glibc" "i686" "2.34" "100.el9"]) as ->
      by (vm_compute; reflexivity).
    repeat (apply Forall_cons_2; [apply fixture_package_well_formed|]).
    apply Forall_nil_2. }
  destruct (well_formed_listing_is_searched _ "kernel" "centos7/os" _ _ _
              fixture_listing Hall) as (packages & Hres & Hnames & _).
  split; [exact fixture_listing|]. split; [exact Hall|].
  exists packages. split; [exact Hres|].
  apply Forall2_length in Hnames. rewrite <- Hnames. by vm_compute.
Defined.

(** ** How [main] can end *)

(** X6: a run of [main] from a command line whose arguments are option
    strings of the parser and words ends in one of three ways: [argparse]
    prints the help and ends the program with status 0, which needs a help
    option on the command line; the program ends with status 2 before
    anything is printed on the standard output or requested; or [main]
    returns 0.  It returns 0 exactly when [argparse] returns a namespace
    whose search term is a string that is not empty; an error of [argparse]
    and a search term that is missing or empty give the status 2.  The
    distribution of a namespace that [argparse] returns is among the
    choices.  The run never ends by an exception that nothing catches. *)
Theorem main_exits_early_or_returns_0 {W} `{!Runtime W}
    (format_help : list string) (argv : list string) (line : list Arg)
    (w : W) :
  read_argv argv = Some line →
  let run := main_argv format_help line w in
  (Flag OptHelp ∈ line
   ∧ run = (inl (SystemExit 0), w, map Stdout format_help)
   ∨ run = (inl (SystemExit 2), w, [])
   ∨ result_of run = inr 0%Z)
  ∧ (result_of run = inr 0%Z ↔
     ∃ args search_term,
       parse_argv line = Returned args
       ∧ arg_search_term args = Some search_term ∧ search_term ≠ "")
  ∧ (parse_argv line = UsageError → run = (inl (SystemExit 2), w, []))
  ∧ (∀ args, parse_argv line = Returned args →
             truthy (arg_search_term args) = false →
             run = (inl (SystemExit 2), w, []))
  ∧ (∀ args, parse_argv line = Returned args →
             arg_distro args ∈ distro_choices)
  ∧ ∀ msg, result_of run ≠ inl (Exception msg).
Proof.
  intros _ run.
  pose proof (main_argv_outcome format_help line w) as Hrun. fold run in Hrun.
  split_and!.
  - destruct Hrun as [[Hhelp Hrun]|[Hrun|(args & s & _ & _ & _ & Hrun)]].
    + left. split; [|done]. by apply (scan_help _ _ _ _ Hhelp).
    + right. by left.
    + right. by right.
  - split.
    + intros H0.
      destruct Hrun as [[_ Hrun]|[Hrun|(args & s & Hparse & Hs & Hterm & _)]];
        [by rewrite Hrun in H0|by rewrite Hrun in H0|].
      by exists args, s.
    + intros (args & s & Hparse & Hs & Hterm).
      destruct (main_body_outcome args w (parse_argv_distro _ _ Hparse))
        as [(s' & _ & _ & H0)|[Hno _]].
      * unfold run, main_argv. by rewrite Hparse.
      * rewrite Hs in Hno. by destruct s.
  - by apply main_argv_error.
  - intros args Hparse Hterm.
    destruct (main_body_outcome args w (parse_argv_distro _ _ Hparse))
      as [(s & Hs & Hne & _)|[_ Hexit]].
    + rewrite Hs in Hterm. by destruct s.
    + unfold run, main_argv. by rewrite Hparse.
  - apply parse_argv_distro.
  - intros msg Hraise.
    destruct Hrun as [[_ Hrun]|[Hrun|(args & s & _ & _ & _ & Hrun)]];
      by rewrite Hrun in Hraise.
Qed.

(** On the examples: an empty search term, a value without its option's
    name before it, a distribution that is not a choice, the help, and a
    search that runs. *)
Lemma main_exits_early_or_returns_0_witness :
  main_argv Mirror.help [Word ""] Fixture.web
  = (inl (SystemExit 2), Fixture.web, [])
  ∧ (read_argv ["kernel"; "--architecture"]
     = Some [Word "kernel"; Flag OptArchitecture]
     ∧ main_argv Mirror.help [Word "kernel"; Flag OptArchitecture] Fixture.web
       = (inl (SystemExit 2), Fixture.web, []))
  ∧ main_argv Mirror.help [Word "kernel"; Flag OptDistro; Word "alma10"]
      Fixture.web
    = (inl (SystemExit 2), Fixture.web, [])
  ∧ (read_argv ["--help"] = Some [Flag OptHelp]
     ∧ main_argv Mirror.help [Flag OptHelp] Fixture.web
       = (inl (SystemExit 0), Fixture.web, map Stdout Mirror.help))
  ∧ (read_argv ["kernel"; "--distro"; "centos7"; "--exact"]
     = Some [Word "kernel"; Flag OptDistro; Word "centos7"; Flag OptExact]
     ∧ result_of (main_argv Mirror.help
                    [Word "kernel"; Flag OptDistro; Word "centos7";
                     Flag OptExact] Fixture.web)
       = inr 0%Z).
Proof.
  refine (conj _ (conj (conj eq_refl _) (conj _ (conj (conj eq_refl _)
            (conj eq_refl _))))).
  - exact (proj1 (proj2 (proj2 (proj2
             (main_exits_early_or_returns_0 Mirror.help [""] [Word ""]
                Fixture.web eq_refl)))) _ eq_refl eq_refl).
  - exact (proj1 (proj2 (proj2
             (main_exits_early_or_returns_0 Mirror.help
                ["kernel"; "--architecture"]
                [Word "kernel"; Flag OptArchitecture] Fixture.web eq_refl)))
             eq_refl).
  - assert (parse_argv [Word "kernel"; Flag OptDistro; Word "alma10"]
            = UsageError) as Herror by (by vm_compute).
    exact (proj1 (proj2 (proj2
             (main_exits_early_or_returns_0 Mirror.help
                ["kernel"; "--distro"; "alma10"]
                [Word "kernel"; Flag OptDistro; Word "alma10"] Fixture.web
                eq_refl))) Herror).
  - destruct (proj1 (main_exits_early_or_returns_0 Mirror.help ["--help"]
                       [Flag OptHelp] Fixture.web eq_refl))
      as [[_ Hhelp]|[Hexit|H0]]; [exact Hhelp|by vm_compute in Hexit|
                                   by vm_compute in H0].
  - apply (proj1 (proj2 (main_exits_early_or_returns_0 Mirror.help
                           ["kernel"; "--distro"; "centos7"; "--exact"]
                           [Word "kernel"; Flag OptDistro; Word "centos7";
                            Flag OptExact] Fixture.web eq_refl))).
    by eexists _, "kernel".
Defined.

(** ** What the options change *)

Section Options.
Context {W : Type} `{!Runtime W}.

Lemma report_events_no_request exact search_term repo packages all_packages
    (w : W) :
  network_calls (events_of (report exact search_term repo packages
                              all_packages w)) = [].
Proof. rewrite report_eq. apply network_calls_printed. Qed.

(** The loop over the sub-repositories fetches and accumulates the same
    with and without [--exact]. *)
Lemma search_all_exact exact exact' search_term distro architecture config
    repos all_packages (w : W) :
  REPO_CONFIGS !! distro = Some config →
  result_of (search_all exact search_term distro architecture config repos
               all_packages w)
  = result_of (search_all exact' search_term distro architecture config repos
                 all_packages w)
  ∧ world_of (search_all exact search_term distro architecture config repos
                all_packages w)
    = world_of (search_all exact' search_term distro architecture config repos
                  all_packages w)
  ∧ network_calls (events_of (search_all exact search_term distro architecture
                                config repos all_packages w))
    = network_calls (events_of (search_all exact' search_term distro
                                  architecture config repos all_packages w)).
Proof.
  intros Hconfig. revert all_packages w.
  induction repos as [|repo rest IH]; intros all_packages w; [done|].
  destruct (repomd_url_of_ok _ architecture repo _ Hconfig) as [url Hurl].
  destruct (search_all_cons exact search_term _ _ _ _ rest all_packages _ w Hurl)
    as (packages & Hpackages & ->).
  destruct (search_all_cons exact' search_term _ _ _ _ rest all_packages _ w Hurl)
    as (packages' & Hpackages' & ->).
  assert (packages' = packages) as -> by congruence.
  cbn [result_of world_of events_of fst snd].
  destruct (IH (all_packages ++ tagged repo packages)
              (world_of (search_packages_in_repo url search_term
                           (distro +:+ "/" +:+ repo) w)))
    as (Hres & Hworld & Hcalls).
  split; [exact Hres|]. split; [exact Hworld|].
  rewrite !network_calls_app, !network_calls_printed.
  rewrite !network_calls_cons_Stdout. by rewrite Hcalls.
Qed.

End Options.

(** X7: [--exact] changes only what is printed.  Two runs of [main] that
    differ only in this flag make the same requests in the same order, leave
    the same world, return the same status and accumulate the same
    sequence. *)
Theorem exact_changes_only_output {W} `{!Runtime W}
    (args : Namespace) (search_term : string) (config : Config) (w : W) :
  determine_search_term args = Some search_term →
  search_term ≠ "" →
  REPO_CONFIGS !! arg_distro args = Some config →
  let flipped := {| arg_search_term := arg_search_term args;
                    arg_distro := arg_distro args;
                    arg_architecture := arg_architecture args;
                    arg_repo := arg_repo args;
                    arg_exact := negb (arg_exact args) |} in
  network_calls (events_of (main_body args w))
  = network_calls (events_of (main_body flipped w))
  ∧ world_of (main_body args w) = world_of (main_body flipped w)
  ∧ result_of (main_body args w) = result_of (main_body flipped w)
  ∧ result_of (search_all (arg_exact args) search_term (arg_distro args)
                 (arg_architecture args) config (repos_to_search_of args config)
                 [] w)
    = result_of (search_all (negb (arg_exact args)) search_term (arg_distro args)
                   (arg_architecture args) config
                   (repos_to_search_of args config) [] w).
Proof.
  intros Hread Hterm Hconfig flipped.
  assert (determine_search_term flipped = Some search_term) as Hread' by done.
  destruct (main_from_supported args search_term config w Hterm Hconfig)
    as (all_packages & Hall & Hmain).
  destruct (main_from_supported flipped search_term config w Hterm Hconfig)
    as (all_packages' & Hall' & Hmain').
  unfold main_body. rewrite Hread, Hread', Hmain, Hmain'.
  change (repos_to_search_of flipped config)
    with (repos_to_search_of args config).
  cbn [result_of world_of events_of fst snd arg_exact arg_distro arg_architecture].
  destruct (search_all_exact (arg_exact args) (negb (arg_exact args))
              search_term _ (arg_architecture args) _
              (repos_to_search_of args config) [] w Hconfig)
    as (Hres & Hworld & Hcalls).
  rewrite !network_calls_app, !network_calls_printed, Hcalls.
  split; [done|]. split; [exact Hworld|]. split; [done|]. exact Hres.
Qed.

(** On the example: the run for [kernel] on centos7 with and without
    [--exact]. *)
Lemma exact_changes_only_output_witness :
  determine_search_term Fixture.exact_namespace = Some "kernel"
  ∧ network_calls (events_of (main_body Fixture.exact_namespace Fixture.web))
    = network_calls
        (events_of (main_body (Fixture.centos7_namespace None) Fixture.web)).
Proof.
  assert ("kernel" ≠ "") as Hterm by done.
  split; [reflexivity|].
  exact (proj1 (exact_changes_only_output Fixture.exact_namespace "kernel"
                  Fixture.centos7_config Fixture.web eq_refl Hterm eq_refl)).
Defined.

(** ** The search term and the name of the sub-repository *)

Section Insensitive.
Context {W : Type} `{!Runtime W}.

Lemma package_entry_lower search_term search_term' package :
  str_lower search_term = str_lower search_term' →
  package_entry search_term package = package_entry search_term' package.
Proof. intros Hlower. unfold package_entry. by rewrite Hlower. Qed.

Lemma collect_lower search_term search_term' elements packages :
  str_lower search_term = str_lower search_term' →
  collect search_term elements packages = collect search_term' elements packages.
Proof.
  intros Hlower. revert packages.
  induction elements as [|package rest IH]; intros packages; [done|].
  cbn [collect]. rewrite (package_entry_lower _ _ _ Hlower).
  destruct (package_entry search_term' package) as [e|entry]; [done|].
  cbn [rbind]. apply IH.
Qed.

Lemma primary_loop_lower repomd_url search_term search_term' candidates (w : W) :
  str_lower search_term = str_lower search_term' →
  primary_loop repomd_url search_term candidates w
  = primary_loop repomd_url search_term' candidates w.
Proof.
  intros Hlower. revert w.
  induction candidates as [|child rest IH]; intros w; [done|].
  rewrite !primary_loop_cons.
  destruct (location_of child) as [e|location]; [done|].
  destruct (primary_url_of repomd_url location) as [e|primary_url]; [done|].
  destruct (requests_get primary_url 60 w) as [[msg|response] w1]; [done|].
  destruct (decide _); [by rewrite IH|].
  destruct (gzip_decompress _) as [msg|data]; [done|].
  destruct (ET_fromstring _) as [msg|root]; [done|].
  unfold collect_packages. by rewrite (collect_lower _ _ _ _ Hlower).
Qed.

End Insensitive.

(** X8: the search ignores the case of the search term: two search terms
    with the same lower-case form give the same requests, the same lines and
    the same entries. *)
Theorem search_term_case_is_ignored {W} `{!Runtime W}
    (repomd_url search_term search_term' repo_name : string) (w : W) :
  str_lower search_term = str_lower search_term' →
  search_packages_in_repo repomd_url search_term repo_name w
  = search_packages_in_repo repomd_url search_term' repo_name w.
Proof.
  intros Hlower. rewrite !search_packages_in_repo_eq, !search_body_eq.
  destruct (requests_get repomd_url 30 w) as [[msg|response] w1]; [done|].
  destruct (decide _); [done|].
  destruct (ET_fromstring _) as [msg|repomd]; [done|].
  by rewrite (primary_loop_lower _ _ _ _ _ Hlower).
Qed.

(** On the example: [KERNEL] and [kernel]. *)
Lemma search_term_case_is_ignored_witness :
  str_lower (Runtime := Fixture.runtime) "KERNEL" = str_lower "kernel"
  ∧ result_of (search_packages_in_repo
                 (Fixture.centos "x86_64" "repodata/repomd.xml") "KERNEL"
                 "centos7/os" Fixture.web)
    = inr [Fixture.kernel; Fixture.kernel_tools].
Proof.
  assert (str_lower (Runtime := Fixture.runtime) "KERNEL" = str_lower "kernel")
    as Hlower by reflexivity.
  split; [exact Hlower|].
  rewrite (search_term_case_is_ignored _ "KERNEL" "kernel" _ _ Hlower).
  by vm_compute.
Defined.

(** X9: the name under which a sub-repository is searched is used for the
    first line printed and for nothing else: the entries found, the world
    left and every other event are the same for all names. *)
Theorem repo_name_is_only_printed {W} `{!Runtime W}
    (repomd_url search_term : string) (w : W) :
  ∃ packages w1 events,
    ∀ repo_name,
      search_packages_in_repo repomd_url search_term repo_name w
      = (inr packages, w1,
         Stdout ("Searching in " +:+ repo_name +:+ ": " +:+ repomd_url)
         :: events).
Proof. apply search_header. Qed.

(** ** The index requests of a run *)

Section IndexRequests.
Context {W : Type} `{!Runtime W}.

Lemma index_requests_app cs ds :
  index_requests (cs ++ ds) = index_requests cs ++ index_requests ds.
Proof. unfold index_requests. by rewrite filter_app, map_app. Qed.

Lemma index_requests_others others :
  Forall (λ c : string * Z, c.2 = 60%Z) others → index_requests others = [].
Proof.
  unfold index_requests. induction 1 as [|c others Hc _ IH]; [done|].
  rewrite filter_cons_False by (rewrite Hc; done). exact IH.
Qed.

Lemma index_requests_search repomd_url search_term repo_name (w : W) :
  index_requests
    (network_calls (events_of (search_packages_in_repo repomd_url search_term
                                 repo_name w)))
  = [repomd_url].
Proof.
  rewrite search_requests. unfold index_requests.
  rewrite filter_cons_True by done. cbn [map fst]. f_equal.
  apply index_requests_others.
  destruct (requests_get repomd_url 30 w) as [[msg|response] w1];
    [constructor|].
  destruct (decide _); [constructor|].
  destruct (ET_fromstring _) as [msg|repomd]; [constructor|].
  apply primary_loop_requests.
Qed.

Lemma index_requests_search_all exact search_term distro architecture config
    repos all_packages (w : W) :
  REPO_CONFIGS !! distro = Some config →
  ∃ urls,
    Forall2 (λ repo url,
               repomd_url_of distro architecture repo config = inr url)
      repos urls
    ∧ index_requests
        (network_calls (events_of (search_all exact search_term distro
                                     architecture config repos all_packages w)))
      = urls.
Proof.
  intros Hconfig. revert all_packages w.
  induction repos as [|repo rest IH]; intros all_packages w.
  - exists []. split; [constructor|done].
  - destruct (repomd_url_of_ok _ architecture repo _ Hconfig) as [url Hurl].
    destruct (search_all_cons exact search_term _ _ _ _ rest all_packages _ w
                Hurl) as (packages & Hpackages & ->).
    destruct (IH (all_packages ++ tagged repo packages)
                (world_of (search_packages_in_repo url search_term
                             (distro +:+ "/" +:+ repo) w)))
      as (urls & Hurls & Hrest).
    exists (url :: urls). split; [by constructor|].
    cbn [events_of snd].
    rewrite !network_calls_app, network_calls_printed, network_calls_cons_Stdout.
    rewrite !index_requests_app, index_requests_search, Hrest. done.
Qed.

End IndexRequests.

(** X10: a run of [main] requests the index of each sub-repository it
    searches once, in the order of the list, and makes no other request
    with the time-out 30: the index requests are the index URLs of
    [repos_to_search]. *)
Theorem index_requests_follow_repos {W} `{!Runtime W}
    (args : Namespace) (search_term : string) (config : Config) (w : W) :
  determine_search_term args = Some search_term →
  search_term ≠ "" →
  REPO_CONFIGS !! arg_distro args = Some config →
  ∃ urls,
    Forall2 (λ repo url,
               repomd_url_of (arg_distro args) (arg_architecture args) repo
                 config = inr url)
      (repos_to_search_of args config) urls
    ∧ index_requests (network_calls (events_of (main_body args w))) = urls.
Proof.
  intros Hread Hterm Hconfig.
  destruct (index_requests_search_all (arg_exact args) search_term _
              (arg_architecture args) _ (repos_to_search_of args config) [] w
              Hconfig) as (urls & Hurls & Hrequests).
  exists urls. split; [exact Hurls|].
  destruct (main_from_supported args search_term config w Hterm Hconfig)
    as (all_packages & _ & Hmain).
  unfold main_body. rewrite Hread, Hmain. cbn [events_of snd].
  rewrite network_calls_app, network_calls_printed, app_nil_r. exact Hrequests.
Qed.

(** On the example: the three sub-repositories of alma8. *)
Lemma index_requests_follow_repos_witness :
  index_requests
    (network_calls
       (events_of (main_body {| arg_search_term := Some "kernel";
                                arg_distro := "alma8";
                                arg_architecture := "x86_64";
                                arg_repo := None;
                                arg_exact := false |} Fixture.web)))
  = ["https://vault.almalinux.org/8.9/BaseOS/x86_64/os/repodata/repomd.xml";
     "https://vault.almalinux.org/8.9/AppStream/x86_64/os/repodata/repomd.xml";
     "https://vault.almalinux.org/8.9/PowerTools/x86_64/os/repodata/repomd.xml"].
Proof.
  assert ("kernel" ≠ "") as Hterm by done.
  destruct (index_requests_follow_repos
              {| arg_search_term := Some "kernel"; arg_distro := "alma8";
                 arg_architecture := "x86_64"; arg_repo := None;
                 arg_exact := false |} "kernel" Fixture.alma8_config Fixture.web
              eq_refl Hterm eq_refl) as (urls & Hurls & ->).
  cbn in Hurls.
  apply Forall2_cons_inv_l in Hurls as (u1 & urls1 & H1 & Hurls & ->).
  apply Forall2_cons_inv_l in Hurls as (u2 & urls2 & H2 & Hurls & ->).
  apply Forall2_cons_inv_l in Hurls as (u3 & urls3 & H3 & Hurls & ->).
  apply Forall2_nil_inv_l in Hurls as ->.
  vm_compute in H1, H2, H3.
  injection H1 as <-. injection H2 as <-. injection H3 as <-. reflexivity.
Defined.

(** ** The effect of [--repo] *)

(** X11: with [--repo r], for a name [r] that is not empty, [main] searches
    this one sub-repository, whether or not it is in the configured list:
    one index is requested, and for the distributions other than centos7 its
    URL has [r] in the place of the sub-repository.  An empty [r] is as no
    [--repo] at all. *)
Theorem repo_option_selects_one_sub_repository {W} `{!Runtime W}
    (args : Namespace) (search_term r : string) (config : Config) (w : W) :
  determine_search_term args = Some search_term →
  search_term ≠ "" →
  REPO_CONFIGS !! arg_distro args = Some config →
  arg_repo args = Some r →
  (r ≠ "" →
   ∃ repomd_url,
     repomd_url_of (arg_distro args) (arg_architecture args) r config
     = inr repomd_url
     ∧ index_requests (network_calls (events_of (main_body args w)))
       = [repomd_url]
     ∧ (arg_distro args ≠ "centos7" →
        ∃ release,
          repomd_url
          = "https://vault.almalinux.org/" +:+ release +:+ "/" +:+ r +:+ "/"
            +:+ arg_architecture args +:+ "/os/repodata/repomd.xml"))
  ∧ (r = "" →
     main_body args w
     = main_body {| arg_search_term := arg_search_term args;
                    arg_distro := arg_distro args;
                    arg_architecture := arg_architecture args;
                    arg_repo := None;
                    arg_exact := arg_exact args |} w).
Proof.
  intros Hread Hterm Hconfig Hrepo. split.
  - intros Hr.
    destruct (index_requests_follow_repos args search_term config w Hread Hterm
                Hconfig) as (urls & Hurls & Hrequests).
    assert (repos_to_search_of args config = [r]) as Hrepos.
    { unfold repos_to_search_of. rewrite Hrepo. by destruct r. }
    rewrite Hrepos in Hurls.
    apply Forall2_cons_inv_l in Hurls as (url & urls' & Hurl & Hnil & ->).
    apply Forall2_nil_inv_l in Hnil as ->.
    exists url. split; [exact Hurl|]. split; [exact Hrequests|].
    intros Hdistro.
    destruct (repomd_url_of_alma _ (arg_architecture args) r _ Hconfig Hdistro)
      as (release & _ & Halma).
    exists release. congruence.
  - intros ->. unfold main_body, determine_search_term, main_from.
    cbn [arg_search_term arg_distro arg_architecture arg_exact].
    unfold repos_to_search_of. cbn [arg_repo]. by rewrite Hrepo.
Qed.

(** On the example: [--distro alma8 --repo extras], a sub-repository that
    is not configured. *)
Lemma repo_option_selects_one_sub_repository_witness :
  index_requests
    (network_calls
       (events_of (main_body {| arg_search_term := Some "kernel";
                                arg_distro := "alma8";
                                arg_architecture := "x86_64";
                                arg_repo := Some "extras";
                                arg_exact := false |} Fixture.web)))
  = ["https://vault.almalinux.org/8.9/extras/x86_64/os/repodata/repomd.xml"].
Proof.
  assert ("kernel" ≠ "") as Hterm by done.
  assert ("extras" ≠ "") as Hr by done.
  destruct (repo_option_selects_one_sub_repository
              {| arg_search_term := Some "kernel"; arg_distro := "alma8";
                 arg_architecture := "x86_64"; arg_repo := Some "extras";
                 arg_exact := false |} "kernel" "extras" Fixture.alma8_config
              Fixture.web eq_refl Hterm eq_refl eq_refl) as [Hone _].
  destruct (Hone Hr) as (url & Hurl & -> & _).
  vm_compute in Hurl. by injection Hurl as <-.
Defined.

(** ** All that [main] prints *)

Section Output.
Context {W : Type} `{!Runtime W}.

Lemma report_lines_block exact search_term lines packages :
  lines ++ report_lines exact search_term packages ++ [""]
  = block exact search_term lines packages.
Proof. by destruct packages. Qed.

Lemma search_all_stdout exact search_term distro architecture config repos
    all_packages (w : W) :
  REPO_CONFIGS !! distro = Some config →
  stdout (events_of (search_all exact search_term distro architecture config
                       repos all_packages w))
  = concat (zip_with (λ lines r, block exact search_term lines r.2)
              (sub_repository_lines search_term distro architecture config
                 repos w)
              (sub_repository_results search_term distro architecture config
                 repos w)).
Proof.
  intros Hconfig. revert all_packages w.
  induction repos as [|repo rest IH]; intros all_packages w; [done|].
  destruct (repomd_url_of_ok _ architecture repo _ Hconfig) as [url Hurl].
  destruct (search_all_cons exact search_term _ _ _ _ rest all_packages _ w Hurl)
    as (packages & Hpackages & ->).
  cbn [sub_repository_lines sub_repository_results]. rewrite Hurl, Hpackages.
  cbn [events_of snd zip_with concat].
  rewrite !stdout_app, stdout_printed, stdout_cons_Stdout, IH.
  rewrite <- report_lines_block. by rewrite <- !app_assoc.
Qed.

Lemma filter_all {A} (P : A → Prop) `{!∀ x, Decision (P x)} (l : list A) :
  (∀ x, P x) → filter P l = l.
Proof.
  intros HP. induction l as [|x l IH]; [done|].
  by rewrite filter_cons_True, IH by done.
Qed.

Lemma summary_lines_by_sub_repository exact search_term
    (results : list (string * list Package)) :
  map summary_line
    (after_exact_filter exact search_term
       (concat (map (λ r, tagged r.1 r.2) results)))
  = concat (map (λ r, map (λ pkg, full_name pkg +:+ " (from " +:+ r.1 +:+ ")")
                        (listed exact search_term r.2))
              results).
Proof.
  unfold after_exact_filter, listed.
  induction results as [|r results IH]; [by destruct exact|].
  cbn [map concat]. rewrite <- IH. destruct exact.
  - rewrite filter_app, map_app, filter_tagged. f_equal.
    unfold tagged, summary_line. rewrite map_map. cbn [fst snd]. f_equal.
    apply list_filter_iff. intros pkg. split; [by right|by intros [?|?]].
  - rewrite map_app. f_equal. unfold tagged, summary_line.
    rewrite map_map. cbn [fst snd]. f_equal. symmetry.
    apply filter_all. by left.
Qed.

End Output.

(** X12: what a run of [main] prints, from the first line to the last: for
    each sub-repository, in the order of the searches, the lines of its
    search, then either the number of entries found and one line for each
    entry listed or the line that none was found, then an empty line; after
    that the banner with the number of entries found in all, and one line
    for each entry listed, with the name of its sub-repository.  The entries
    listed in the two places are the same: all the entries found, or with
    [--exact] those named as the search term. *)
Theorem main_output {W} `{!Runtime W}
    (args : Namespace) (search_term : string) (config : Config) (w : W) :
  determine_search_term args = Some search_term →
  search_term ≠ "" →
  REPO_CONFIGS !! arg_distro args = Some config →
  let results :=
    sub_repository_results search_term (arg_distro args) (arg_architecture args)
      config (repos_to_search_of args config) w in
  let lines :=
    sub_repository_lines search_term (arg_distro args) (arg_architecture args)
      config (repos_to_search_of args config) w in
  stdout (events_of (main_body args w))
  = concat (zip_with (λ ls r, block (arg_exact args) search_term ls r.2)
              lines results)
    ++ [str_repeat "=" 60;
        "SUMMARY: " +:+ pretty (sum_list (map (λ r, length r.2) results))
          +:+ " packages found containing '" +:+ search_term +:+ "'";
        str_repeat "=" 60]
    ++ concat (map (λ r, map (λ pkg, full_name pkg +:+ " (from " +:+ r.1
                                      +:+ ")")
                           (listed (arg_exact args) search_term r.2))
                 results).
Proof.
  intros Hread Hterm Hconfig results lines.
  destruct (main_from_supported args search_term config w Hterm Hconfig)
    as (all_packages & Hall & Hmain).
  unfold main_body. rewrite Hread, Hmain. cbn [events_of snd].
  rewrite (search_all_result _ _ _ _ _ _ _ _ Hconfig) in Hall.
  injection Hall as <-. cbn [app].
  rewrite stdout_app, stdout_printed, (search_all_stdout _ _ _ _ _ _ _ _ Hconfig).
  fold results lines. f_equal. unfold banner. cbn [app]. do 3 f_equal.
  - do 2 f_equal. clear. induction results as [|r results IH]; [done|].
    cbn [map concat sum_list sum_list_with]. rewrite length_app, IH.
    unfold tagged. by rewrite length_map.
  - apply summary_lines_by_sub_repository.
Qed.

(** On the example: [--distro alma8 --exact] with the search term
    [kernel]. *)
Lemma main_output_witness :
  stdout (events_of (main_body {| arg_search_term := Some "kernel";
                                  arg_distro := "alma8";
                                  arg_architecture := "x86_64";
                                  arg_repo := None;
                                  arg_exact := true |} Fixture.web))
  = ["Searching in alma8/BaseOS: https://vault.almalinux.org/8.9/BaseOS/x86_64/os/repodata/repomd.xml";
     "  Fetching package data...";
     "  Found 2 packages:";
     "    kernel-5.14.0-427.el9.x86_64";
     "";
     "Searching in alma8/AppStream: https://vault.almalinux.org/8.9/AppStream/x86_64/os/repodata/repomd.xml";
     "  Fetching package data...";
     "  Found 2 packages:";
     "    kernel-5.14.0-427.el9.x86_64";
     "";
     "Searching in alma8/PowerTools: https://vault.almalinux.org/8.9/PowerTools/x86_64/os/repodata/repomd.xml";
     "  Failed to fetch repomd.xml (HTTP 404)";
     "  No packages found";
     "";
     "============================================================";
     "SUMMARY: 4 packages found containing 'kernel'";
     "============================================================";
     "kernel-5.14.0-427.el9.x86_64 (from BaseOS)";
     "kernel-5.14.0-427.el9.x86_64 (from AppStream)"].
Proof.
  assert ("kernel" ≠ "") as Hterm by done.
  rewrite (main_output {| arg_search_term := Some "kernel"; arg_distro := "alma8";
                          arg_architecture := "x86_64"; arg_repo := None;
                          arg_exact := true |} "kernel" Fixture.alma8_config
             Fixture.web eq_refl Hterm eq_refl).
  by vm_compute.
Defined.

(** ** The URL of the package list, when the segment occurs once *)

Lemma str_count_trailing (pat dir : string) :
  1 ≤ str_count pat (dir +:+ pat).
Proof.
  induction dir as [|c dir IH].
  - change ("" +:+ pat) with pat.
    destruct pat as [|c rest]; [cbn; lia|].
    cbn [str_count]. rewrite prefix_refl. lia.
  - change (String c dir +:+ pat) with (String c (dir +:+ pat)).
    cbn [str_count]. lia.
Qed.

Lemma replace_from_counted (old new dir : string) :
  old ≠ "" →
  str_count old (dir +:+ old) = 1 →
  replace_from old new 0 (dir +:+ old) = dir +:+ new.
Proof.
  intros Hold. induction dir as [|c dir IH]; intros Hcount.
  - destruct old as [|c rest]; [done|].
    change ("" +:+ String c rest) with (String c rest).
    cbn [replace_from]. rewrite prefix_refl.
    change (Nat.pred (String.length (String c rest))) with (String.length rest).
    by rewrite replace_from_skip_all, str_app_nil_r.
  - change (String c dir +:+ old) with (String c (dir +:+ old)) in *.
    cbn [str_count] in Hcount. cbn [replace_from].
    pose proof (str_count_trailing old dir) as Htrailing.
    destruct (String.prefix old (String c (dir +:+ old))); [lia|].
    change (String c dir +:+ new) with (String c (dir +:+ new)). f_equal.
    apply IH. lia.
Qed.

(** X13: when the segment [/repodata/repomd.xml] occurs in the index URL
    once, at its end, the package list is looked for in the directory of the
    index: the location is joined against the index URL without
    [repodata/repomd.xml]. *)
Theorem package_list_url_when_segment_occurs_once {W} `{!Runtime W}
    (dir location : string) :
  str_count "/repodata/repomd.xml" (dir +:+ "/repodata/repomd.xml") = 1 →
  str_replace (dir +:+ "/repodata/repomd.xml") "/repodata/repomd.xml" "/"
  = dir +:+ "/"
  ∧ index_directory (dir +:+ "/repodata/repomd.xml") = dir +:+ "/"
  ∧ primary_url_of (dir +:+ "/repodata/repomd.xml") location
    = library (urljoin (dir +:+ "/") location).
Proof.
  intros Hcount.
  assert (str_replace (dir +:+ "/repodata/repomd.xml") "/repodata/repomd.xml" "/"
          = dir +:+ "/") as Hreplace
    by by apply (replace_from_counted "/repodata/repomd.xml" "/").
  split; [exact Hreplace|]. split.
  - unfold index_directory.
    change "/repodata/repomd.xml" with ("/" +:+ "repodata/repomd.xml").
    rewrite <- str_app_assoc. apply remove_trailing_app.
  - unfold primary_url_of. by rewrite Hreplace.
Qed.

(** On the example: the index of [BaseOS] of alma9 for [x86_64]. *)
Lemma package_list_url_when_segment_occurs_once_witness :
  str_count "/repodata/repomd.xml"
    ("https://vault.almalinux.org/9.4/BaseOS/x86_64/os"
     +:+ "/repodata/repomd.xml") = 1
  ∧ primary_url_of (W := Fixture.Web)
      ("https://vault.almalinux.org/9.4/BaseOS/x86_64/os"
       +:+ "/repodata/repomd.xml")
      "repodata/primary.xml.gz"
    = inr "https://vault.almalinux.org/9.4/BaseOS/x86_64/os/repodata/primary.xml.gz".
Proof.
  assert (str_count "/repodata/repomd.xml"
            ("https://vault.almalinux.org/9.4/BaseOS/x86_64/os"
             +:+ "/repodata/repomd.xml") = 1) as Hcount by (by vm_compute).
  split; [exact Hcount|].
  destruct (package_list_url_when_segment_occurs_once (W := Fixture.Web)
              "https://vault.almalinux.org/9.4/BaseOS/x86_64/os"
              "repodata/primary.xml.gz" Hcount) as (_ & _ & ->).
  by vm_compute.
Defined.

(** ** The URL of the package list of centos7 *)

Lemma slash_free_cons c s :
  slash_free (String c s) → c ≠ "/"%char ∧ slash_free s.
Proof.
  unfold slash_free. cbn [str_in String.prefix].
  destruct (ascii_dec "/" c) as [<-|Hc]; [by destruct s|].
  intros Hs. split; [by intros ->|exact Hs].
Qed.

(** A pattern that starts with [/] does not occur at a place of a string
    without [/]. *)
Lemma str_count_slash_free (pat a s : string) :
  slash_free a →
  str_count (String "/" pat) (a +:+ s) = str_count (String "/" pat) s.
Proof.
  induction a as [|c a IH]; intros Hfree; [done|].
  apply slash_free_cons in Hfree as [Hc Hfree].
  change (String c a +:+ s) with (String c (a +:+ s)).
  cbn [str_count String.prefix].
  destruct (ascii_dec "/" c) as [<-|_]; [done|]. by rewrite IH.
Qed.

(** Where the first [/] of a pattern falls when the pattern is a prefix of
    a string whose first [/] is known. *)
Lemma prefix_first_slash (q1 q2 a t : string) :
  slash_free q1 → slash_free a →
  String.prefix (q1 +:+ String "/" q2) (a +:+ String "/" t) = true →
  a = q1 ∧ String.prefix q2 t = true.
Proof.
  revert a. induction q1 as [|d q1 IH]; intros a Hq1 Ha.
  - change ("" +:+ String "/" q2) with (String "/" q2).
    destruct a as [|c a].
    + change ("" +:+ String "/" t) with (String "/" t). cbn [String.prefix].
      by destruct (ascii_dec "/" "/").
    + apply slash_free_cons in Ha as [Hc _].
      change (String c a +:+ String "/" t) with (String c (a +:+ String "/" t)).
      cbn [String.prefix]. by destruct (ascii_dec "/" c) as [<-|_].
  - apply slash_free_cons in Hq1 as [Hd Hq1].
    change (String d q1 +:+ String "/" q2)
      with (String d (q1 +:+ String "/" q2)).
    destruct a as [|c a].
    + change ("" +:+ String "/" t) with (String "/" t). cbn [String.prefix].
      by destruct (ascii_dec d "/") as [->|_].
    + apply slash_free_cons in Ha as [_ Ha].
      change (String c a +:+ String "/" t) with (String c (a +:+ String "/" t)).
      cbn [String.prefix]. destruct (ascii_dec d c) as [->|_]; [|done].
      intros Hprefix. destruct (IH a Hq1 Ha Hprefix) as [-> Hq2]. done.
Qed.

Lemma centos7_segment_occurs_once (architecture : string) :
  slash_free architecture →
  str_count "/repodata/repomd.xml"
    (("https://vault.centos.org/7.9.2009/os/" +:+ architecture)
     +:+ "/repodata/repomd.xml") = 1.
Proof.
  intros Hfree.
  change (str_count "/repodata/repomd.xml"
            (("https://vault.centos.org/7.9.2009/os/" +:+ architecture)
             +:+ "/repodata/repomd.xml"))
    with ((if String.prefix "repodata/repomd.xml"
                (architecture +:+ "/repodata/repomd.xml")
           then 1 else 0)
          + str_count "/repodata/repomd.xml"
              (architecture +:+ "/repodata/repomd.xml")).
  rewrite (str_count_slash_free _ _ _ Hfree).
  destruct (String.prefix "repodata/repomd.xml"
              (architecture +:+ "/repodata/repomd.xml")) eqn:Hprefix;
    [|reflexivity].
  apply (prefix_first_slash "repodata" "repomd.xml" architecture
           "repodata/repomd.xml") in Hprefix as [_ Habsurd];
    [done|done|exact Hfree].
Qed.

(** X14: for centos7 and an architecture without [/], the package list is
    looked for below the base URL of the distribution: the location is
    joined against [https://vault.centos.org/7.9.2009/os/], the architecture
    and [/]. *)
Theorem centos7_package_list_url {W} `{!Runtime W}
    (architecture repo location : string) (config : Config) :
  REPO_CONFIGS !! "centos7" = Some config →
  slash_free architecture →
  ∃ repomd_url,
    repomd_url_of "centos7" architecture repo config = inr repomd_url
    ∧ primary_url_of repomd_url location
      = library (urljoin ("https://vault.centos.org/7.9.2009/os/"
                          +:+ architecture +:+ "/") location)
    ∧ primary_url_of repomd_url location
      = expected_primary_url repomd_url location.
Proof.
  intros Hconfig Hfree. eexists. split; [by apply repomd_url_of_centos7|].
  rewrite <- (str_app_assoc "https://vault.centos.org/7.9.2009/os/").
  destruct (package_list_url_when_segment_occurs_once
              ("https://vault.centos.org/7.9.2009/os/" +:+ architecture) location
              (centos7_segment_occurs_once _ Hfree)) as (_ & Hdir & Hurl).
  rewrite Hurl, str_app_assoc. split; [done|].
  unfold expected_primary_url. by rewrite Hdir, str_app_assoc.
Qed.

(** On the example: the architecture [aarch64]. *)
Lemma centos7_package_list_url_witness :
  slash_free "aarch64"
  ∧ primary_url_of (W := Fixture.Web)
      "https://vault.centos.org/7.9.2009/os/aarch64/repodata/repomd.xml"
      "repodata/primary.xml.gz"
    = inr "https://vault.centos.org/7.9.2009/os/aarch64/repodata/primary.xml.gz".
Proof.
  assert (slash_free "aarch64") as Hfree by reflexivity.
  split; [exact Hfree|].
  destruct (centos7_package_list_url (W := Fixture.Web) "aarch64" "os"
              "repodata/primary.xml.gz" Fixture.centos7_config eq_refl Hfree)
    as (url & Hurl & -> & _).
  by vm_compute.
Defined.

(** ** The index URLs of the alma distributions *)

Lemma str_app_inj_r (r1 r2 s : string) : r1 +:+ s = r2 +:+ s → r1 = r2.
Proof.
  intros Heq.
  assert (String.length r1 = String.length r2) as Hlen.
  { apply (f_equal String.length) in Heq. rewrite !str_length_app in Heq. lia. }
  revert r2 Heq Hlen. induction r1 as [|c r1 IH]; intros [|d r2] Heq Hlen;
    try done.
  change (String c (r1 +:+ s) = String d (r2 +:+ s)) in Heq.
  injection Heq as -> Heq. f_equal. apply IH; [done|]. by injection Hlen.
Qed.

(** X15: for alma8 and alma9 the index URL holds the name of the
    sub-repository and the architecture as they are given, and two
    sub-repositories with different names have different index URLs. *)
Theorem alma_index_url_names_the_sub_repository {W} `{!Runtime W}
    (distro architecture repo repo' : string) (config : Config) :
  REPO_CONFIGS !! distro = Some config →
  distro ≠ "centos7" →
  (∃ release,
     (distro = "alma8" ∧ release = "8.9" ∨ distro = "alma9" ∧ release = "9.4")
     ∧ repomd_url_of distro architecture repo config
       = inr ("https://vault.almalinux.org/" +:+ release +:+ "/" +:+ repo
              +:+ "/" +:+ architecture +:+ "/os/repodata/repomd.xml"))
  ∧ (repomd_url_of distro architecture repo config
     = repomd_url_of distro architecture repo' config →
     repo = repo').
Proof.
  intros Hconfig Hdistro.
  destruct (repomd_url_of_alma _ architecture repo _ Hconfig Hdistro)
    as (release & Hrelease & Hurl).
  destruct (repomd_url_of_alma _ architecture repo' _ Hconfig Hdistro)
    as (release' & Hrelease' & Hurl').
  split; [by exists release|].
  rewrite Hurl, Hurl'. intros [= Heq].
  assert (release' = release) as ->
    by (destruct Hrelease as [[-> ->]|[-> ->]];
        by destruct Hrelease' as [[? ->]|[? ->]]).
  apply (inj (String.app _)), (inj (String.app _)), (inj (String.app _)) in Heq.
  by apply str_app_inj_r in Heq.
Qed.

(** On the example: [BaseOS] of alma9. *)
Lemma alma_index_url_names_the_sub_repository_witness :
  repomd_url_of "alma9" "x86_64" "BaseOS" Fixture.alma9_config
  = inr "https://vault.almalinux.org/9.4/BaseOS/x86_64/os/repodata/repomd.xml".
Proof.
  assert ("alma9" ≠ "centos7") as Hdistro by done.
  destruct (alma_index_url_names_the_sub_repository (W := Fixture.Web) "alma9"
              "x86_64" "BaseOS" "BaseOS" Fixture.alma9_config eq_refl Hdistro)
    as [(release & [[[=] _]|[_ ->]] & ->) _].
  reflexivity.
Defined.

(** ** Removing the namespace declaration *)

Lemma strip_prefix_app (p s : bytes) : strip_prefix p (p ++ s) = Some s.
Proof.
  induction p as [|a p IH]; [by destruct s|].
  cbn [app strip_prefix]. by rewrite Strings.Byte.byte_dec_lb.
Qed.

Lemma match_value_quoted (seen : bool) (value tail : bytes) :
  Forall (λ c, c ≠ dquote) value →
  match_value seen (value ++ dquote :: tail)
  = if seen || negb (bool_decide (value = [])) then Some tail else None.
Proof.
  intros Hvalue. revert seen.
  induction Hvalue as [|c value Hc _ IH]; intros seen.
  - cbn. by destruct seen.
  - cbn [app match_value].
    destruct (Byte.eqb c dquote) eqn:Heq.
    { by apply Strings.Byte.byte_dec_bl in Heq. }
    rewrite IH. cbn [orb]. by rewrite orb_true_r.
Qed.

Lemma is_space_not_x (c : Byte.byte) : is_space c = true → Byte.eqb c Byte.x78 = false.
Proof. by destruct c. Qed.

(** No match starts at a byte that is not white space, or whose
    successor is not [x]. *)
Lemma match_xmlns_none (c d : Byte.byte) (s : bytes) :
  is_space c && Byte.eqb d Byte.x78 = false →
  match_xmlns (c :: d :: s) = None.
Proof.
  intros Hno. unfold match_xmlns. destruct (is_space c); [|done].
  cbn [andb] in Hno.
  change (strip_prefix (B "xmlns=" ++ [dquote]) (d :: s))
    with (if Byte.eqb Byte.x78 d
          then strip_prefix (B "mlns=" ++ [dquote]) s else None).
  destruct (Byte.eqb Byte.x78 d) eqn:Hx; [|done].
  apply Strings.Byte.byte_dec_bl in Hx as <-. done.
Qed.

Lemma space_then_x_tail (c : Byte.byte) (s : bytes) :
  space_then_x (c :: s) = false → space_then_x s = false.
Proof.
  destruct s as [|d s]; [done|]. intros Hno.
  change (is_space c && Byte.eqb d Byte.x78 || space_then_x (d :: s) = false)
    in Hno.
  by apply orb_false_elim in Hno as [_ Hno].
Qed.

Lemma space_then_x_head (c d : Byte.byte) (s : bytes) :
  space_then_x (c :: d :: s) = false →
  is_space c && Byte.eqb d Byte.x78 = false.
Proof.
  intros Hno.
  change (is_space c && Byte.eqb d Byte.x78 || space_then_x (d :: s) = false)
    in Hno.
  by apply orb_false_elim in Hno as [Hno _].
Qed.

(** Where no white-space byte is followed by [x], nothing is removed. *)
Lemma strip_xmlns_unchanged (data : bytes) :
  space_then_x data = false → strip_xmlns data = data.
Proof.
  induction data as [|c data IH]; [done|]. intros Hno.
  cbn [strip_xmlns].
  assert (match_xmlns (c :: data) = None) as ->.
  { destruct data as [|d data].
    - unfold match_xmlns. by destruct (is_space c).
    - by apply match_xmlns_none, (space_then_x_head _ _ data). }
  f_equal. by apply IH, (space_then_x_tail c).
Qed.

(** X16: the namespace declaration of the root element is removed and
    nothing else: when no white-space byte before it is followed by [x], a
    declaration made of a white-space byte, [xmlns=] and a quoted value that
    is not empty is cut out, and what follows it is left as it is, a second
    declaration included.  Data in which no white-space byte is followed by
    [x] are left unchanged. *)
Theorem strip_xmlns_removes_first_declaration
    (head value tail : bytes) (space : Byte.byte) :
  space_then_x head = false →
  is_space space = true →
  value ≠ [] →
  Forall (λ c, c ≠ dquote) value →
  strip_xmlns (head ++ space :: B "xmlns=" ++ dquote :: value ++ dquote :: tail)
  = head ++ tail
  ∧ strip_xmlns head = head.
Proof.
  intros Hhead Hspace Hvalue Hquote.
  split; [|by apply strip_xmlns_unchanged].
  induction head as [|c head IH].
  - cbn [app strip_xmlns]. unfold match_xmlns. rewrite Hspace.
    change (B "xmlns=" ++ dquote :: value ++ dquote :: tail)
      with ((B "xmlns=" ++ [dquote]) ++ value ++ dquote :: tail).
    rewrite strip_prefix_app, (match_value_quoted _ _ _ Hquote).
    cbn [orb]. by rewrite bool_decide_eq_false_2.
  - change ((c :: head) ++ ?s) with (c :: head ++ s). cbn [strip_xmlns].
    assert (match_xmlns
              (c :: head ++ space :: B "xmlns=" ++ dquote :: value
                      ++ dquote :: tail) = None) as ->.
    { destruct head as [|d head].
      - apply match_xmlns_none. rewrite (is_space_not_x _ Hspace).
        apply andb_false_r.
      - by apply match_xmlns_none, (space_then_x_head _ _ head). }
    f_equal. by apply IH, (space_then_x_tail c).
Qed.

(** On the example: the first index of the examples, which declares the
    namespace of the repository metadata. *)
Lemma strip_xmlns_removes_first_declaration_witness :
  strip_xmlns Fixture.index_one = Fixture.index_one_stripped.
Proof.
  assert (Forall (λ c, c ≠ dquote) (B "http://linux.duke.edu/metadata/repo"))
    as Hquote by (repeat constructor; done).
  assert (B "http://linux.duke.edu/metadata/repo" ≠ []) as Hvalue by done.
  exact (proj1 (strip_xmlns_removes_first_declaration (B "<repomd")
                  (B "http://linux.duke.edu/metadata/repo")
                  (B "><data type='primary'><location href='repodata/primary.xml.gz'/></data></repomd>")
                  Byte.x20 eq_refl eq_refl Hvalue Hquote)).
Defined.

(** ** A run with the defaults *)

(** X17: run with a search term and no option, [main] searches the four
    sub-repositories of alma9 for the architecture x86_64: it requests
    their indexes in the order BaseOS, AppStream, CRB, devel, whatever the
    sites answer, and returns 0. *)
Theorem default_run_searches_alma9 {W} `{!Runtime W}
    (search_term : string) (exact : bool) (w : W) :
  search_term ≠ "" →
  let cl := {| cl_search_term := Some search_term; cl_distro := None;
               cl_architecture := None; cl_repo := None;
               cl_exact := exact |} in
  result_of (main cl w) = inr 0%Z
  ∧ index_requests (network_calls (events_of (main cl w)))
    = ["https://vault.almalinux.org/9.4/BaseOS/x86_64/os/repodata/repomd.xml";
       "https://vault.almalinux.org/9.4/AppStream/x86_64/os/repodata/repomd.xml";
       "https://vault.almalinux.org/9.4/CRB/x86_64/os/repodata/repomd.xml";
       "https://vault.almalinux.org/9.4/devel/x86_64/os/repodata/repomd.xml"].
Proof.
  intros Hterm cl.
  assert (parse_args cl
          = inr {| arg_search_term := Some search_term; arg_distro := "alma9";
                   arg_architecture := "x86_64"; arg_repo := None;
                   arg_exact := exact |}) as Hargs by done.
  set (args := {| arg_search_term := Some search_term; arg_distro := "alma9";
                  arg_architecture := "x86_64"; arg_repo := None;
                  arg_exact := exact |}) in *.
  assert (determine_search_term args = Some search_term) as Hread
    by (by destruct search_term).
  assert (∃ config, REPO_CONFIGS !! "alma9" = Some config
                    ∧ repos config = ["BaseOS"; "AppStream"; "CRB"; "devel"])
    as (config & Hconfig & Hrepos) by (by eexists).
  rewrite main_eq, Hargs. split.
  - destruct (main_from_supported args search_term config w Hterm Hconfig)
      as (all_packages & _ & Hmain).
    unfold main_body. by rewrite Hread, Hmain.
  - destruct (index_requests_follow_repos args search_term config w Hread Hterm
                Hconfig) as (urls & Hurls & ->).
    assert ("alma9" ≠ "centos7") as Hdistro by done.
    assert (∀ repo url,
              repomd_url_of "alma9" "x86_64" repo config = inr url →
              url = "https://vault.almalinux.org/9.4/" +:+ repo
                    +:+ "/x86_64/os/repodata/repomd.xml") as Hurl.
    { intros repo url Heq.
      destruct (repomd_url_of_alma "alma9" "x86_64" repo config Hconfig Hdistro)
        as (release & [[[=] _]|[_ ->]] & Halma).
      rewrite Halma in Heq. by injection Heq as <-. }
    unfold repos_to_search_of in Hurls. cbn [args arg_repo truthy] in Hurls.
    rewrite Hrepos in Hurls.
    cbn [args arg_distro arg_architecture] in Hurls.
    apply Forall2_cons_inv_l in Hurls as (u1 & urls1 & H1 & Hurls & ->).
    apply Forall2_cons_inv_l in Hurls as (u2 & urls2 & H2 & Hurls & ->).
    apply Forall2_cons_inv_l in Hurls as (u3 & urls3 & H3 & Hurls & ->).
    apply Forall2_cons_inv_l in Hurls as (u4 & urls4 & H4 & Hurls & ->).
    apply Forall2_nil_inv_l in Hurls as ->.
    by rewrite (Hurl _ _ H1), (Hurl _ _ H2), (Hurl _ _ H3), (Hurl _ _ H4).
Qed.

(** On the example: [kernel] with no option, against the sites of the
    examples, none of which answers for alma9. *)
Lemma default_run_searches_alma9_witness :
  result_of (main {| cl_search_term := Some "kernel"; cl_distro := None;
                     cl_architecture := None; cl_repo := None;
                     cl_exact := false |} Fixture.web)
  = inr 0%Z.
Proof.
  assert ("kernel" ≠ "") as Hterm by done.
  exact (proj1 (default_run_searches_alma9 "kernel" false Fixture.web Hterm)).
Defined.

(** ** The search term on the command line *)

(** X18: [--search-term] does not supply the search term by itself.  On a
    command line without a word of its own for the positional argument,
    whatever [--search-term] is given, a namespace that [argparse] returns
    has [None] for the search term, so that the program ends with status
    2, or with the help, without a request. *)
Theorem search_term_option_needs_positional {W} `{!Runtime W}
    (format_help : list string) (argv : list string) (line : list Arg)
    (w : W) :
  read_argv argv = Some line →
  positional_words line = [] →
  let run := main_argv format_help line w in
  (∀ args, parse_argv line = Returned args → arg_search_term args = None)
  ∧ (run = (inl (SystemExit 2), w, [])
     ∨ Flag OptHelp ∈ line
       ∧ run = (inl (SystemExit 0), w, map Stdout format_help))
  ∧ network_calls (events_of run) = [].
Proof.
  intros _ Hwords run.
  assert (∀ args, parse_argv line = Returned args → arg_search_term args = None)
    as Hnone by (intros args; by apply scan_no_positional).
  assert (run = (inl (SystemExit 2), w, [])
          ∨ Flag OptHelp ∈ line
            ∧ run = (inl (SystemExit 0), w, map Stdout format_help)) as Hrun.
  { destruct (main_argv_outcome format_help line w)
      as [[Hhelp Hrun]|[Hrun|(args & s & Hparse & Hs & _)]].
    - right. split; [|done]. by apply (scan_help _ _ _ _ Hhelp).
    - by left.
    - by rewrite (Hnone _ Hparse) in Hs. }
  split_and!; [done|done|].
  destruct Hrun as [->|[_ ->]]; [done|]. apply network_calls_help.
Qed.

(** On the example: the third command line of the help text of the
    program, line 103. *)
Lemma search_term_option_needs_positional_witness :
  read_argv ["--search-term"; "kernel"; "--distro"; "alma8"; "--repo"; "BaseOS"]
  = Some [Flag OptSearchTerm; Word "kernel"; Flag OptDistro; Word "alma8";
          Flag OptRepo; Word "BaseOS"]
  ∧ main_argv Mirror.help
      [Flag OptSearchTerm; Word "kernel"; Flag OptDistro; Word "alma8";
       Flag OptRepo; Word "BaseOS"] Fixture.web
    = (inl (SystemExit 2), Fixture.web, []).
Proof.
  split; [reflexivity|].
  destruct (search_term_option_needs_positional Mirror.help
              ["--search-term"; "kernel"; "--distro"; "alma8"; "--repo";
               "BaseOS"]
              [Flag OptSearchTerm; Word "kernel"; Flag OptDistro; Word "alma8";
               Flag OptRepo; Word "BaseOS"] Fixture.web eq_refl eq_refl)
    as (_ & [Hexit|[Hhelp _]] & _); [exact Hexit|].
  exfalso. repeat (apply elem_of_cons in Hhelp as [[=]|Hhelp]).
  by apply elem_of_nil in Hhelp.
Defined.
